(** * getbiji-sync: a shallow embedding of the sync client

    The development follows the TypeScript sources:
    - [markdown.ts]: [sanitizeFilename], [resolveFilename], [bijiNoteToRawNote];
    - [api.ts]: [requestWithRetry], [fetchNotes], [fetchLinkDetail];
    - [auth.ts]: [validateRefreshToken], [refreshJwt], [decodeJwt];
    - [sync.ts]: [syncBiji];
    - [main.ts]: [triggerSync].

    JavaScript strings are sequences of UTF-16 code units, asynchronous code
    is a state-and-exception monad over the host application's world, and the
    calls the program makes to the outside are recorded in a trace. *)

From Stdlib Require Import List ZArith NArith Bool Ascii String Lia.
Import ListNotations.

Set Implicit Arguments.
Set Warnings "-register-all".

(* ------------------------------------------------------------------ *)
(** ** JavaScript strings and nullable fields *)

(** A UTF-16 code unit. *)
Definition char := N.

Definition jsstring := list char.

(** The code units of an ASCII literal. *)
Definition str (s : string) : jsstring :=
  map N_of_ascii (list_ascii_of_string s).

Definition jsstring_eq_dec : forall a b : jsstring, {a = b} + {a <> b} :=
  list_eq_dec N.eq_dec.

Definition jsstring_eqb (a b : jsstring) : bool :=
  if jsstring_eq_dec a b then true else false.

(** A property that may be absent ([undefined]), [null], or hold a value. *)
Inductive Field (A : Type) : Type :=
| Undefined
| Null
| Val (a : A).

Arguments Undefined {A}.
Arguments Null {A}.
Arguments Val {A} a.

(** Truthiness of [string | null | undefined]: only a non-empty string. *)
Definition truthy (f : Field jsstring) : bool :=
  match f with
  | Val (_ :: _) => true
  | _ => false
  end.

Definition truthyBool (f : Field bool) : bool :=
  match f with
  | Val b => b
  | _ => false
  end.

(** [a ?? d] *)
Definition nullish_or {A} (f : Field A) (d : A) : A :=
  match f with
  | Val a => a
  | _ => d
  end.

(** [a || d] on strings. *)
Definition or_else (f : Field jsstring) (d : jsstring) : jsstring :=
  match f with
  | Val (c :: s) => c :: s
  | _ => d
  end.

(** [a === b] between two nullable strings. *)
Definition strict_eq (a b : Field jsstring) : bool :=
  match a, b with
  | Undefined, Undefined => true
  | Null, Null => true
  | Val x, Val y => jsstring_eqb x y
  | _, _ => false
  end.

(** [WhiteSpace] and [LineTerminator] code units: what [\s] matches and what
    [trim] removes. *)
Definition isWhiteSpace (c : char) : bool :=
  ((9 <=? c) && (c <=? 13) || (c =? 32) || (c =? 160) || (c =? 5760)
   || (8192 <=? c) && (c <=? 8202) || (c =? 8232) || (c =? 8233)
   || (c =? 8239) || (c =? 8287) || (c =? 12288) || (c =? 65279))%N.

Fixpoint dropWhile {A} (p : A -> bool) (l : list A) : list A :=
  match l with
  | [] => []
  | x :: r => if p x then dropWhile p r else l
  end.

(** [s.trim()] *)
Definition trim (s : jsstring) : jsstring :=
  rev (dropWhile isWhiteSpace (rev (dropWhile isWhiteSpace s))).

(* ------------------------------------------------------------------ *)
(** ** markdown.ts: file names *)

(** The placeholder title, U+65E0 U+6807 U+9898. *)
Definition NO_TITLE : jsstring := [26080; 26631; 39064]%N.

(** [UNSAFE_CHARS]: slash, backslash, question mark, percent, star, colon,
    bar, double quote, angle brackets and NUL. *)
Definition isUnsafeChar (c : char) : bool :=
  ((c =? 47) || (c =? 92) || (c =? 63) || (c =? 37) || (c =? 42)
   || (c =? 58) || (c =? 124) || (c =? 34) || (c =? 60) || (c =? 62)
   || (c =? 0))%N.

(** Replacing every run of white space by one space: [inRun] tells that the
    previous code unit was white space, whose run has already produced its
    single space. *)
Fixpoint collapseWhitespace (inRun : bool) (s : jsstring) : jsstring :=
  match s with
  | [] => []
  | c :: r =>
      if isWhiteSpace c
      then (if inRun then collapseWhitespace true r
            else 32%N :: collapseWhitespace true r)
      else c :: collapseWhitespace false r
  end.

Definition sanitizeFilename (name : jsstring) : jsstring :=
  let result :=
    firstn 200
      (trim
         (dropWhile (N.eqb 46)
            (collapseWhitespace false
               (filter (fun c => negb (isUnsafeChar c)) name)))) in
  match result with
  | [] => NO_TITLE
  | _ => result
  end.

(** [resolveFilename(title, bijiId, existingBijiId?)]; the third argument is
    [Undefined] when the caller leaves it out. *)
Definition resolveFilename (title bijiId : jsstring)
    (existingBijiId : Field jsstring) : jsstring :=
  let base := sanitizeFilename (or_else (Val title) NO_TITLE) in
  if negb (strict_eq existingBijiId Undefined)
     && negb (strict_eq existingBijiId (Val bijiId))
  then base ++ str "-" ++ firstn 6 bijiId
  else base.

(** [s.replace(/p/g, repl)] for a pattern [p] that matches one code unit at a
    time and a replacement text without [$]. *)
Definition replaceEach (p : char -> bool) (repl : jsstring) (s : jsstring)
  : jsstring :=
  flat_map (fun c => if p c then repl else [c]) s.

(** The seven replacements of [escapeYamlString], in the order of the source:
    backslash, double quote, line feed, carriage return, tab, NUL, and the
    line and paragraph separators. *)
Definition escapeYamlString (value : jsstring) : jsstring :=
  let s1 := replaceEach (fun c => c =? 92)%N [92; 92]%N value in
  let s2 := replaceEach (fun c => c =? 34)%N [92; 34]%N s1 in
  let s3 := replaceEach (fun c => c =? 10)%N [92; 110]%N s2 in
  let s4 := replaceEach (fun c => c =? 13)%N [92; 114]%N s3 in
  let s5 := replaceEach (fun c => c =? 9)%N [92; 116]%N s4 in
  let s6 := replaceEach (fun c => c =? 0)%N [] s5 in
  replaceEach (fun c => (c =? 8232) || (c =? 8233))%N [] s6.

(* ------------------------------------------------------------------ *)
(** ** types.ts and the Note Normalizer *)

Record BijiTag := {
  tag_id : Field jsstring;
  tag_name : Field jsstring;
  tag_type : Field jsstring
}.

Record Attachment := {
  att_type : Field jsstring;
  att_url : Field jsstring;
  att_title : Field jsstring
}.

(** The wire record.  The declared types are plain strings and arrays; the
    fields are nullable here because the converter guards against their
    absence. *)
Record BijiNote := {
  id : Field jsstring;
  note_id : Field jsstring;
  title : Field jsstring;
  content : Field jsstring;
  body_text : Field jsstring;
  source : Field jsstring;
  note_type : Field jsstring;
  entry_type : Field jsstring;
  tags : Field (list BijiTag);
  attachments : Field (list Attachment);
  created_at : Field jsstring;
  updated_at : Field jsstring;
  edit_time : Field jsstring
}.

Record RawNote := {
  rn_id : jsstring;
  rn_title : jsstring;
  rn_content : jsstring;
  rn_tags : list jsstring;
  rn_createdAt : Field jsstring;
  rn_updatedAt : Field jsstring;
  rn_sourceUrl : Field jsstring;
  rn_noteType : Field jsstring;
  rn_entryType : Field jsstring;
  rn_origin : Field jsstring;
  rn_originalContent : Field jsstring
}.

Definition set_originalContent (r : RawNote) (c : Field jsstring) : RawNote :=
  {| rn_id := rn_id r; rn_title := rn_title r; rn_content := rn_content r;
     rn_tags := rn_tags r; rn_createdAt := rn_createdAt r;
     rn_updatedAt := rn_updatedAt r; rn_sourceUrl := rn_sourceUrl r;
     rn_noteType := rn_noteType r; rn_entryType := rn_entryType r;
     rn_origin := rn_origin r; rn_originalContent := c |}.

(** Text rendering of [markdown.ts] ([cleanHtml], [buildMarkdown]): regular
    expression rewriting whose output text no property below depends on. *)
Class Rendering := {
  cleanHtml : jsstring -> jsstring;
  buildMarkdown : RawNote -> jsstring
}.

Definition UNKNOWN : jsstring := str "unknown".
Definition SYSTEM : jsstring := str "system".

(** The names of the tags that have a name and are not of type system;
    a null or absent tag list counts as empty. *)
Definition tagNames (ts : Field (list BijiTag)) : list jsstring :=
  flat_map
    (fun t =>
       if truthy (tag_name t) && negb (strict_eq (tag_type t) (Val SYSTEM))
       then [or_else (tag_name t) []] else [])
    (nullish_or ts []).

(** [(note.attachments ?? []).find(a => a.url)?.url] *)
Definition firstUrl (atts : Field (list Attachment)) : Field jsstring :=
  match find (fun a => truthy (att_url a)) (nullish_or atts []) with
  | Some a => att_url a
  | None => Undefined
  end.

Definition bijiNoteToRawNote `{Rendering} (note : BijiNote) : option RawNote :=
  match id note with
  | Val (c :: s) =>
      let rawContent :=
        match content note with
        | Val (c0 :: s0) => c0 :: s0
        | _ => or_else (body_text note) []
        end in
      Some {| rn_id := c :: s;
              rn_title := or_else (title note) NO_TITLE;
              rn_content := cleanHtml rawContent;
              rn_tags := tagNames (tags note);
              rn_createdAt := created_at note;
              rn_updatedAt := updated_at note;
              rn_sourceUrl := firstUrl (attachments note);
              rn_noteType := Val (nullish_or (note_type note) UNKNOWN);
              rn_entryType := entry_type note;
              rn_origin := source note;
              rn_originalContent := Undefined |}
  | _ => None
  end.

(* ------------------------------------------------------------------ *)
(** ** Errors, requests and responses *)

(** Values that the program throws and catches.  [Failure] is a value thrown
    by the host (a failed request, a failed file operation): [status] is
    [err?.status], [retryAfter] is the retry-after entry of [err?.headers],
    and [tag] tells such values apart. *)
Inductive Err : Type :=
| Failure (status : option Z) (retryAfter : Field jsstring) (tag : nat)
| RefreshRejected
| TypeError
| AuthFatalError (message : string) (cause : option Err).

Definition status_of (e : Err) : option Z :=
  match e with
  | Failure st _ _ => st
  | _ => None
  end.

Definition retryAfter_of (e : Err) : Field jsstring :=
  match e with
  | Failure _ h _ => h
  | _ => Undefined
  end.

(** [err instanceof AuthFatalError] *)
Definition isAuthFatal (e : Err) : bool :=
  match e with
  | AuthFatalError _ _ => true
  | _ => false
  end.

(** Template-string coercion of a nullable string. *)
Definition toStr (f : Field jsstring) : jsstring :=
  match f with
  | Undefined => str "undefined"
  | Null => str "null"
  | Val s => s
  end.

(** The three endpoints, with the value that is URI-encoded into each. *)
Inductive Url : Type :=
| NotesUrl (since_id : jsstring)
| LinkDetailUrl (noteId : jsstring)
| RefreshUrl.

Inductive Method : Type := GET | POST.

Record RequestUrlParam := {
  url : Url;
  method : Method;
  headers : list (string * jsstring);
  body : option jsstring
}.

Record TokenObj := { tk_token : jsstring }.

(** What the program reads below [response.json.c]. *)
Record Payload := {
  c_list : Field (list BijiNote);
  c_has_content : Field bool;
  c_content : Field jsstring;
  c_success : Field bool;
  c_token : Field TokenObj
}.

(** [json_c] is [response.json?.c]. *)
Record Response := { json_c : Field Payload }.

Definition API_VERSION_HEADERS : list (string * jsstring) :=
  [ ("X-OAuth-Version", str "1");
    ("Content-Type", str "application/json");
    ("User-Agent",
     str "Mozilla/5.0 (Macintosh; Intel Mac OS X 10_15_7) AppleWebKit/537.36") ]%string.

Definition bearer (jwt : jsstring) : jsstring := str "Bearer " ++ jwt.

Definition apiHeaders (jwt : jsstring) : list (string * jsstring) :=
  ("Authorization"%string, bearer jwt) :: API_VERSION_HEADERS.

(** [{ ...headers, [k]: v }] *)
Fixpoint setHeader (k : string) (v : jsstring) (hs : list (string * jsstring))
  : list (string * jsstring) :=
  match hs with
  | [] => [(k, v)]
  | (k', v') :: r =>
      if String.eqb k k' then (k, v) :: r else (k', v') :: setHeader k v r
  end.

Definition getHeader (k : string) (hs : list (string * jsstring))
  : option jsstring :=
  match find (fun kv => String.eqb k (fst kv)) hs with
  | Some kv => Some (snd kv)
  | None => None
  end.

Definition withAuthorization (params : RequestUrlParam) (newJwt : jsstring)
  : RequestUrlParam :=
  {| url := url params; method := method params;
     headers := setHeader "Authorization" (bearer newJwt) (headers params);
     body := body params |}.

(* ------------------------------------------------------------------ *)
(** ** settings.ts *)

Record BijiSyncSettings := {
  refreshToken : jsstring;
  targetFolder : jsstring;
  lastSyncId : option jsstring;
  lastSyncTime : option Z;
  autoSyncEnabled : bool;
  autoSyncInterval : Z
}.

Definition set_lastSyncId (s : BijiSyncSettings) (i : option jsstring) :=
  {| refreshToken := refreshToken s; targetFolder := targetFolder s;
     lastSyncId := i; lastSyncTime := lastSyncTime s;
     autoSyncEnabled := autoSyncEnabled s;
     autoSyncInterval := autoSyncInterval s |}.

Definition set_lastSyncTime (s : BijiSyncSettings) (t : option Z) :=
  {| refreshToken := refreshToken s; targetFolder := targetFolder s;
     lastSyncId := lastSyncId s; lastSyncTime := t;
     autoSyncEnabled := autoSyncEnabled s;
     autoSyncInterval := autoSyncInterval s |}.

(* ------------------------------------------------------------------ *)
(** ** The host application and the machine *)

Inductive AbstractFile : Type := NotFound | TFolder | TFile.

Inductive NoticeMsg : Type :=
| NoticeTokenError (msg : string)
| NoticeProgress (syncCount : nat)
| NoticeCancelled (syncCount skipCount : nat)
| NoticeComplete (syncCount skipCount errorCount : nat)
| NoticeAlreadyInProgress
| NoticeSyncing
| NoticeAuthFailed
| NoticeAutoSyncStopped
| NoticeSyncFailed.

(** The JavaScript numbers that the program computes its delays with: NaN,
    the doubles whose value is an integer, and the two infinities.  Minus
    zero is not told from zero. *)
Inductive Number : Type :=
| NaN
| Num (z : Z)
| Infinity (negative : bool).

(** The calls that leave the program, in the order they are made. *)
Inductive Event : Type :=
| EvRequest (params : RequestUrlParam)
| EvRefresh
| EvDelay (ms : Number)
| EvCreateFolder (path : jsstring)
| EvCreate (path markdown : jsstring)
| EvSave (s : BijiSyncSettings)
| EvNotice (n : NoticeMsg).

(** The host: network, timers, cancellation signal, vault, metadata cache,
    plugin data and clock.  File handles are identified with their paths;
    [host_biji_id p w] is [getFileCache(file)?.frontmatter?.biji_id] for the
    file at [p]. *)
Class Host (World : Type) := {
  host_requestUrl : RequestUrlParam -> World -> (Response + Err) * World;
  host_setTimeout : Number -> World -> World;
  host_aborted : World -> bool;
  host_getAbstractFileByPath : jsstring -> World -> AbstractFile;
  host_biji_id : jsstring -> World -> Field jsstring;
  host_createFolder : jsstring -> World -> option Err * World;
  host_create : jsstring -> jsstring -> World -> option Err * World;
  host_saveData : BijiSyncSettings -> World -> option Err * World;
  host_now : World -> Z;
  normalizePath : jsstring -> jsstring
}.

Inductive Result (A : Type) : Type :=
| Ret (a : A)
| Throw (e : Err)
| OutOfFuel.

Arguments Ret {A} a.
Arguments Throw {A} e.
Arguments OutOfFuel {A}.

Section Machine.

Variable World : Type.
Context `{Host World}.

(** [settings] is the plugin's settings object and [jwt] the local variable
    of the running [syncBiji] that its refresh callback assigns. *)
Record Machine := {
  world : World;
  settings : BijiSyncSettings;
  jwt : jsstring;
  trace : list Event
}.

Definition M (A : Type) : Type := Machine -> Result A * Machine.

Definition ret {A} (a : A) : M A := fun m => (Ret a, m).

Definition throw {A} (e : Err) : M A := fun m => (Throw e, m).

Definition outOfFuel {A} : M A := fun m => (OutOfFuel, m).

Definition bind {A B} (c : M A) (k : A -> M B) : M B :=
  fun m =>
    match c m with
    | (Ret a, m') => k a m'
    | (Throw e, m') => (Throw e, m')
    | (OutOfFuel, m') => (OutOfFuel, m')
    end.

(** [try { c } catch (err) { handler }] *)
Definition tryCatch {A} (c : M A) (handler : Err -> M A) : M A :=
  fun m =>
    match c m with
    | (Throw e, m') => handler e m'
    | r => r
    end.

Definition with_world (m : Machine) (w : World) : Machine :=
  {| world := w; settings := settings m; jwt := jwt m; trace := trace m |}.

Definition emit (ev : Event) : M unit :=
  fun m =>
    (Ret tt,
     {| world := world m; settings := settings m; jwt := jwt m;
        trace := trace m ++ [ev] |}).

Definition liftOutcome {A} (f : World -> (A + Err) * World) : M A :=
  fun m =>
    match f (world m) with
    | (inl a, w) => (Ret a, with_world m w)
    | (inr e, w) => (Throw e, with_world m w)
    end.

Definition liftEffect (f : World -> option Err * World) : M unit :=
  fun m =>
    match f (world m) with
    | (None, w) => (Ret tt, with_world m w)
    | (Some e, w) => (Throw e, with_world m w)
    end.

Definition readWorld {A} (f : World -> A) : M A :=
  fun m => (Ret (f (world m)), m).

End Machine.

Arguments ret {World A} a.
Arguments throw {World A} e.
Arguments outOfFuel {World A}.
Arguments bind {World A B} c k.
Arguments tryCatch {World A} c handler.
Arguments with_world {World} m w.
Arguments emit {World} ev.
Arguments liftOutcome {World A} f.
Arguments liftEffect {World} f.
Arguments readWorld {World A} f.

Declare Scope monad_scope.
Delimit Scope monad_scope with monad.
Notation "x <- c ;; k" := (bind c (fun x => k))
  (at level 61, c at next level, right associativity) : monad_scope.
Notation "c ;; k" := (bind c (fun _ => k))
  (at level 61, right associativity) : monad_scope.

Local Open Scope monad_scope.

(* ------------------------------------------------------------------ *)
(** ** Numbers read from text *)

Definition digitValue (c : char) : option Z :=
  if ((48 <=? c) && (c <=? 57))%N then Some (Z.of_N (c - 48)) else None.

(** The value of the longest prefix of decimal digits, after the digits
    already read ([acc]); [None] when no digit has been read at all. *)
Fixpoint parseDigits (acc : option Z) (s : jsstring) : option Z :=
  match s with
  | [] => acc
  | c :: r =>
      match digitValue c with
      | Some d =>
          parseDigits
            (Some (10 * match acc with Some a => a | None => 0 end + d)%Z) r
      | None => acc
      end
  end.

(** The double that is nearest to an integer, ties going to the even
    significand: below 2^53 every integer is a double; above, the integer
    keeps its 53 leading bits, rounded on the bits that are cut off; from
    2^1024 on the result is infinite. *)
Definition roundToDouble (z : Z) : Number :=
  let a := Z.abs z in
  if (a <? 2 ^ 53)%Z then Num z
  else
    let e := (Z.log2 a - 52)%Z in
    let q := Z.shiftr a e in
    let r := Z.land a (Z.ones e) in
    let half := Z.shiftl 1 (e - 1) in
    let q' :=
      if (r <? half)%Z then q
      else if (half <? r)%Z then (q + 1)%Z
      else if Z.even q then q else (q + 1)%Z in
    let v := Z.shiftl q' e in
    if (v <? 2 ^ 1024)%Z then Num (Z.sgn z * v) else Infinity (z <? 0)%Z.

(** [parseInt(s, 10)]: leading white space, an optional sign, then the
    longest run of decimal digits, read in full and rounded to a double; NaN
    when no digit follows. *)
Definition parseInt10 (s : jsstring) : Number :=
  let number (negative : bool) (r : jsstring) :=
    match parseDigits None r with
    | Some n => roundToDouble (if negative then - n else n)
    | None => NaN
    end in
  match dropWhile isWhiteSpace s with
  | 45%N :: r => number true r
  | 43%N :: r => number false r
  | r => number false r
  end.

(** [Math.max(a, b)]: NaN when either argument is. *)
Definition mathMax (a b : Number) : Number :=
  match a, b with
  | NaN, _ | _, NaN => NaN
  | Infinity false, _ | _, Infinity false => Infinity false
  | Infinity true, x => x
  | x, Infinity true => x
  | Num x, Num y => Num (Z.max x y)
  end.

(** [a * 1000]: the product of two doubles is the double nearest to the
    exact product. *)
Definition times1000 (a : Number) : Number :=
  match a with
  | NaN => NaN
  | Num z => roundToDouble (z * 1000)
  | Infinity negative => Infinity negative
  end.

(* ------------------------------------------------------------------ *)
(** ** api.ts: the Resilient Request Executor *)

Definition PAGE_SIZE : nat := 50.
Definition PAGE_DELAY : Z := 300.
Definition DETAIL_DELAY : Z := 200.
Definition MAX_RETRIES : nat := 3.
Definition BACKOFF_BASE : Z := 1000.

Definition is401or403 (status : option Z) : bool :=
  match status with
  | Some st => (st =? 401)%Z || (st =? 403)%Z
  | None => false
  end.

(** [status && status >= 400 && status < 500 && status !== 429] *)
Definition isOther4xx (status : option Z) : bool :=
  match status with
  | Some st =>
      negb (st =? 0)%Z && (400 <=? st)%Z && (st <? 500)%Z && negb (st =? 429)%Z
  | None => false
  end.

(** [status === 429] *)
Definition is429 (status : option Z) : bool :=
  match status with
  | Some st => (st =? 429)%Z
  | None => false
  end.

(** The delay before the next attempt, as the catch block computes it. *)
Definition backoffDelay (attempt : nat) (err : Err) : Number :=
  let delay := roundToDouble (BACKOFF_BASE * 2 ^ Z.of_nat attempt) in
  if is429 (status_of err) then
    let retryAfter := retryAfter_of err in
    if truthy retryAfter
    then mathMax (times1000 (parseInt10 (toStr retryAfter))) delay
    else delay
  else delay.

Section Api.

Context {World : Type} `{Host World}.

Definition requestUrl (params : RequestUrlParam) : M World Response :=
  emit (EvRequest params) ;; liftOutcome (host_requestUrl params).

(** [await new Promise((r) => setTimeout(r, delay))] *)
Definition sleep (delay : Number) : M World unit :=
  emit (EvDelay delay) ;;
  fun m => (Ret tt, with_world m (host_setTimeout delay (world m))).

Definition signalAborted : M World bool := readWorld host_aborted.

(** The body of the [for] loop of [requestWithRetry] from [attempt] on, with
    [remaining = MAX_RETRIES - attempt] iterations left.  The loop ending
    without a [return] yields [undefined], which is [None]. *)
Fixpoint retryLoop (remaining attempt : nat) (params : RequestUrlParam)
    (refreshJwtCallback : M World jsstring) : M World (option Response) :=
  match remaining with
  | O => ret None
  | S remaining' =>
      tryCatch
        (r <- requestUrl params ;; ret (Some r))
        (fun err =>
           let status := status_of err in
           if is401or403 status then
             tryCatch
               (newJwt <- (emit EvRefresh ;; refreshJwtCallback) ;;
                let params' := withAuthorization params newJwt in
                tryCatch
                  (r <- requestUrl params' ;; ret (Some r))
                  (fun retryErr =>
                     if is401or403 (status_of retryErr)
                     then throw (AuthFatalError
                                   "Authentication failed after refresh"
                                   (Some retryErr))
                     else throw retryErr))
               (fun refreshErr =>
                  if isAuthFatal refreshErr then throw refreshErr
                  else throw (AuthFatalError "JWT refresh failed"
                                (Some refreshErr)))
           else if isOther4xx status then throw err
           else if Nat.eqb attempt (MAX_RETRIES - 1) then throw err
           else
             sleep (backoffDelay attempt err) ;;
             retryLoop remaining' (S attempt) params refreshJwtCallback)
  end.

Definition requestWithRetry (params : RequestUrlParam)
    (refreshJwtCallback : M World jsstring) : M World (option Response) :=
  retryLoop MAX_RETRIES 0 params refreshJwtCallback.

(** [response.json?.c] of what [requestWithRetry] resolved to; reading
    [.json] of [undefined] is a [TypeError]. *)
Definition responseC (response : option Response) : M World (Field Payload) :=
  match response with
  | Some r => ret (json_c r)
  | None => throw TypeError
  end.

(* ------------------------------------------------------------------ *)
(** ** api.ts: the Paginated Note Fetcher *)

(** Where the generator [fetchNotes] is suspended: before its first step, or
    at the [yield] of [page]. *)
Inductive GenState : Type :=
| GenStart
| GenYielded (page : list BijiNote).

Definition listOf (c : Field Payload) : list BijiNote :=
  match c with
  | Val p => nullish_or (c_list p) []
  | _ => []
  end.

(** One turn of [while (true)] up to the [yield]; [None] is the generator
    returning. *)
Definition fetchPage (jwt0 : jsstring) (refreshJwt : M World jsstring)
    (sinceId : jsstring) : M World (option (list BijiNote)) :=
  aborted <- signalAborted ;;
  if (aborted : bool) then ret None
  else
    response <- requestWithRetry
                  {| url := NotesUrl sinceId; method := GET;
                     headers := apiHeaders jwt0; body := None |}
                  refreshJwt ;;
    c <- responseC response ;;
    ret (Some (listOf c)).

(** [next()] of the generator [fetchNotes(jwt0, refreshJwt, signal)]. *)
Definition fetchNotes (jwt0 : jsstring) (refreshJwt : M World jsstring)
    (g : GenState) : M World (option (list BijiNote)) :=
  match g with
  | GenStart => fetchPage jwt0 refreshJwt []
  | GenYielded page =>
      let isLastPage := Nat.ltb (List.length page) PAGE_SIZE in
      if isLastPage || Nat.eqb (List.length page) 0 then ret None
      else
        let sinceId :=
          match last (map (fun n => Some (id n)) page) None with
          | Some i => toStr i
          | None => []
          end in
        sleep (Num PAGE_DELAY) ;;
        fetchPage jwt0 refreshJwt sinceId
  end.

(* ------------------------------------------------------------------ *)
(** ** api.ts: the Detail Fetcher *)

(** The failure is written to the console, which is not part of the trace. *)
Definition fetchLinkDetail (jwt0 noteId : jsstring) (refreshJwt : M World jsstring)
  : M World (Field jsstring) :=
  tryCatch
    (response <- requestWithRetry
                   {| url := LinkDetailUrl noteId; method := GET;
                      headers := apiHeaders jwt0; body := None |}
                   refreshJwt ;;
     data_c <- responseC response ;;
     match data_c with
     | Val c =>
         if truthyBool (c_has_content c) && truthy (c_content c)
         then ret (c_content c)
         else ret Null
     | _ => ret Null
     end)
    (fun err => if isAuthFatal err then throw err else ret Null).

(* ------------------------------------------------------------------ *)
(** ** auth.ts: refresh token and credential exchange *)

Definition validateRefreshToken (refreshToken : jsstring) : option string :=
  match refreshToken with
  | [] => Some "Please configure refresh token in settings"%string
  | _ => None
  end.

Definition refreshJwt (refreshToken : jsstring) : M World jsstring :=
  response <- requestUrl
                {| url := RefreshUrl; method := POST;
                   headers := [("Content-Type"%string, str "application/json")];
                   body := Some refreshToken |} ;;
  match json_c response with
  | Val c =>
      if truthyBool (c_success c) then
        match c_token c with
        | Val t => ret (tk_token t)
        | _ => throw TypeError
        end
      else throw RefreshRejected
  | _ => throw RefreshRejected
  end.

End Api.

(* ------------------------------------------------------------------ *)
(** ** sync.ts: the Sync Orchestrator *)

(** The counters and flags that [syncBiji] declares before its page loop. *)
Record LoopState := {
  syncCount : nat;
  skipCount : nat;
  errorCount : nat;
  newestNoteId : option jsstring;
  shouldStop : bool;
  isFirstPage : bool
}.

Definition initialLoopState : LoopState :=
  {| syncCount := 0; skipCount := 0; errorCount := 0;
     newestNoteId := None; shouldStop := false; isFirstPage := true |}.

(** How the [try] statement around one note ends: [syncCount++],
    [skipCount++] or [errorCount++]. *)
Inductive Verdict : Type := Synced | Skipped | Errored.

Definition count (v : Verdict) (ls : LoopState) : LoopState :=
  {| syncCount := match v with Synced => S (syncCount ls) | _ => syncCount ls end;
     skipCount := match v with Skipped => S (skipCount ls) | _ => skipCount ls end;
     errorCount := match v with Errored => S (errorCount ls) | _ => errorCount ls end;
     newestNoteId := newestNoteId ls;
     shouldStop := shouldStop ls;
     isFirstPage := isFirstPage ls |}.

(** [if (isFirstPage && newestNoteId === null && note.id) newestNoteId = note.id] *)
Definition capture (note : BijiNote) (ls : LoopState) : LoopState :=
  match newestNoteId ls with
  | None =>
      if isFirstPage ls && truthy (id note)
      then {| syncCount := syncCount ls; skipCount := skipCount ls;
              errorCount := errorCount ls;
              newestNoteId := Some (toStr (id note));
              shouldStop := shouldStop ls; isFirstPage := isFirstPage ls |}
      else ls
  | Some _ => ls
  end.

Definition set_shouldStop (ls : LoopState) : LoopState :=
  {| syncCount := syncCount ls; skipCount := skipCount ls;
     errorCount := errorCount ls; newestNoteId := newestNoteId ls;
     shouldStop := true; isFirstPage := isFirstPage ls |}.

Definition clear_isFirstPage (ls : LoopState) : LoopState :=
  {| syncCount := syncCount ls; skipCount := skipCount ls;
     errorCount := errorCount ls; newestNoteId := newestNoteId ls;
     shouldStop := shouldStop ls; isFirstPage := false |}.

(** [lastSyncId && note.id === lastSyncId] *)
Definition reachedCursor (lastSync : option jsstring) (note : BijiNote) : bool :=
  match lastSync with
  | Some (c :: s) => strict_eq (id note) (Val (c :: s))
  | _ => false
  end.

Definition LINK : jsstring := str "link".

Definition notePath (folder name : jsstring) : jsstring :=
  folder ++ str "/" ++ name ++ str ".md".

Section Sync.

Context {World : Type} `{Host World} `{Rendering}.

Definition readSettings : M World BijiSyncSettings :=
  fun m => (Ret (settings m), m).

Definition writeSettings (f : BijiSyncSettings -> BijiSyncSettings)
  : M World unit :=
  fun m =>
    (Ret tt,
     {| world := world m; settings := f (settings m); jwt := jwt m;
        trace := trace m |}).

Definition readJwt : M World jsstring := fun m => (Ret (jwt m), m).

Definition writeJwt (j : jsstring) : M World unit :=
  fun m =>
    (Ret tt,
     {| world := world m; settings := settings m; jwt := j;
        trace := trace m |}).

Definition notice (silent : bool) (n : NoticeMsg) : M World unit :=
  if negb silent then emit (EvNotice n) else ret tt.

Definition createFolder (path : jsstring) : M World unit :=
  emit (EvCreateFolder path) ;; liftEffect (host_createFolder path).

Definition create (path markdown : jsstring) : M World unit :=
  emit (EvCreate path markdown) ;; liftEffect (host_create path markdown).

Definition saveSettings : M World unit :=
  s <- readSettings ;;
  emit (EvSave s) ;; liftEffect (host_saveData s).

(** The callback that [syncBiji] hands to the fetchers. *)
Definition refreshJwtCallback : M World jsstring :=
  s <- readSettings ;;
  j <- refreshJwt (refreshToken s) ;;
  writeJwt j ;;
  ret j.

(** Steps 6e and 6f: the supplementary content of a link note. *)
Definition attachLinkContent (note : BijiNote) (rawNote : RawNote)
  : M World RawNote :=
  if strict_eq (rn_noteType rawNote) (Val LINK) then
    j <- readJwt ;;
    linkContent <- fetchLinkDetail j (toStr (id note)) refreshJwtCallback ;;
    let rawNote' :=
      if truthy linkContent
      then set_originalContent rawNote (Val (cleanHtml (toStr linkContent)))
      else rawNote in
    sleep (Num DETAIL_DELAY) ;;
    ret rawNote'
  else ret rawNote.

(** Step 6h: the name under which the note is written. *)
Definition finalNameOf (existingFile : AbstractFile) (targetPath : jsstring)
    (rawNote : RawNote) (baseName : jsstring) : M World jsstring :=
  match existingFile with
  | TFile =>
      existingBijiId <- readWorld (host_biji_id targetPath) ;;
      ret (resolveFilename (rn_title rawNote) (rn_id rawNote) existingBijiId)
  | _ => ret baseName
  end.

(** The body of the [try] statement of the note loop. *)
Definition syncNoteBody (folder : jsstring) (note : BijiNote)
  : M World Verdict :=
  match bijiNoteToRawNote note with
  | None => ret Skipped
  | Some rawNote =>
      let baseName :=
        resolveFilename (rn_title rawNote) (rn_id rawNote) Undefined in
      let targetPath := normalizePath (notePath folder baseName) in
      existingFile <- readWorld (host_getAbstractFileByPath targetPath) ;;
      alreadySynced <-
        match existingFile with
        | TFile =>
            existingBijiId <- readWorld (host_biji_id targetPath) ;;
            ret (strict_eq existingBijiId (id note))
        | _ => ret false
        end ;;
      if (alreadySynced : bool) then ret Skipped
      else
        rawNote' <- attachLinkContent note rawNote ;;
        let markdown := buildMarkdown rawNote' in
        finalName <- finalNameOf existingFile targetPath rawNote' baseName ;;
        let finalPath := normalizePath (notePath folder finalName) in
        create finalPath markdown ;;
        ret Synced
  end.

(** The [try] statement: only [AuthFatalError] leaves it. *)
Definition syncNote (folder : jsstring) (note : BijiNote) : M World Verdict :=
  tryCatch (syncNoteBody folder note)
    (fun err => if isAuthFatal err then throw err else ret Errored).

(** [for (const note of notes)], from the notes that are left. *)
Fixpoint noteLoop (folder : jsstring) (lastSync : option jsstring)
    (notes : list BijiNote) (ls : LoopState) : M World LoopState :=
  match notes with
  | [] => ret ls
  | note :: rest =>
      aborted <- signalAborted ;;
      if (aborted : bool) then ret ls
      else
        let ls1 := capture note ls in
        if reachedCursor lastSync note then ret (set_shouldStop ls1)
        else
          v <- syncNote folder note ;;
          noteLoop folder lastSync rest (count v ls1)
  end.

(** [for await (const { notes } of fetchNotes(...))]: [fuel] bounds the
    number of pages, [g] is where the generator is suspended. *)
Fixpoint pageLoop (fuel : nat) (silent : bool) (folder : jsstring)
    (lastSync : option jsstring) (jwt0 : jsstring) (g : GenState)
    (ls : LoopState) : M World LoopState :=
  match fuel with
  | O => outOfFuel
  | S fuel' =>
      page <- fetchNotes jwt0 refreshJwtCallback g ;;
      match page with
      | None => ret ls
      | Some notes =>
          aborted <- signalAborted ;;
          if (aborted : bool) then ret ls
          else
            ls1 <- noteLoop folder lastSync notes ls ;;
            let ls2 := clear_isFirstPage ls1 in
            aborted' <- signalAborted ;;
            if shouldStop ls2 || aborted' then ret ls2
            else
              notice silent (NoticeProgress (syncCount ls2)) ;;
              pageLoop fuel' silent folder lastSync jwt0 (GenYielded notes) ls2
      end
  end.

(** Step 3: the first credential exchange. *)
Definition obtainJwt : M World jsstring :=
  tryCatch
    (s <- readSettings ;; refreshJwt (refreshToken s))
    (fun err => throw (AuthFatalError "Failed to obtain JWT" (Some err))).

(** Step 4. *)
Definition ensureFolder (folder : jsstring) : M World unit :=
  existing <- readWorld (host_getAbstractFileByPath (normalizePath folder)) ;;
  match existing with
  | TFolder => ret tt
  | _ => createFolder (normalizePath folder)
  end.

(** Steps 7 and 8. *)
Definition finalize (silent : bool) (ls : LoopState) : M World unit :=
  match newestNoteId ls with
  | Some (c :: i) => writeSettings (fun s => set_lastSyncId s (Some (c :: i)))
  | _ => ret tt
  end ;;
  now <- readWorld host_now ;;
  writeSettings (fun s => set_lastSyncTime s (Some now)) ;;
  saveSettings ;;
  aborted <- signalAborted ;;
  if (aborted : bool)
  then notice silent (NoticeCancelled (syncCount ls) (skipCount ls))
  else notice silent
         (NoticeComplete (syncCount ls) (skipCount ls) (errorCount ls)).

(** Steps 2 to 4: what precedes the page loop, for a token that passed
    validation. *)
Definition prepare (folder : jsstring) : M World jsstring :=
  j <- obtainJwt ;;
  writeJwt j ;;
  ensureFolder folder ;;
  ret j.

Definition syncBiji (fuel : nat) (silent : bool) : M World unit :=
  s0 <- readSettings ;;
  let folder := targetFolder s0 in
  let lastSync := lastSyncId s0 in
  match validateRefreshToken (refreshToken s0) with
  | Some tokenError => notice silent (NoticeTokenError tokenError)
  | None =>
      j <- prepare folder ;;
      ls <- pageLoop fuel silent folder lastSync j GenStart initialLoopState ;;
      finalize silent ls
  end.

End Sync.

(* ------------------------------------------------------------------ *)
(** ** main.ts: the plugin and [triggerSync] *)

Definition MAX_AUTH_FAILURES : nat := 3.

(** The private fields of [BijiSyncPlugin] and the notices it has shown;
    [syncAbortController] tells whether the field holds a controller. *)
Record Plugin := {
  syncing : bool;
  syncAbortController : bool;
  autoSyncIntervalId : option Z;
  consecutiveAuthFailures : nat;
  notices : list NoticeMsg
}.

Definition initialPlugin : Plugin :=
  {| syncing := false; syncAbortController := false;
     autoSyncIntervalId := None; consecutiveAuthFailures := 0;
     notices := [] |}.

Definition showNotice (n : NoticeMsg) (p : Plugin) : Plugin :=
  {| syncing := syncing p; syncAbortController := syncAbortController p;
     autoSyncIntervalId := autoSyncIntervalId p;
     consecutiveAuthFailures := consecutiveAuthFailures p;
     notices := notices p ++ [n] |}.

Definition stopAutoSync (p : Plugin) : Plugin :=
  {| syncing := syncing p; syncAbortController := syncAbortController p;
     autoSyncIntervalId := None;
     consecutiveAuthFailures := consecutiveAuthFailures p;
     notices := notices p |}.

(** [intervalId] is what [window.setInterval] returns. *)
Definition startAutoSync (intervalId : Z) (p : Plugin) : Plugin :=
  {| syncing := syncing p; syncAbortController := syncAbortController p;
     autoSyncIntervalId := Some intervalId;
     consecutiveAuthFailures := 0;
     notices := notices p |}.

Definition set_consecutiveAuthFailures (n : nat) (p : Plugin) : Plugin :=
  {| syncing := syncing p; syncAbortController := syncAbortController p;
     autoSyncIntervalId := autoSyncIntervalId p;
     consecutiveAuthFailures := n;
     notices := notices p |}.

(** How the awaited [syncBiji] settles. *)
Inductive SyncOutcome : Type := SyncReturned | SyncAuthFatal | SyncFailed.

(** [triggerSync] up to its [await]: the new plugin state, and whether
    [syncBiji] has been called. *)
Definition triggerSync_enter (silent : bool) (p : Plugin) : Plugin * bool :=
  if syncing p then
    ((if negb silent then showNotice NoticeAlreadyInProgress p else p), false)
  else
    let p1 :=
      {| syncing := true; syncAbortController := true;
         autoSyncIntervalId := autoSyncIntervalId p;
         consecutiveAuthFailures := consecutiveAuthFailures p;
         notices := notices p |} in
    ((if negb silent then showNotice NoticeSyncing p1 else p1), true).

(** [triggerSync] after its [await]: the rest of [try], [catch] and
    [finally]. *)
Definition triggerSync_settle (silent : bool) (o : SyncOutcome) (p : Plugin)
  : Plugin :=
  let p1 :=
    match o with
    | SyncReturned => set_consecutiveAuthFailures 0 p
    | SyncAuthFatal =>
        if silent then
          let p' :=
            set_consecutiveAuthFailures (S (consecutiveAuthFailures p)) p in
          if Nat.leb MAX_AUTH_FAILURES (consecutiveAuthFailures p')
          then showNotice NoticeAutoSyncStopped (stopAutoSync p')
          else p'
        else showNotice NoticeAuthFailed p
    | SyncFailed =>
        if negb silent then showNotice NoticeSyncFailed p else p
    end in
  {| syncing := false; syncAbortController := false;
     autoSyncIntervalId := autoSyncIntervalId p1;
     consecutiveAuthFailures := consecutiveAuthFailures p1;
     notices := notices p1 |}.

(** The plugin together with the [syncBiji] calls that have been started and
    have not settled, each with its [silent] option. *)
Record System := {
  plugin : Plugin;
  running : list bool
}.

Definition initialSystem : System :=
  {| plugin := initialPlugin; running := [] |}.

(** What can happen between two turns of the event loop. *)
Inductive step : System -> System -> Prop :=
| step_trigger (silent : bool) (sys : System) :
    step sys
      {| plugin := fst (triggerSync_enter silent (plugin sys));
         running :=
           if snd (triggerSync_enter silent (plugin sys))
           then running sys ++ [silent] else running sys |}
| step_settle (silent : bool) (o : SyncOutcome) (sys : System)
    (before after : list bool) :
    running sys = before ++ silent :: after ->
    step sys
      {| plugin := triggerSync_settle silent o (plugin sys);
         running := before ++ after |}
| step_startAutoSync (intervalId : Z) (sys : System) :
    step sys
      {| plugin := startAutoSync intervalId (plugin sys);
         running := running sys |}
| step_stopAutoSync (sys : System) :
    step sys
      {| plugin := stopAutoSync (plugin sys); running := running sys |}.

Inductive reachable : System -> Prop :=
| reachable_initial : reachable initialSystem
| reachable_step (sys sys' : System) :
    reachable sys -> step sys sys' -> reachable sys'.

(* ------------------------------------------------------------------ *)
(** ** auth.ts: [decodeJwt] *)

(** A computation that returns or throws. *)
Inductive Exc (A : Type) : Type :=
| Return (a : A)
| Raise.

Arguments Return {A} a.
Arguments Raise {A}.

(** [s.split(sep)] for a one-unit separator. *)
Fixpoint splitOn (sep : char) (s : jsstring) : list jsstring :=
  match s with
  | [] => [[]]
  | c :: r =>
      if (c =? sep)%N then [] :: splitOn sep r
      else
        match splitOn sep r with
        | seg :: segs => (c :: seg) :: segs
        | [] => [[c]]
        end
  end.

(** [.replace(/-/g, "+").replace(/_/g, "/")], then the padding. *)
Definition toBase64 (segment : jsstring) : jsstring :=
  let base64 :=
    map (fun c => if (c =? 95)%N then 47%N else c)
      (map (fun c => if (c =? 45)%N then 43%N else c) segment) in
  let padLength := (4 - List.length base64 mod 4) mod 4 in
  base64 ++ repeat 61%N padLength.

Definition EXP : jsstring := str "exp".

Section Jwt.

(** JavaScript numbers. *)
Variable JsNumber : Type.

Inductive Json : Type :=
| JNull
| JBool (b : bool)
| JNumber (n : JsNumber)
| JString (s : jsstring)
| JArray (items : list Json)
| JObject (members : list (jsstring * Json)).

(** The built-ins [atob] and [JSON.parse]; [None] is a thrown exception. *)
Variable atob : jsstring -> option jsstring.
Variable JSON_parse : jsstring -> option Json.

(** [payload.exp] for a payload other than [null]; [None] is [undefined]. *)
Definition expOf (payload : Json) : option Json :=
  match payload with
  | JObject members =>
      match find (fun kv => jsstring_eqb (fst kv) EXP) members with
      | Some kv => Some (snd kv)
      | None => None
      end
  | _ => None
  end.

(** [typeof v === "number"] *)
Definition isNumber (v : option Json) : bool :=
  match v with
  | Some (JNumber _) => true
  | _ => false
  end.

(** The body of the [try] block. *)
Definition decodeJwt_try (token : jsstring) : Exc (option Json) :=
  let segments := splitOn 46%N token in
  if negb (Nat.eqb (List.length segments) 3) then Return None
  else
    let base64 := toBase64 (nth 1 segments []) in
    match atob base64 with
    | None => Raise
    | Some jsonString =>
        match JSON_parse jsonString with
        | None => Raise
        | Some JNull => Raise
        | Some payload =>
            if negb (isNumber (expOf payload)) then Return None
            else Return (Some payload)
        end
    end.

Definition decodeJwt (token : jsstring) : Exc (option Json) :=
  match decodeJwt_try token with
  | Raise => Return None
  | r => r
  end.

End Jwt.

Arguments JNull {JsNumber}.
Arguments JBool {JsNumber} b.
Arguments JString {JsNumber} s.

(* ------------------------------------------------------------------ *)
(** ** A scripted host, for running the program on concrete inputs *)

(** The network answers the successive requests with [sim_script]; the vault
    holds the folders [sim_folders] and the files [sim_files], each with its
    stored identifier; cancellation is signalled from the start
    ([sim_aborted]), by the first file creation ([sim_abortOnCreate]), or
    during the request that leaves [sim_abortWhenLeft] answers in the
    script. *)
Record Sim := {
  sim_script : list (Response + Err);
  sim_files : list (jsstring * Field jsstring);
  sim_folders : list jsstring;
  sim_aborted : bool;
  sim_abortOnCreate : bool;
  sim_abortWhenLeft : option nat;
  sim_clock : Z
}.

Definition sim_lookup (path : jsstring) (w : Sim) : AbstractFile :=
  if existsb (jsstring_eqb path) (sim_folders w) then TFolder
  else if existsb (fun f => jsstring_eqb path (fst f)) (sim_files w) then TFile
  else NotFound.

Definition sim_stored (path : jsstring) (w : Sim) : Field jsstring :=
  match find (fun f => jsstring_eqb path (fst f)) (sim_files w) with
  | Some f => snd f
  | None => Undefined
  end.

Definition sim_request (params : RequestUrlParam) (w : Sim)
  : (Response + Err) * Sim :=
  match sim_script w with
  | [] => (inr (Failure None Undefined 0), w)
  | r :: rest =>
      (r, {| sim_script := rest; sim_files := sim_files w;
             sim_folders := sim_folders w;
             sim_aborted :=
               sim_aborted w
               || match sim_abortWhenLeft w with
                  | Some k => Nat.eqb (List.length rest) k
                  | None => false
                  end;
             sim_abortOnCreate := sim_abortOnCreate w;
             sim_abortWhenLeft := sim_abortWhenLeft w;
             sim_clock := sim_clock w |})
  end.

Definition sim_wait (delay : Number) (w : Sim) : Sim :=
  {| sim_script := sim_script w; sim_files := sim_files w;
     sim_folders := sim_folders w; sim_aborted := sim_aborted w;
     sim_abortOnCreate := sim_abortOnCreate w;
     sim_abortWhenLeft := sim_abortWhenLeft w;
     sim_clock := (sim_clock w + match delay with Num d => d | _ => 0 end)%Z |}.

Definition sim_mkdir (path : jsstring) (w : Sim) : option Err * Sim :=
  (None, {| sim_script := sim_script w; sim_files := sim_files w;
            sim_folders := path :: sim_folders w;
            sim_aborted := sim_aborted w;
            sim_abortOnCreate := sim_abortOnCreate w;
            sim_abortWhenLeft := sim_abortWhenLeft w;
            sim_clock := sim_clock w |}).

Definition sim_write (path markdown : jsstring) (w : Sim) : option Err * Sim :=
  (None, {| sim_script := sim_script w;
            sim_files := sim_files w ++ [(path, Undefined)];
            sim_folders := sim_folders w;
            sim_aborted := sim_aborted w || sim_abortOnCreate w;
            sim_abortOnCreate := sim_abortOnCreate w;
            sim_abortWhenLeft := sim_abortWhenLeft w;
            sim_clock := sim_clock w |}).

#[export] Instance simHost : Host Sim := {|
  host_requestUrl := sim_request;
  host_setTimeout := sim_wait;
  host_aborted := sim_aborted;
  host_getAbstractFileByPath := sim_lookup;
  host_biji_id := sim_stored;
  host_createFolder := sim_mkdir;
  host_create := sim_write;
  host_saveData := fun _ w => (None, w);
  host_now := sim_clock;
  normalizePath := fun p => p
|}.

#[export] Instance simRendering : Rendering := {|
  cleanHtml := fun s => s;
  buildMarkdown := fun r => str "# " ++ rn_title r
|}.

Definition simSettings (cursor : option jsstring) : BijiSyncSettings :=
  {| refreshToken := str "refresh-token"; targetFolder := str "Notes";
     lastSyncId := cursor; lastSyncTime := None;
     autoSyncEnabled := false; autoSyncInterval := 30 |}.

Definition simWorld (script : list (Response + Err))
    (files : list (jsstring * Field jsstring)) : Sim :=
  {| sim_script := script; sim_files := files;
     sim_folders := [str "Notes"]; sim_aborted := false;
     sim_abortOnCreate := false; sim_abortWhenLeft := None;
     sim_clock := 0 |}.

(** The same world, with cancellation signalled by the first file creation
    ([onCreate]) or during the request that leaves [whenLeft] answers. *)
Definition simWorldCancelling (script : list (Response + Err))
    (onCreate : bool) (whenLeft : option nat) : Sim :=
  {| sim_script := script; sim_files := [];
     sim_folders := [str "Notes"]; sim_aborted := false;
     sim_abortOnCreate := onCreate; sim_abortWhenLeft := whenLeft;
     sim_clock := 0 |}.

Definition simMachine (w : Sim) (cursor : option jsstring) : Machine Sim :=
  {| world := w; settings := simSettings cursor; jwt := []; trace := [] |}.

(** The answer to a credential exchange. *)
Definition tokenResponse (token : jsstring) : Response + Err :=
  inl {| json_c := Val {| c_list := Undefined; c_has_content := Undefined;
                          c_content := Undefined; c_success := Val true;
                          c_token := Val {| tk_token := token |} |} |}.

(** The answer to a page request. *)
Definition pageResponse (notes : list BijiNote) : Response + Err :=
  inl {| json_c := Val {| c_list := Val notes; c_has_content := Undefined;
                          c_content := Undefined; c_success := Undefined;
                          c_token := Undefined |} |}.

(** The answer to a detail request. *)
Definition detailResponse (has : Field bool) (html : Field jsstring)
  : Response + Err :=
  inl {| json_c := Val {| c_list := Undefined; c_has_content := has;
                          c_content := html; c_success := Undefined;
                          c_token := Undefined |} |}.

Definition httpFailure (status : Z) : Err := Failure (Some status) Undefined 0.

Definition mkNote (i : Field jsstring) (t : jsstring) : BijiNote :=
  {| id := i; note_id := i; title := Val t; content := Val (str "Hello world");
     body_text := Val (str "Hello world"); source := Val (str "app");
     note_type := Val (str "plain_text"); entry_type := Val (str "manual");
     tags := Val []; attachments := Val [];
     created_at := Val (str "2024-01-01T00:00:00Z");
     updated_at := Val (str "2024-01-01T00:00:00Z");
     edit_time := Val (str "2024-01-01T00:00:00Z") |}.

(** A note whose entry kind is null and whose origin is absent. *)
Definition noteWithoutLabels : BijiNote :=
  {| id := Val (str "n1"); note_id := Val (str "n1"); title := Val (str "T");
     content := Val (str "c"); body_text := Undefined; source := Undefined;
     note_type := Null; entry_type := Null;
     tags := Null; attachments := Undefined;
     created_at := Val (str "2024-01-01T00:00:00Z");
     updated_at := Val (str "2024-01-01T00:00:00Z");
     edit_time := Undefined |}.

(* ------------------------------------------------------------------ *)
(** ** Vocabulary of the properties *)

Definition hasId (note : BijiNote) : bool := truthy (id note).

(** The identifier of the first note of the page that has one. *)
Definition firstId (notes : list BijiNote) : option jsstring :=
  match find hasId notes with
  | Some n => Some (toStr (id n))
  | None => None
  end.

(** The cursor that a run stores, from the cursor [old] stored before it and
    the first page handed to its note loop, if any. *)
Definition cursorAfter (old : option jsstring)
    (page : option (list BijiNote)) : option jsstring :=
  match page with
  | Some notes =>
      match firstId notes with
      | Some i => Some i
      | None => old
      end
  | None => old
  end.

(** Two loop states that differ at most in the number of skipped notes. *)
Definition sameButSkipped (a b : LoopState) : Prop :=
  syncCount a = syncCount b
  /\ errorCount a = errorCount b
  /\ newestNoteId a = newestNoteId b
  /\ shouldStop a = shouldStop b
  /\ isFirstPage a = isFirstPage b.

(** Two runs of the note loop that end in the same machine and in the same
    way, up to the number of skipped notes. *)
Definition sameOutcome {World : Type}
    (x y : Result LoopState * Machine World) : Prop :=
  snd x = snd y
  /\ match fst x, fst y with
     | Ret a, Ret b => sameButSkipped a b
     | Throw e1, Throw e2 => e1 = e2
     | OutOfFuel, OutOfFuel => True
     | _, _ => False
     end.

Definition notSave (ev : Event) : Prop :=
  match ev with
  | EvSave _ => False
  | _ => True
  end.

Definition isNotice (ev : Event) : Prop :=
  match ev with
  | EvNotice _ => True
  | _ => False
  end.

(** Once an identifier has been captured, or once the first page is over,
    [capture] changes nothing. *)
Definition settled (ls : LoopState) : Prop :=
  isFirstPage ls = false \/ exists i, newestNoteId ls = Some i.

(** The settings that [finalize] stores, from the settings before it and the
    clock. *)
Definition finalSettings (ls : LoopState) (s : BijiSyncSettings) (now : Z)
  : BijiSyncSettings :=
  set_lastSyncTime
    match newestNoteId ls with
    | Some (c :: i) => set_lastSyncId s (Some (c :: i))
    | _ => s
    end (Some now).

(** Statuses that the executor retries with backoff: 429, any 5xx, or no
    status at all. *)
Definition isTransient (e : Err) : bool :=
  match status_of e with
  | None => true
  | Some st => (st =? 429)%Z || ((500 <=? st)%Z && (st <=? 599)%Z)
  end.

(** A failure with status 429 and the given Retry-After header. *)
Definition tooManyRequests (retryAfter : string) : Err :=
  Failure (Some 429%Z) (Val (str retryAfter)) 0.

(** A Retry-After header that holds a date, the other form that HTTP gives
    the header. *)
Definition RETRY_AFTER_DATE : string := "Wed, 21 Oct 2015 07:28:00 GMT".

(** The notes of a page that have no identifier. *)
Definition withoutId (notes : list BijiNote) : list BijiNote :=
  filter (fun n => negb (hasId n)) notes.

(** Either no run is awaited and the flag is down, or exactly one run is
    awaited and the flag is up. *)
Definition flagMatchesRuns (sys : System) : Prop :=
  (running sys = [] /\ syncing (plugin sys) = false)
  \/ (exists silent, running sys = [silent] /\ syncing (plugin sys) = true).

Section JwtVocabulary.

Variable JsNumber : Type.
Variable atob : jsstring -> option jsstring.
Variable JSON_parse : jsstring -> option (Json JsNumber).

(** The accepted tokens, in the words of the specification: exactly three
    segments separated by dots, the middle one decoding to JSON text whose
    value has a numeric exp member. *)
Definition validJwt (token : jsstring) (payload : Json JsNumber) : Prop :=
  exists header middle signature jsonString,
    splitOn 46%N token = [header; middle; signature]
    /\ atob (toBase64 middle) = Some jsonString
    /\ JSON_parse jsonString = Some payload
    /\ exists n, expOf payload = Some (JNumber n).

End JwtVocabulary.

Section MachineVocabulary.

Context {World : Type} `{Host World} `{Rendering}.

(** The machine after a call that moved the world to [w] and added [evs] to
    the trace. *)
Definition advance (m : Machine World) (w : World) (evs : list Event)
  : Machine World :=
  {| world := w; settings := settings m; jwt := jwt m;
     trace := trace m ++ evs |}.

(** A computation that leaves the settings alone and saves nothing. *)
Definition quiet {A} (c : M World A) : Prop :=
  forall m r m',
    c m = (r, m') ->
    settings m' = settings m
    /\ exists evs, trace m' = trace m ++ evs /\ Forall notSave evs.

(** The first page that the generator delivers from [m], unless cancellation
    is signalled by the time it arrives. *)
Definition firstDelivered (jwt0 : jsstring) (m : Machine World)
  : option (list BijiNote) :=
  match fetchNotes jwt0 refreshJwtCallback GenStart m with
  | (Ret (Some notes), m1) =>
      if host_aborted (world m1) then None else Some notes
  | _ => None
  end.

End MachineVocabulary.

(** Inputs of the concrete runs. *)

Definition myNote : BijiNote := mkNote (Val (str "xyz789")) (str "My Note").

Definition notesRequest : RequestUrlParam :=
  {| url := NotesUrl []; method := GET; headers := apiHeaders (str "old");
     body := None |}.

(** The test page: a note without identifier, then one with. *)
Definition pageWithBlank : list BijiNote :=
  [mkNote (Val []) (str "No ID"); mkNote (Val (str "note-001")) (str "Has ID")].

(** The page of the incremental-stop test, with the cursor on its second
    note. *)
Definition cursorPage : list BijiNote :=
  [mkNote (Val (str "note-003")) (str "New Note");
   mkNote (Val (str "note-002")) (str "Already Synced");
   mkNote (Val (str "note-001")) (str "Old Note")].

(** The run of the missing-identifier test: one page, whose first note has
    an empty identifier. *)
Definition blankFirstRun : Result unit * Machine Sim :=
  syncBiji 3 false
    (simMachine
       (simWorld [tokenResponse (str "jwt"); pageResponse pageWithBlank] [])
       None).

(** A run that is cancelled while its first page is being fetched. *)
Definition cancelledFetchRun : Result unit * Machine Sim :=
  syncBiji 3 false
    (simMachine
       (simWorldCancelling
          [tokenResponse (str "jwt");
           pageResponse [mkNote (Val (str "note-001")) (str "Has ID")]]
          false (Some 0))
       None).

Definition createdPaths (tr : list Event) : list jsstring :=
  flat_map (fun ev => match ev with EvCreate p _ => [p] | _ => [] end) tr.

(* ------------------------------------------------------------------ *)
(** ** Vocabulary of the further properties *)

(** The requests that the program builds. *)
Definition refreshParams (token : jsstring) : RequestUrlParam :=
  {| url := RefreshUrl; method := POST;
     headers := [("Content-Type"%string, str "application/json")];
     body := Some token |}.

Definition notesParams (jwt0 sinceId : jsstring) : RequestUrlParam :=
  {| url := NotesUrl sinceId; method := GET; headers := apiHeaders jwt0;
     body := None |}.

Definition detailParams (jwt0 noteId : jsstring) : RequestUrlParam :=
  {| url := LinkDetailUrl noteId; method := GET; headers := apiHeaders jwt0;
     body := None |}.


(** A world in which cancellation has been signalled. *)
Definition simWorldAborted (script : list (Response + Err)) : Sim :=
  {| sim_script := script; sim_files := [];
     sim_folders := [str "Notes"]; sim_aborted := true;
     sim_abortOnCreate := false; sim_abortWhenLeft := None;
     sim_clock := 0 |}.

Definition notNotice (ev : Event) : Prop :=
  match ev with
  | EvNotice _ => False
  | _ => True
  end.

Definition notCreate (ev : Event) : Prop :=
  match ev with
  | EvCreate _ _ => False
  | _ => True
  end.

(** The number of file creations in a trace. *)
Definition creations (tr : list Event) : nat :=
  List.length (createdPaths tr).

Section TraceVocabulary.

Context {World : Type}.

(** A computation that only adds events satisfying [P] to the trace. *)
Definition emitsOnly {A} (P : Event -> Prop) (c : M World A) : Prop :=
  forall m r m',
    c m = (r, m') ->
    exists evs, trace m' = trace m ++ evs /\ Forall P evs.

End TraceVocabulary.

(** A link note, whose supplementary content is fetched. *)
Definition linkNote : BijiNote :=
  {| id := Val (str "note-001"); note_id := Val (str "note-001");
     title := Val (str "Link Note"); content := Val (str "Hello world");
     body_text := Val (str "Hello world"); source := Val (str "app");
     note_type := Val (str "link"); entry_type := Val (str "manual");
     tags := Val []; attachments := Val [];
     created_at := Val (str "2024-01-01T00:00:00Z");
     updated_at := Val (str "2024-01-01T00:00:00Z");
     edit_time := Val (str "2024-01-01T00:00:00Z") |}.

(** Settings without a refresh token. *)
Definition blankSettings : BijiSyncSettings :=
  {| refreshToken := []; targetFolder := str "Notes";
     lastSyncId := None; lastSyncTime := None;
     autoSyncEnabled := false; autoSyncInterval := 30 |}.

(** A code unit that a file name may hold: none of the unsafe characters,
    and no white space other than the plain space. *)
Definition fileNameUnit (c : char) : Prop :=
  isUnsafeChar c = false /\ (isWhiteSpace c = true -> c = 32%N).

(** The code units that [escapeYamlString] removes: NUL and the line and
    paragraph separators. *)
Definition droppedByEscape (c : char) : bool :=
  ((c =? 0) || (c =? 8232) || (c =? 8233))%N.

(** The code units that must not appear as they are between the quotes of a
    one-line YAML string. *)
Definition rawControl (c : char) : bool :=
  ((c =? 10) || (c =? 13) || (c =? 9))%N || droppedByEscape c.

(** What one code unit becomes under [escapeYamlString]. *)
Definition escapeUnit (c : char) : jsstring :=
  if (c =? 92)%N then [92; 92]%N
  else if (c =? 34)%N then [92; 34]%N
  else if (c =? 10)%N then [92; 110]%N
  else if (c =? 13)%N then [92; 114]%N
  else if (c =? 9)%N then [92; 116]%N
  else if droppedByEscape c then []
  else [c].

(** A value without the code units that [escapeYamlString] removes. *)
Definition withoutDropped (s : jsstring) : jsstring :=
  filter (fun c => negb (droppedByEscape c)) s.

(** One timer tick whose run ends in an authentication failure: the silent
    trigger and the settling of its run. *)
Definition silentAuthFailure (sys : System) : System :=
  let entered := triggerSync_enter true (plugin sys) in
  {| plugin := triggerSync_settle true SyncAuthFatal (fst entered);
     running := [] |}.

(** Auto-sync started on a fresh plugin, then three such ticks. *)
Definition threeSilentFailures : System :=
  silentAuthFailure
    (silentAuthFailure
       (silentAuthFailure
          {| plugin := startAutoSync 7 initialPlugin; running := [] |})).

(* ================================================================== *)
(** * Properties *)

(* ------------------------------------------------------------------ *)
(** ** The Note Normalizer *)

Section NormalizerFacts.

Context `{Rendering}.

Lemma bijiNoteToRawNote_none (note : BijiNote) :
  bijiNoteToRawNote note = None <-> truthy (id note) = false.
Proof.
  unfold bijiNoteToRawNote, truthy.
  destruct (id note) as [| |[|c s]]; split; intros E; try reflexivity;
    discriminate E.
Qed.

(** C8 (as amended): of the three labels only the note kind is defaulted, to
    unknown, when its source field is absent or null; the entry kind and the
    origin are copied as they are, so an absent or null source field leaves
    them absent or null. *)
Theorem bijiNoteToRawNote_labels (note : BijiNote) (r : RawNote) :
  bijiNoteToRawNote note = Some r ->
  rn_noteType r = Val (nullish_or (note_type note) UNKNOWN)
  /\ rn_entryType r = entry_type note
  /\ rn_origin r = source note.
Proof.
  unfold bijiNoteToRawNote.
  destruct (id note) as [| |[|c s]]; try discriminate.
  intros E. injection E as <-. cbn. auto.
Qed.

End NormalizerFacts.

Lemma bijiNoteToRawNote_labels_witness :
  exists r,
    bijiNoteToRawNote noteWithoutLabels = Some r
    /\ rn_noteType r = Val UNKNOWN
    /\ rn_entryType r = Null
    /\ rn_origin r = Undefined.
Proof.
  eexists. split; [reflexivity|].
  exact (bijiNoteToRawNote_labels noteWithoutLabels eq_refl).
Defined.

(** C8 (as stated) fails: the record of a note whose entry kind is null and
    whose origin is absent has a null entry kind and no origin. *)
Lemma labels_not_all_defaulted :
  ~ (forall r, bijiNoteToRawNote noteWithoutLabels = Some r ->
               (exists a, rn_noteType r = Val a)
               /\ (exists b, rn_entryType r = Val b)
               /\ (exists c, rn_origin r = Val c)).
Proof.
  intros claim.
  destruct (claim _ eq_refl) as (_ & [b Hb] & _).
  discriminate Hb.
Qed.

(* ------------------------------------------------------------------ *)
(** ** File names *)

Lemma strict_eq_refl (a : Field jsstring) : strict_eq a a = true.
Proof.
  destruct a; cbn; try reflexivity.
  unfold jsstring_eqb. destruct (jsstring_eq_dec a a); congruence.
Qed.


(** What [resolveFilename] answers for each kind of third argument. *)
Lemma resolveFilename_cases (t i : jsstring) (existing : Field jsstring) :
  resolveFilename t i existing =
  match existing with
  | Undefined => sanitizeFilename (or_else (Val t) NO_TITLE)
  | Null =>
      sanitizeFilename (or_else (Val t) NO_TITLE) ++ str "-" ++ firstn 6 i
  | Val e =>
      if jsstring_eqb e i then sanitizeFilename (or_else (Val t) NO_TITLE)
      else sanitizeFilename (or_else (Val t) NO_TITLE) ++ str "-" ++ firstn 6 i
  end.
Proof.
  unfold resolveFilename.
  destruct existing as [| |e]; cbn; try reflexivity.
  destruct (jsstring_eqb e i); reflexivity.
Qed.

(** C3 at its failing input: the vault holds a file at the candidate path
    that stores no identifier at all, and the note is written under the plain
    name, to the path of that file; when the file stores a null identifier or
    the identifier abc, the note is written under the suffixed name. *)
Theorem syncNote_file_without_identifier :
  let run stored :=
    syncNote (str "Notes") myNote
      (simMachine (simWorld [] [(str "Notes/My Note.md", stored)]) None) in
  (fst (run Undefined) = Ret Synced
   /\ trace (snd (run Undefined))
      = [EvCreate (str "Notes/My Note.md") (str "# My Note")])
  /\ trace (snd (run Null))
     = [EvCreate (str "Notes/My Note-xyz789.md") (str "# My Note")]
  /\ trace (snd (run (Val (str "abc"))))
     = [EvCreate (str "Notes/My Note-xyz789.md") (str "# My Note")].
Proof. vm_compute. repeat split. Qed.

(* ------------------------------------------------------------------ *)
(** ** Decoding a token *)

Section JwtFacts.

Variable JsNumber : Type.
Variable atob : jsstring -> option jsstring.
Variable JSON_parse : jsstring -> option (Json JsNumber).

Lemma isNumber_true (v : option (Json JsNumber)) :
  isNumber v = true <-> exists n, v = Some (JNumber n).
Proof.
  split.
  - destruct v as [[]|]; cbn; try discriminate. eauto.
  - intros [n ->]. reflexivity.
Qed.

Lemma expOf_JNull_not_number :
  ~ exists n : JsNumber, expOf (@JNull JsNumber) = Some (JNumber n).
Proof. intros [n E]. discriminate E. Qed.

Lemma catch_if (c : bool) (x y : option (Json JsNumber)) :
  match (if c then Return x else Return y) with
  | Raise => Return None
  | r => r
  end = if c then Return x else Return y.
Proof. destruct c; reflexivity. Qed.

Lemma decodeJwt_some (token : jsstring) (payload : Json JsNumber) :
  decodeJwt atob JSON_parse token = Return (Some payload)
  <-> validJwt atob JSON_parse token payload.
Proof.
  unfold decodeJwt, decodeJwt_try, validJwt.
  destruct (splitOn 46%N token) as [|h [|b [|sg [|x rest]]]] eqn:Esplit;
    cbn [List.length Nat.eqb negb nth].
  1-3, 5:
    (split; [discriminate|];
     intros (h' & b' & s' & js & E & _); discriminate E).
  destruct (atob (toBase64 b)) as [js|] eqn:Eatob.
  - destruct (JSON_parse js) as [p|] eqn:Eparse.
    + assert (Hgen :
        (if negb (isNumber (expOf p)) then Return None else Return (Some p))
          = Return (Some payload)
        <-> p = payload /\ exists n, expOf p = Some (JNumber n)).
      { destruct (isNumber (expOf p)) eqn:En; cbn.
        - apply isNumber_true in En. split.
          + intros E. injection E as <-. auto.
          + intros [-> _]. reflexivity.
        - split; [discriminate|].
          intros [_ Hn]. apply isNumber_true in Hn. congruence. }
      assert (Hnull : p = JNull ->
        (@Return (option (Json JsNumber)) None = Return (Some payload)
         <-> p = payload /\ exists n, expOf p = Some (JNumber n))).
      { intros ->. split; [discriminate|].
        intros [_ Hn]. exfalso. exact (expOf_JNull_not_number Hn). }
      assert (Hfinal :
        (p = payload /\ exists n, expOf p = Some (JNumber n))
        <-> exists header middle signature jsonString,
              [h; b; sg] = [header; middle; signature]
              /\ atob (toBase64 middle) = Some jsonString
              /\ JSON_parse jsonString = Some payload
              /\ exists n, expOf payload = Some (JNumber n)).
      { split.
        - intros [-> Hn]. exists h, b, sg, js. auto.
        - intros (h' & b' & s' & js' & E & Ea & Ep & Hn).
          injection E as <- <- <-.
          rewrite Eatob in Ea. injection Ea as <-.
          rewrite Eparse in Ep. injection Ep as <-. auto. }
      destruct p; rewrite ?catch_if;
        first [ exact (iff_trans Hgen Hfinal)
              | exact (iff_trans (Hnull eq_refl) Hfinal) ].
    + split; [discriminate|].
      intros (h' & b' & s' & js' & E & Ea & Ep & _).
      injection E as <- <- <-. congruence.
  - split; [discriminate|].
    intros (h' & b' & s' & js' & E & Ea & _).
    injection E as <- <- <-. congruence.
Qed.

Lemma decodeJwt_returns (token : jsstring) :
  exists r, decodeJwt atob JSON_parse token = Return r.
Proof.
  unfold decodeJwt.
  destruct (decodeJwt_try atob JSON_parse token) as [r|]; eauto.
Qed.

(** C10: [decodeJwt] never throws; it returns a payload exactly for the
    tokens with three dot-separated segments whose middle segment decodes to
    JSON with a numeric exp member, and null for every other token. *)
Theorem decodeJwt_total_and_exact (token : jsstring) :
  (exists r, decodeJwt atob JSON_parse token = Return r)
  /\ (forall payload,
        decodeJwt atob JSON_parse token = Return (Some payload)
        <-> validJwt atob JSON_parse token payload)
  /\ ((forall payload, ~ validJwt atob JSON_parse token payload) ->
      decodeJwt atob JSON_parse token = Return None).
Proof.
  split; [apply decodeJwt_returns|].
  split; [intros payload; apply decodeJwt_some|].
  intros Hnone.
  destruct (decodeJwt_returns token) as [[p|] E]; [|exact E].
  exfalso. apply (Hnone p). apply decodeJwt_some. exact E.
Qed.

End JwtFacts.

(** A token of three segments, with stand-ins for the built-ins: a decoder
    that returns its argument and a parser that always reads an object whose
    exp is 5. *)
Lemma decodeJwt_total_and_exact_witness :
  let parse := fun _ : jsstring => Some (JObject [(EXP, JNumber 5%Z)]) in
  decodeJwt (fun s => Some s) parse (str "a.b.c")
  = Return (Some (JObject [(EXP, JNumber 5%Z)])).
Proof.
  apply (proj1 (proj2
           (decodeJwt_total_and_exact (fun s => Some s)
              (fun _ : jsstring => Some (JObject [(EXP, JNumber 5%Z)]))
              (str "a.b.c")))).
  exists (str "a"), (str "b"), (str "c"), (toBase64 (str "b")).
  repeat split. exists 5%Z. reflexivity.
Defined.

(* ------------------------------------------------------------------ *)
(** ** One run at a time *)

Lemma triggerSync_enter_busy (silent : bool) (p : Plugin) :
  syncing p = true ->
  triggerSync_enter silent p
  = ((if silent then p else showNotice NoticeAlreadyInProgress p), false).
Proof.
  intros E. unfold triggerSync_enter. rewrite E. destruct silent; reflexivity.
Qed.

Lemma triggerSync_enter_idle (silent : bool) (p : Plugin) :
  syncing p = false ->
  snd (triggerSync_enter silent p) = true
  /\ syncing (fst (triggerSync_enter silent p)) = true.
Proof.
  intros E. unfold triggerSync_enter. rewrite E. destruct silent; auto.
Qed.

Lemma step_keeps_flag (sys sys' : System) :
  flagMatchesRuns sys -> step sys sys' -> flagMatchesRuns sys'.
Proof.
  intros Inv St. destruct St as [silent sys|silent o sys before after E| |].
  - destruct Inv as [[Er Es]|[s [Er Es]]].
    + destruct (triggerSync_enter_idle silent _ Es) as [-> Hs].
      right. exists silent. cbn. rewrite Er. auto.
    + rewrite (triggerSync_enter_busy silent _ Es). cbn.
      right. exists s. split; [exact Er|].
      destruct silent; cbn; exact Es.
  - destruct Inv as [[Er Es]|[s [Er Es]]].
    + rewrite Er in E. destruct before; discriminate E.
    + rewrite Er in E.
      destruct before as [|x [|y before]]; cbn in E.
      * injection E as _ <-. left. auto.
      * injection E as _ E. discriminate E.
      * injection E as _ E. discriminate E.
  - exact Inv.
  - exact Inv.
Qed.

Lemma reachable_flagMatchesRuns (sys : System) :
  reachable sys -> flagMatchesRuns sys.
Proof.
  induction 1 as [|sys sys' _ IH St].
  - left. auto.
  - exact (step_keeps_flag IH St).
Qed.

(** C9: in every reachable state at most one run is active, and the flag is
    up exactly while one is; a trigger that arrives while the flag is up
    calls no second run and leaves the plugin as it is when silent, and only
    adds the duplicate-run notice when not silent. *)
Theorem one_run_at_a_time :
  (forall sys, reachable sys ->
     List.length (running sys) <= 1
     /\ (syncing (plugin sys) = true <-> running sys <> []))
  /\ (forall p, syncing p = true ->
        triggerSync_enter true p = (p, false)
        /\ triggerSync_enter false p
           = (showNotice NoticeAlreadyInProgress p, false))
  /\ (forall sys silent, reachable sys -> running sys <> [] ->
        forall sys', sys' = {| plugin := fst (triggerSync_enter silent (plugin sys));
                               running :=
                                 if snd (triggerSync_enter silent (plugin sys))
                                 then running sys ++ [silent] else running sys |} ->
        running sys' = running sys
        /\ notices (plugin sys')
           = notices (plugin sys)
             ++ (if silent then [] else [NoticeAlreadyInProgress])).
Proof.
  split; [|split].
  - intros sys R.
    destruct (reachable_flagMatchesRuns R) as [[Er Es]|[s [Er Es]]];
      rewrite Er, Es; cbn; split; try lia; split; congruence.
  - intros p E. split; exact (triggerSync_enter_busy _ _ E).
  - intros sys silent R Hrun sys' ->.
    destruct (reachable_flagMatchesRuns R) as [[Er Es]|[s [Er Es]]];
      [contradiction|].
    rewrite (triggerSync_enter_busy silent _ Es). cbn.
    split; [reflexivity|].
    destruct silent; cbn; [rewrite app_nil_r|]; reflexivity.
Qed.

(** A manual trigger, then a timer trigger and a second manual trigger while
    the first run is awaited. *)
Lemma one_run_at_a_time_witness :
  let busy := fst (triggerSync_enter false initialPlugin) in
  syncing busy = true
  /\ triggerSync_enter true busy = (busy, false)
  /\ triggerSync_enter false busy
     = (showNotice NoticeAlreadyInProgress busy, false).
Proof.
  split; [reflexivity|].
  exact (proj1 (proj2 one_run_at_a_time)
           (fst (triggerSync_enter false initialPlugin)) eq_refl).
Defined.

(* ------------------------------------------------------------------ *)
(** ** The Resilient Request Executor *)

Section ExecutorFacts.

Context {World : Type} `{Host World}.

Lemma advance_advance (m : Machine World) (w1 w2 : World)
    (evs1 evs2 : list Event) :
  advance (advance m w1 evs1) w2 evs2 = advance m w2 (evs1 ++ evs2).
Proof. unfold advance. cbn. rewrite app_assoc. reflexivity. Qed.

Lemma requestUrl_run (params : RequestUrlParam) (m : Machine World) :
  requestUrl params m =
  match host_requestUrl params (world m) with
  | (inl r, w) => (Ret r, advance m w [EvRequest params])
  | (inr e, w) => (Throw e, advance m w [EvRequest params])
  end.
Proof.
  unfold requestUrl, bind, emit, liftOutcome, advance, with_world. cbn.
  destruct (host_requestUrl params (world m)) as [[r|e] w]; reflexivity.
Qed.

Lemma sleep_run (d : Number) (m : Machine World) :
  sleep d m = (Ret tt, advance m (host_setTimeout d (world m)) [EvDelay d]).
Proof. reflexivity. Qed.

Lemma transient_not_auth (e : Err) :
  isTransient e = true ->
  is401or403 (status_of e) = false /\ isOther4xx (status_of e) = false.
Proof.
  unfold isTransient, is401or403, isOther4xx.
  destruct (status_of e) as [st|]; [|auto].
  intros Ht.
  destruct (Z.eqb_spec st 429) as [E|Hn]; [rewrite E; split; reflexivity|].
  rewrite orb_false_l in Ht. apply andb_prop in Ht. destruct Ht as [H1 H2].
  apply Z.leb_le in H1. apply Z.leb_le in H2.
  split.
  - destruct (Z.eqb_spec st 401); [lia|].
    destruct (Z.eqb_spec st 403); [lia|]. reflexivity.
  - destruct (Z.ltb_spec st 500); [lia|].
    rewrite andb_false_r. reflexivity.
Qed.

(** A successful attempt returns the response at once. *)
Lemma retryLoop_success (n attempt : nat) (params : RequestUrlParam)
    (cb : M World jsstring) (m : Machine World) (r : Response) (w : World) :
  host_requestUrl params (world m) = (inl r, w) ->
  retryLoop (S n) attempt params cb m
  = (Ret (Some r), advance m w [EvRequest params]).
Proof.
  intros E. cbn [retryLoop]. unfold tryCatch, bind at 1.
  rewrite requestUrl_run, E. reflexivity.
Qed.

(** A transient failure on the last attempt is thrown as it is; on an
    earlier attempt the executor waits for the backoff delay and goes on. *)
Lemma retryLoop_transient (n attempt : nat) (params : RequestUrlParam)
    (cb : M World jsstring) (m : Machine World) (e : Err) (w : World) :
  host_requestUrl params (world m) = (inr e, w) ->
  isTransient e = true ->
  retryLoop (S n) attempt params cb m
  = if Nat.eqb attempt (MAX_RETRIES - 1)
    then (Throw e, advance m w [EvRequest params])
    else retryLoop n (S attempt) params cb
           (advance m (host_setTimeout (backoffDelay attempt e) w)
              [EvRequest params; EvDelay (backoffDelay attempt e)]).
Proof.
  intros E Ht. destruct (transient_not_auth e Ht) as [Ha Ho].
  cbn [retryLoop]. unfold tryCatch at 1, bind at 1.
  rewrite requestUrl_run, E, Ha, Ho.
  destruct (Nat.eqb attempt (MAX_RETRIES - 1)); [reflexivity|].
  unfold bind at 1. rewrite sleep_run, advance_advance. reflexivity.
Qed.

(** Any other 4xx is thrown at once. *)
Lemma retryLoop_other4xx (n attempt : nat) (params : RequestUrlParam)
    (cb : M World jsstring) (m : Machine World) (e : Err) (w : World) :
  host_requestUrl params (world m) = (inr e, w) ->
  is401or403 (status_of e) = false ->
  isOther4xx (status_of e) = true ->
  retryLoop (S n) attempt params cb m
  = (Throw e, advance m w [EvRequest params]).
Proof.
  intros E Ha Ho. cbn [retryLoop]. unfold tryCatch at 1, bind at 1.
  rewrite requestUrl_run, E, Ha, Ho. reflexivity.
Qed.

(** What the branch for 401 and 403 does: one call of the callback, then at
    most one more request, with the new credential; every failure of that
    request leaves as an [AuthFatalError]. *)
Lemma retryLoop_unauthorized (n attempt : nat) (params : RequestUrlParam)
    (cb : M World jsstring) (m : Machine World) (e : Err) (w : World) :
  host_requestUrl params (world m) = (inr e, w) ->
  is401or403 (status_of e) = true ->
  retryLoop (S n) attempt params cb m =
  match cb (advance m w [EvRequest params; EvRefresh]) with
  | (Ret newJwt, m2) =>
      let params' := withAuthorization params newJwt in
      match host_requestUrl params' (world m2) with
      | (inl r, w3) => (Ret (Some r), advance m2 w3 [EvRequest params'])
      | (inr retryErr, w3) =>
          (Throw
             (if is401or403 (status_of retryErr)
              then AuthFatalError "Authentication failed after refresh"
                     (Some retryErr)
              else if isAuthFatal retryErr then retryErr
              else AuthFatalError "JWT refresh failed" (Some retryErr)),
           advance m2 w3 [EvRequest params'])
      end
  | (Throw refreshErr, m2) =>
      (Throw (if isAuthFatal refreshErr then refreshErr
              else AuthFatalError "JWT refresh failed" (Some refreshErr)),
       m2)
  | (OutOfFuel, m2) => (OutOfFuel, m2)
  end.
Proof.
  intros E Ha. cbn [retryLoop]. unfold tryCatch at 1, bind at 1.
  rewrite requestUrl_run, E, Ha.
  unfold tryCatch at 1, bind at 1, bind at 1, emit at 1.
  change {| world := world (advance m w [EvRequest params]);
            settings := settings (advance m w [EvRequest params]);
            jwt := jwt (advance m w [EvRequest params]);
            trace := trace (advance m w [EvRequest params]) ++ [EvRefresh] |}
    with (advance (advance m w [EvRequest params]) w [EvRefresh]).
  rewrite advance_advance. cbn [app].
  destruct (cb (advance m w [EvRequest params; EvRefresh]))
    as [[newJwt|refreshErr|] m2].
  - unfold tryCatch at 1, bind at 1. rewrite requestUrl_run.
    destruct (host_requestUrl (withAuthorization params newJwt) (world m2))
      as [[r|retryErr] w3]; [reflexivity|].
    destruct (is401or403 (status_of retryErr)); [reflexivity|].
    unfold throw. destruct (isAuthFatal retryErr); reflexivity.
  - destruct (isAuthFatal refreshErr); reflexivity.
  - reflexivity.
Qed.

Lemma backoffDelay_not_429 (attempt : nat) (e : Err) :
  attempt < MAX_RETRIES ->
  is429 (status_of e) = false ->
  backoffDelay attempt e = Num (BACKOFF_BASE * 2 ^ Z.of_nat attempt)%Z.
Proof.
  unfold backoffDelay, MAX_RETRIES. intros Hlt ->.
  destruct attempt as [|[|[|attempt]]]; try reflexivity. lia.
Qed.

(** X18: three transient failures in a row (429, 5xx or no status) make three
    attempts, with the delays of attempts 0 and 1 between them, and the third
    failure is thrown as it is; for a failure other than 429 the delay is the
    base times 2 to the attempt, whatever its headers, so that three 500s
    wait base times 1 and base times 2. *)
Theorem requestWithRetry_three_transient_failures (params : RequestUrlParam)
    (cb : M World jsstring) (m : Machine World) (e0 e1 e2 : Err)
    (w0 w1 w2 : World) :
  isTransient e0 = true -> isTransient e1 = true -> isTransient e2 = true ->
  host_requestUrl params (world m) = (inr e0, w0) ->
  host_requestUrl params (host_setTimeout (backoffDelay 0 e0) w0)
  = (inr e1, w1) ->
  host_requestUrl params (host_setTimeout (backoffDelay 1 e1) w1)
  = (inr e2, w2) ->
  requestWithRetry params cb m
  = (Throw e2,
     advance m w2
       [EvRequest params; EvDelay (backoffDelay 0 e0);
        EvRequest params; EvDelay (backoffDelay 1 e1);
        EvRequest params])
  /\ (is429 (status_of e0) = false ->
      backoffDelay 0 e0 = Num (BACKOFF_BASE * 1)%Z)
  /\ (is429 (status_of e1) = false ->
      backoffDelay 1 e1 = Num (BACKOFF_BASE * 2)%Z).
Proof.
  intros T0 T1 T2 E0 E1 E2.
  split; [|split].
  - unfold requestWithRetry.
    change MAX_RETRIES with 3.
    rewrite (retryLoop_transient 2 0 params cb m E0 T0).
    cbn [Nat.eqb MAX_RETRIES Nat.sub].
    erewrite (retryLoop_transient 1 1); [|exact E1|exact T1].
    cbn [Nat.eqb MAX_RETRIES Nat.sub].
    erewrite (retryLoop_transient 0 2); [|exact E2|exact T2].
    cbn [Nat.eqb MAX_RETRIES Nat.sub].
    rewrite !advance_advance. reflexivity.
  - intros S0. apply (backoffDelay_not_429 (attempt := 0));
      [unfold MAX_RETRIES; lia|exact S0].
  - intros S1. apply (backoffDelay_not_429 (attempt := 1));
      [unfold MAX_RETRIES; lia|exact S1].
Qed.

(** C6: the detail fetcher answers null when the response reports no
    supplementary content and when the request fails with anything but an
    [AuthFatalError], and it throws the [AuthFatalError] of the request
    on. *)
Theorem fetchLinkDetail_null_or_fatal (jwt0 noteId : jsstring)
    (cb : M World jsstring) (m m' : Machine World)
    (r : Result (option Response)) :
  requestWithRetry
    {| url := LinkDetailUrl noteId; method := GET;
       headers := apiHeaders jwt0; body := None |} cb m = (r, m') ->
  (forall resp,
     r = Ret (Some resp) ->
     match json_c resp with
     | Val c => truthyBool (c_has_content c) = false
     | _ => True
     end ->
     fetchLinkDetail jwt0 noteId cb m = (Ret Null, m'))
  /\ (forall e,
        r = Throw e -> isAuthFatal e = false ->
        fetchLinkDetail jwt0 noteId cb m = (Ret Null, m'))
  /\ (forall e,
        r = Throw e -> isAuthFatal e = true ->
        fetchLinkDetail jwt0 noteId cb m = (Throw e, m')).
Proof.
  intros E. unfold fetchLinkDetail, tryCatch, bind. rewrite E.
  split; [|split].
  - intros resp -> Hc. cbn.
    destruct (json_c resp) as [| |c]; try reflexivity.
    rewrite Hc. reflexivity.
  - intros e -> Hf. rewrite Hf. reflexivity.
  - intros e -> Hf. rewrite Hf. reflexivity.
Qed.

End ExecutorFacts.

(** C2 at its failing input: the first request fails with 401, the refresh
    gives the credential new, and the retried request fails with 500; the
    executor throws an [AuthFatalError] that wraps the 500 instead of the
    500 itself. *)
Theorem requestWithRetry_wraps_retry_failure :
  let m :=
    simMachine (simWorld [inr (httpFailure 401); inr (httpFailure 500)] [])
      None in
  let out := requestWithRetry notesRequest (ret (str "new")) m in
  fst out
  = Throw (AuthFatalError "JWT refresh failed" (Some (httpFailure 500)))
  /\ trace (snd out)
     = [EvRequest notesRequest; EvRefresh;
        EvRequest (withAuthorization notesRequest (str "new"))]
  /\ getHeader "Authorization"
       (headers (withAuthorization notesRequest (str "new")))
     = Some (str "Bearer new").
Proof. vm_compute. repeat split. Qed.

(** C4 at its failing input: three failures with status 429 whose
    Retry-After header holds a date.  The executor makes its three attempts
    and throws the last failure as it is, but the delay it hands to the timer
    between them is NaN both times, neither the backoff of base times 2 to
    the attempt nor anything above it: the retries follow at once.  The same
    failures with a header of 10 seconds wait 10000 both times, and without
    a header 1000 and 2000. *)
Theorem requestWithRetry_retry_after_date :
  let run e :=
    requestWithRetry notesRequest (ret (str "new"))
      (simMachine (simWorld [inr e; inr e; inr e] []) None) in
  let delays d0 d1 :=
    [EvRequest notesRequest; EvDelay d0; EvRequest notesRequest; EvDelay d1;
     EvRequest notesRequest] in
  (fst (run (tooManyRequests RETRY_AFTER_DATE))
   = Throw (tooManyRequests RETRY_AFTER_DATE)
   /\ trace (snd (run (tooManyRequests RETRY_AFTER_DATE))) = delays NaN NaN
   /\ sim_clock (world (snd (run (tooManyRequests RETRY_AFTER_DATE)))) = 0%Z)
  /\ (trace (snd (run (tooManyRequests "10")))
      = delays (Num 10000) (Num 10000)
      /\ sim_clock (world (snd (run (tooManyRequests "10")))) = 20000%Z)
  /\ (trace (snd (run (Failure (Some 429%Z) Undefined 0)))
      = delays (Num 1000) (Num 2000)
      /\ sim_clock (world (snd (run (Failure (Some 429%Z) Undefined 0))))
         = 3000%Z).
Proof. vm_compute. repeat split. Qed.

(** Three 500s in a row. *)
Lemma requestWithRetry_three_transient_failures_witness :
  let m :=
    simMachine
      (simWorld [inr (httpFailure 500); inr (httpFailure 500);
                 inr (httpFailure 500)] []) None in
  fst (requestWithRetry notesRequest (ret (str "new")) m)
  = Throw (httpFailure 500)
  /\ backoffDelay 0 (httpFailure 500) = Num 1000%Z
  /\ backoffDelay 1 (httpFailure 500) = Num 2000%Z.
Proof.
  pose proof
    (@requestWithRetry_three_transient_failures Sim simHost notesRequest
       (ret (str "new"))
       (simMachine
          (simWorld [inr (httpFailure 500); inr (httpFailure 500);
                     inr (httpFailure 500)] []) None)
       (httpFailure 500) (httpFailure 500) (httpFailure 500)
       (simWorld [inr (httpFailure 500); inr (httpFailure 500)] [])
       (sim_wait (Num 1000%Z) (simWorld [inr (httpFailure 500)] []))
       (sim_wait (Num 2000%Z) (sim_wait (Num 1000%Z) (simWorld [] [])))
       eq_refl eq_refl eq_refl eq_refl eq_refl eq_refl)
    as (Hrun & Hd0 & Hd1).
  split.
  - cbv zeta. rewrite Hrun. reflexivity.
  - exact (conj (Hd0 eq_refl) (Hd1 eq_refl)).
Defined.

(** A detail request that fails with 404. *)
Lemma fetchLinkDetail_null_or_fatal_witness :
  let m := simMachine (simWorld [inr (httpFailure 404)] []) None in
  fetchLinkDetail (str "old") (str "n1") (ret (str "new")) m
  = (Ret Null,
     snd (requestWithRetry
            {| url := LinkDetailUrl (str "n1"); method := GET;
               headers := apiHeaders (str "old"); body := None |}
            (ret (str "new")) m)).
Proof.
  exact (proj1 (proj2
           (@fetchLinkDetail_null_or_fatal Sim simHost (str "old") (str "n1")
              (ret (str "new"))
              (simMachine (simWorld [inr (httpFailure 404)] []) None)
              _ _ eq_refl))
           (httpFailure 404) eq_refl eq_refl).
Defined.

(** A detail response with content, one that reports none, and one that
    reports content but carries none. *)
Example fetchLinkDetail_runs :
  let fetch answer :=
    fst (fetchLinkDetail (str "jwt") (str "n1") (ret (str "new"))
           (simMachine (simWorld [answer] []) None)) in
  fetch (detailResponse (Val true) (Val (str "<p>text</p>")))
  = Ret (Val (str "<p>text</p>"))
  /\ fetch (detailResponse (Val false) (Val (str "<p>text</p>"))) = Ret Null
  /\ fetch (detailResponse (Val true) (Val [])) = Ret Null
  /\ fetch (inr (httpFailure 404)) = Ret Null.
Proof. vm_compute. repeat split. Qed.

Example backoffDelay_retry_after :
  backoffDelay 0 (tooManyRequests "5") = Num 5000%Z
  /\ backoffDelay 2 (tooManyRequests "1") = Num 4000%Z
  /\ backoffDelay 1 (Failure (Some 429%Z) Undefined 0) = Num 2000%Z
  /\ backoffDelay 0 (tooManyRequests "1.5") = Num 1000%Z
  /\ backoffDelay 0 (tooManyRequests "9007199254740993")
     = Num 9007199254740992000%Z
  /\ backoffDelay 0 (tooManyRequests "-3") = Num 1000%Z.
Proof. vm_compute. repeat split. Qed.

(* ------------------------------------------------------------------ *)
(** ** The Sync Orchestrator: notes without identifier *)

Section NoteLoopFacts.

Context {World : Type} `{Host World} `{Rendering}.

Variable folder : jsstring.
Variable lastSync : option jsstring.

Lemma syncNote_without_id (note : BijiNote) (m : Machine World) :
  hasId note = false -> syncNote folder note m = (Ret Skipped, m).
Proof.
  intros E. apply bijiNoteToRawNote_none in E.
  unfold syncNote, syncNoteBody, tryCatch. rewrite E. reflexivity.
Qed.

Lemma capture_without_id (note : BijiNote) (ls : LoopState) :
  hasId note = false -> capture note ls = ls.
Proof.
  unfold hasId, capture. intros ->.
  destruct (newestNoteId ls); [reflexivity|].
  rewrite andb_false_r. reflexivity.
Qed.

Lemma reachedCursor_without_id (note : BijiNote) :
  hasId note = false -> reachedCursor lastSync note = false.
Proof.
  unfold hasId, reachedCursor, truthy.
  destruct lastSync as [[|c s]|]; try reflexivity.
  destruct (id note) as [| |[|c' s']]; intros E; try reflexivity;
    discriminate E.
Qed.

(** Once cancellation is signalled the note loop does nothing more. *)
Lemma noteLoop_aborted (notes : list BijiNote) (ls : LoopState)
    (m : Machine World) :
  host_aborted (world m) = true ->
  noteLoop folder lastSync notes ls m = (Ret ls, m).
Proof.
  intros E. destruct notes as [|note rest]; [reflexivity|].
  cbn [noteLoop]. unfold bind, signalAborted, readWorld. rewrite E.
  reflexivity.
Qed.

Lemma sameButSkipped_refl (ls : LoopState) : sameButSkipped ls ls.
Proof. unfold sameButSkipped. auto. Qed.

Lemma sameButSkipped_capture (note : BijiNote) (a b : LoopState) :
  sameButSkipped a b -> sameButSkipped (capture note a) (capture note b).
Proof.
  unfold sameButSkipped, capture.
  intros (E1 & E2 & E3 & E4 & E5). rewrite E3, E5.
  destruct (newestNoteId b) eqn:Eb; [repeat split; congruence|].
  destruct (isFirstPage b && truthy (id note)); cbn;
    repeat split; congruence.
Qed.

Lemma sameButSkipped_count (v : Verdict) (a b : LoopState) :
  sameButSkipped a b -> sameButSkipped (count v a) (count v b).
Proof.
  unfold sameButSkipped, count.
  intros (E1 & E2 & E3 & E4 & E5). cbn. rewrite E1, E2.
  repeat split; congruence.
Qed.

Lemma sameButSkipped_skip (a b : LoopState) :
  sameButSkipped a b -> sameButSkipped (count Skipped a) b.
Proof. unfold sameButSkipped, count. cbn. intuition. Qed.

Lemma sameButSkipped_stop (a b : LoopState) :
  sameButSkipped a b -> sameButSkipped (set_shouldStop a) (set_shouldStop b).
Proof. unfold sameButSkipped, set_shouldStop. cbn. intuition. Qed.

Lemma noteLoop_filter_hasId (notes : list BijiNote) :
  forall (ls ls' : LoopState) (m : Machine World),
    sameButSkipped ls ls' ->
    sameOutcome (noteLoop folder lastSync notes ls m)
                (noteLoop folder lastSync (filter hasId notes) ls' m).
Proof.
  induction notes as [|note rest IH]; intros ls ls' m S.
  - split; [reflexivity|exact S].
  - cbn [filter]. destruct (hasId note) eqn:Eid.
    + cbn [noteLoop]. unfold bind at 1 3, signalAborted, readWorld.
      destruct (host_aborted (world m)); [split; [reflexivity|exact S]|].
      destruct (reachedCursor lastSync note).
      * split; [reflexivity|].
        apply sameButSkipped_stop, sameButSkipped_capture, S.
      * unfold bind.
        destruct (syncNote folder note m) as [[v|e|] m1].
        -- apply IH, sameButSkipped_count, sameButSkipped_capture, S.
        -- split; reflexivity.
        -- split; [reflexivity|exact I].
    + destruct (host_aborted (world m)) eqn:Eab.
      * rewrite !noteLoop_aborted by exact Eab.
        split; [reflexivity|exact S].
      * cbn [noteLoop]. unfold bind at 1, signalAborted, readWorld.
        rewrite Eab, (capture_without_id _ _ Eid),
          (reachedCursor_without_id _ Eid).
        unfold bind. rewrite (syncNote_without_id _ _ Eid).
        apply IH, sameButSkipped_skip, S.
Qed.

Lemma skipCount_capture (note : BijiNote) (ls : LoopState) :
  skipCount (capture note ls) = skipCount ls.
Proof.
  unfold capture. destruct (newestNoteId ls); [reflexivity|].
  destruct (isFirstPage ls && truthy (id note)); reflexivity.
Qed.

(** A page that the loop went through to its end (no cursor reached, no
    cancellation seen): against the page without its identifier-less notes,
    the skipped counter is ahead by the number of those notes. *)
Lemma noteLoop_skipCount (notes : list BijiNote) :
  forall (ls ls' a : LoopState) (m m' : Machine World),
    sameButSkipped ls ls' ->
    noteLoop folder lastSync notes ls m = (Ret a, m') ->
    shouldStop a = false ->
    host_aborted (world m') = false ->
    exists b,
      noteLoop folder lastSync (filter hasId notes) ls' m = (Ret b, m')
      /\ skipCount a + skipCount ls'
         = skipCount b + skipCount ls + List.length (withoutId notes).
Proof.
  unfold withoutId.
  induction notes as [|note rest IH]; intros ls ls' a m m' S E Hstop Hab.
  - injection E as <- <-. exists ls'. split; [reflexivity|]. cbn. lia.
  - cbn [noteLoop] in E. unfold bind at 1, signalAborted, readWorld in E.
    destruct (host_aborted (world m)) eqn:Eab.
    { injection E as <- <-. congruence. }
    destruct (reachedCursor lastSync note) eqn:Ecur.
    { injection E as <- <-. discriminate Hstop. }
    cbn [filter]. destruct (hasId note) eqn:Eid; cbn [negb].
    + unfold bind in E.
      destruct (syncNote folder note m) as [[v|e|] m1] eqn:En;
        try discriminate E.
      destruct (IH _ (count v (capture note ls')) _ _ _
                  (sameButSkipped_count v
                     (sameButSkipped_capture note S)) E Hstop Hab)
        as (b & Eb & Hb).
      exists b. split.
      * cbn [noteLoop]. unfold bind, signalAborted, readWorld.
        rewrite Eab, Ecur, En. exact Eb.
      * destruct v; cbn [count skipCount] in Hb;
          rewrite !skipCount_capture in Hb; lia.
    + rewrite (capture_without_id _ _ Eid) in E.
      unfold bind in E. rewrite (syncNote_without_id _ _ Eid) in E.
      destruct (IH _ ls' _ _ _ (sameButSkipped_skip S) E Hstop Hab)
        as (b & Eb & Hb).
      exists b. split; [exact Eb|].
      cbn [count skipCount List.length] in Hb |- *. lia.
Qed.

(** C7: a note without identifier has no record; its processing returns the
    verdict skipped with the machine untouched, and the loop goes on with the
    skipped counter one higher and everything else as it was; the note loop
    over a page ends in the same machine, in the same way and with the same
    count of synced files as over the page without its identifier-less notes;
    and over a page that it goes through to the end, its skipped counter is
    ahead of that of the page without them by their number. *)
Theorem notes_without_id_do_not_count :
  (forall note, bijiNoteToRawNote note = None <-> hasId note = false)
  /\ (forall note m,
        hasId note = false -> syncNote folder note m = (Ret Skipped, m))
  /\ (forall notes ls m,
        sameOutcome (noteLoop folder lastSync notes ls m)
                    (noteLoop folder lastSync (filter hasId notes) ls m))
  /\ (forall notes ls m a b,
        fst (noteLoop folder lastSync notes ls m) = Ret a ->
        fst (noteLoop folder lastSync (filter hasId notes) ls m) = Ret b ->
        syncCount a = syncCount b)
  /\ (forall note rest ls m,
        hasId note = false ->
        host_aborted (world m) = false ->
        noteLoop folder lastSync (note :: rest) ls m
        = noteLoop folder lastSync rest
            {| syncCount := syncCount ls; skipCount := S (skipCount ls);
               errorCount := errorCount ls; newestNoteId := newestNoteId ls;
               shouldStop := shouldStop ls; isFirstPage := isFirstPage ls |}
            m)
  /\ (forall notes ls m a m',
        noteLoop folder lastSync notes ls m = (Ret a, m') ->
        shouldStop a = false ->
        host_aborted (world m') = false ->
        exists b,
          noteLoop folder lastSync (filter hasId notes) ls m = (Ret b, m')
          /\ skipCount a = skipCount b + List.length (withoutId notes)).
Proof.
  split; [|split; [|split; [|split; [|split]]]].
  - intros note. apply bijiNoteToRawNote_none.
  - intros note m. apply syncNote_without_id.
  - intros notes ls m. apply noteLoop_filter_hasId, sameButSkipped_refl.
  - intros notes ls m a b Ea Eb.
    destruct (noteLoop_filter_hasId notes m (sameButSkipped_refl ls))
      as [_ Hs].
    rewrite Ea, Eb in Hs. apply Hs.
  - intros note rest ls m Eid Eab.
    cbn [noteLoop]. unfold bind at 1, signalAborted, readWorld.
    rewrite Eab, (capture_without_id _ _ Eid),
      (reachedCursor_without_id _ Eid).
    unfold bind. rewrite (syncNote_without_id _ _ Eid). reflexivity.
  - intros notes ls m a m' E Hstop Hab.
    destruct (@noteLoop_skipCount notes ls ls a m m'
                (sameButSkipped_refl ls) E Hstop Hab)
      as (b & Eb & Hb).
    exists b. split; [exact Eb|lia].
Qed.

End NoteLoopFacts.

(** A page of three notes, the second without identifier, on an empty
    vault. *)
Lemma notes_without_id_do_not_count_witness :
  let m := simMachine (simWorld [] []) None in
  syncNote (str "Notes") (mkNote (Val []) (str "No ID")) m = (Ret Skipped, m)
  /\ sameOutcome
       (noteLoop (str "Notes") None pageWithBlank initialLoopState m)
       (noteLoop (str "Notes") None (filter hasId pageWithBlank)
          initialLoopState m)
  /\ exists a b,
       fst (noteLoop (str "Notes") None pageWithBlank initialLoopState m)
       = Ret a
       /\ fst (noteLoop (str "Notes") None (filter hasId pageWithBlank)
                 initialLoopState m)
          = Ret b
       /\ skipCount a = skipCount b + 1.
Proof.
  cbv zeta.
  assert (Hrun :
    exists a,
      noteLoop (str "Notes") None pageWithBlank initialLoopState
        (simMachine (simWorld [] []) None)
      = (Ret a,
         snd (noteLoop (str "Notes") None pageWithBlank initialLoopState
                (simMachine (simWorld [] []) None)))
      /\ shouldStop a = false).
  { eexists. split; vm_compute; reflexivity. }
  destruct Hrun as (a & Hrun & Hstop).
  assert (Hab :
    host_aborted
      (world (snd (noteLoop (str "Notes") None pageWithBlank initialLoopState
                     (simMachine (simWorld [] []) None))))
    = false) by (vm_compute; reflexivity).
  split; [|split].
  - exact (proj1 (proj2
             (@notes_without_id_do_not_count Sim simHost simRendering
                (str "Notes") None))
             (mkNote (Val []) (str "No ID")) _ eq_refl).
  - exact (proj1 (proj2 (proj2
             (@notes_without_id_do_not_count Sim simHost simRendering
                (str "Notes") None)))
             pageWithBlank initialLoopState _).
  - destruct (proj2 (proj2 (proj2 (proj2 (proj2
               (@notes_without_id_do_not_count Sim simHost simRendering
                  (str "Notes") None)))))
               pageWithBlank initialLoopState _ a _ Hrun Hstop Hab)
      as (b & Eb & Hb).
    exists a, b. rewrite Hrun, Eb. repeat split. exact Hb.
Defined.

(* ------------------------------------------------------------------ *)
(** ** The Sync Orchestrator: stopping at the stored cursor *)

Section StopFacts.

Context {World : Type} `{Host World} `{Rendering}.

Variable folder : jsstring.
Variable lastSync : option jsstring.

Lemma shouldStop_capture (note : BijiNote) (ls : LoopState) :
  shouldStop (capture note ls) = shouldStop ls.
Proof.
  unfold capture. destruct (newestNoteId ls); [reflexivity|].
  destruct (isFirstPage ls && truthy (id note)); reflexivity.
Qed.

Lemma shouldStop_count (v : Verdict) (ls : LoopState) :
  shouldStop (count v ls) = shouldStop ls.
Proof. reflexivity. Qed.

(** The note loop over [a ++ b] is the loop over [a], followed by the loop
    over [b] unless the first one was left by [break]. *)
Lemma noteLoop_app (a b : list BijiNote) :
  forall (ls : LoopState) (m : Machine World),
    shouldStop ls = false ->
    noteLoop folder lastSync (a ++ b) ls m =
    match noteLoop folder lastSync a ls m with
    | (Ret ls1, m1) =>
        if shouldStop ls1 || host_aborted (world m1) then (Ret ls1, m1)
        else noteLoop folder lastSync b ls1 m1
    | other => other
    end.
Proof.
  induction a as [|n a' IH]; intros ls m Hs.
  - cbn [app noteLoop]. unfold ret. rewrite Hs. cbn [orb].
    destruct (host_aborted (world m)) eqn:Eab; [|reflexivity].
    apply noteLoop_aborted, Eab.
  - cbn [app noteLoop]. unfold bind, signalAborted, readWorld.
    destruct (host_aborted (world m)) eqn:Eab.
    + unfold ret. rewrite Hs, Eab. reflexivity.
    + destruct (reachedCursor lastSync n).
      * unfold ret. reflexivity.
      * destruct (syncNote folder n m) as [[v|e|] m1]; try reflexivity.
        apply IH. rewrite shouldStop_count, shouldStop_capture. exact Hs.
Qed.

(** A page that holds the stored cursor: everything from the matching note
    on is left out. *)
Lemma noteLoop_reaches_cursor (pre post : list BijiNote) (n : BijiNote)
    (ls : LoopState) (m : Machine World) :
  reachedCursor lastSync n = true ->
  shouldStop ls = false ->
  noteLoop folder lastSync (pre ++ n :: post) ls m =
  match noteLoop folder lastSync pre ls m with
  | (Ret ls1, m1) =>
      (Ret (if shouldStop ls1 || host_aborted (world m1) then ls1
            else set_shouldStop (capture n ls1)), m1)
  | other => other
  end.
Proof.
  intros Hn Hs. rewrite (noteLoop_app pre (n :: post) ls m Hs).
  destruct (noteLoop folder lastSync pre ls m) as [[ls1|e|] m1];
    try reflexivity.
  destruct (shouldStop ls1) eqn:E1; [reflexivity|].
  destruct (host_aborted (world m1)) eqn:Eab; [reflexivity|].
  cbn [orb noteLoop]. unfold bind, signalAborted, readWorld.
  rewrite Eab, Hn. reflexivity.
Qed.

(** The page loop ends with the page on which the note loop was left by
    [break]. *)
Lemma pageLoop_break (fuel : nat) (silent : bool) (jwt0 : jsstring)
    (g : GenState) (notes : list BijiNote) (ls ls1 : LoopState)
    (m m1 m2 : Machine World) :
  fetchNotes jwt0 refreshJwtCallback g m = (Ret (Some notes), m1) ->
  host_aborted (world m1) = false ->
  noteLoop folder lastSync notes ls m1 = (Ret ls1, m2) ->
  shouldStop ls1 || host_aborted (world m2) = true ->
  pageLoop (S fuel) silent folder lastSync jwt0 g ls m
  = (Ret (clear_isFirstPage ls1), m2).
Proof.
  intros Ef Eab En Eb. cbn [pageLoop]. unfold bind at 1. rewrite Ef.
  unfold bind at 1, signalAborted at 1, readWorld. rewrite Eab.
  unfold bind at 1. rewrite En.
  unfold bind at 1, signalAborted at 1, readWorld.
  change (shouldStop (clear_isFirstPage ls1)) with (shouldStop ls1).
  rewrite Eb. reflexivity.
Qed.

Lemma pageLoop_throw (fuel : nat) (silent : bool) (jwt0 : jsstring)
    (g : GenState) (notes : list BijiNote) (ls : LoopState) (e : Err)
    (m m1 m2 : Machine World) :
  fetchNotes jwt0 refreshJwtCallback g m = (Ret (Some notes), m1) ->
  host_aborted (world m1) = false ->
  noteLoop folder lastSync notes ls m1 = (Throw e, m2) ->
  pageLoop (S fuel) silent folder lastSync jwt0 g ls m = (Throw e, m2).
Proof.
  intros Ef Eab En. cbn [pageLoop]. unfold bind at 1. rewrite Ef.
  unfold bind at 1, signalAborted at 1, readWorld. rewrite Eab.
  unfold bind at 1. rewrite En. reflexivity.
Qed.

Lemma createdPaths_app (a b : list Event) :
  createdPaths (a ++ b) = createdPaths a ++ createdPaths b.
Proof. apply flat_map_app. Qed.

(** Whatever its outcome, [finalize] creates no file. *)
Lemma finalize_creates_nothing (silent : bool) (ls : LoopState)
    (m m' : Machine World) (r : Result unit) :
  finalize silent ls m = (r, m') ->
  createdPaths (trace m') = createdPaths (trace m).
Proof.
  unfold finalize, bind, writeSettings, readWorld, saveSettings, readSettings,
    emit, liftEffect, signalAborted, notice, ret.
  intros E.
  destruct (newestNoteId ls) as [[|c i]|]; cbn in E;
    match type of E with
    | context [host_saveData ?s ?w] =>
        destruct (host_saveData s w) as [[e|] w'] eqn:Es; cbn in E
    end;
    try (destruct (host_aborted w'); destruct silent; cbn in E);
    injection E as <- <-; cbn;
    rewrite ?createdPaths_app; cbn; rewrite ?app_nil_r; reflexivity.
Qed.

(** C5: when a delivered page holds a note whose identifier is the stored
    cursor, the note loop ends in the machine that processing the notes
    before it leaves, with the stop flag set once the note is reached, so
    neither that note nor any later note of the page is processed; the page
    loop ends in that same machine, so no further page is requested or
    processed; and what follows the page loop creates no file. *)
Theorem stop_at_cursor (fuel : nat) (silent : bool) (jwt0 : jsstring)
    (g : GenState) (pre post : list BijiNote) (n : BijiNote)
    (ls : LoopState) (m m1 : Machine World) :
  reachedCursor lastSync n = true ->
  shouldStop ls = false ->
  fetchNotes jwt0 refreshJwtCallback g m
  = (Ret (Some (pre ++ n :: post)), m1) ->
  host_aborted (world m1) = false ->
  noteLoop folder lastSync (pre ++ n :: post) ls m1
  = match noteLoop folder lastSync pre ls m1 with
    | (Ret ls1, m2) =>
        (Ret (if shouldStop ls1 || host_aborted (world m2) then ls1
              else set_shouldStop (capture n ls1)), m2)
    | other => other
    end
  /\ (forall ls1 m2,
        noteLoop folder lastSync pre ls m1 = (Ret ls1, m2) ->
        pageLoop (S fuel) silent folder lastSync jwt0 g ls m
        = (Ret (clear_isFirstPage
                  (if shouldStop ls1 || host_aborted (world m2) then ls1
                   else set_shouldStop (capture n ls1))), m2))
  /\ (forall e m2,
        noteLoop folder lastSync pre ls m1 = (Throw e, m2) ->
        pageLoop (S fuel) silent folder lastSync jwt0 g ls m = (Throw e, m2))
  /\ (forall ls2 m2 r m3,
        finalize silent ls2 m2 = (r, m3) ->
        createdPaths (trace m3) = createdPaths (trace m2)).
Proof.
  intros Hn Hs Ef Eab.
  pose proof (noteLoop_reaches_cursor pre post n ls m1 Hn Hs) as Hpage.
  split; [exact Hpage|split; [|split]].
  - intros ls1 m2 Epre. rewrite Epre in Hpage.
    eapply pageLoop_break; [exact Ef|exact Eab|exact Hpage|].
    destruct (shouldStop ls1) eqn:E1; cbn [orb].
    + rewrite E1. reflexivity.
    + destruct (host_aborted (world m2)) eqn:E2.
      * apply orb_true_r.
      * reflexivity.
  - intros e m2 Epre. rewrite Epre in Hpage.
    eapply pageLoop_throw; [exact Ef|exact Eab|exact Hpage].
  - intros ls2 m2 r m3. apply finalize_creates_nothing.
Qed.

End StopFacts.

Lemma stop_at_cursor_witness :
  let cursor := Some (str "note-002") in
  let m := simMachine (simWorld [pageResponse cursorPage] []) cursor in
  let m1 := snd (fetchNotes (str "jwt") refreshJwtCallback GenStart m) in
  noteLoop (str "Notes") cursor cursorPage initialLoopState m1
  = noteLoop (str "Notes") cursor
      [mkNote (Val (str "note-003")) (str "New Note")]
      (set_shouldStop initialLoopState) m1.
Proof.
  pose proof
    (@stop_at_cursor Sim simHost simRendering (str "Notes")
       (Some (str "note-002")) 0 false (str "jwt") GenStart
       [mkNote (Val (str "note-003")) (str "New Note")]
       [mkNote (Val (str "note-001")) (str "Old Note")]
       (mkNote (Val (str "note-002")) (str "Already Synced"))
       initialLoopState
       (simMachine (simWorld [pageResponse cursorPage] [])
          (Some (str "note-002")))
       _ eq_refl eq_refl eq_refl eq_refl) as [Hpage _].
  cbv zeta. etransitivity; [exact Hpage|]. reflexivity.
Defined.

(* ------------------------------------------------------------------ *)
(** ** The Sync Orchestrator: the stored cursor *)

Create HintDb quiet.

Section CursorFacts.

Context {World : Type} `{Host World} `{Rendering}.

Local Abbreviation quiet := (@quiet World _) (only parsing).

Lemma quiet_same {A} (r : Result A) (m : Machine World) :
  settings m = settings m
  /\ exists evs, trace m = trace m ++ evs /\ Forall notSave evs.
Proof. split; [reflexivity|]. exists []. rewrite app_nil_r. auto. Qed.

Lemma quiet_ret {A} (a : A) : quiet (ret a).
Proof. intros m r m' E. injection E as <- <-. exact (quiet_same (Ret a) m). Qed.

Lemma quiet_throw {A} (e : Err) : quiet (@throw World A e).
Proof.
  intros m r m' E. injection E as <- <-. exact (quiet_same (@Throw A e) m).
Qed.

Lemma quiet_outOfFuel {A} : quiet (@outOfFuel World A).
Proof.
  intros m r m' E. injection E as <- <-. exact (quiet_same (@OutOfFuel A) m).
Qed.

Lemma quiet_then (m m1 m2 : Machine World) :
  (settings m1 = settings m
   /\ exists evs, trace m1 = trace m ++ evs /\ Forall notSave evs) ->
  (settings m2 = settings m1
   /\ exists evs, trace m2 = trace m1 ++ evs /\ Forall notSave evs) ->
  settings m2 = settings m
  /\ exists evs, trace m2 = trace m ++ evs /\ Forall notSave evs.
Proof.
  intros (S1 & evs1 & T1 & F1) (S2 & evs2 & T2 & F2).
  split; [congruence|]. exists (evs1 ++ evs2).
  rewrite T2, T1, app_assoc. split; [reflexivity|].
  apply Forall_app. auto.
Qed.

Lemma quiet_bind {A B} (c : M World A) (k : A -> M World B) :
  quiet c -> (forall a, quiet (k a)) -> quiet (bind c k).
Proof.
  intros Hc Hk m r m' E. unfold bind in E.
  destruct (c m) as [[a|e|] m1] eqn:Ec.
  - eapply quiet_then; [exact (Hc _ _ _ Ec)|exact (Hk a _ _ _ E)].
  - injection E as <- <-. exact (Hc _ _ _ Ec).
  - injection E as <- <-. exact (Hc _ _ _ Ec).
Qed.

Lemma quiet_tryCatch {A} (c : M World A) (h : Err -> M World A) :
  quiet c -> (forall e, quiet (h e)) -> quiet (tryCatch c h).
Proof.
  intros Hc Hh m r m' E. unfold tryCatch in E.
  destruct (c m) as [[a|e|] m1] eqn:Ec.
  - injection E as <- <-. exact (Hc _ _ _ Ec).
  - eapply quiet_then; [exact (Hc _ _ _ Ec)|exact (Hh e _ _ _ E)].
  - injection E as <- <-. exact (Hc _ _ _ Ec).
Qed.

Lemma quiet_emit (ev : Event) : notSave ev -> quiet (emit ev).
Proof.
  intros Hev m r m' E. injection E as <- <-. cbn.
  split; [reflexivity|]. exists [ev]. auto.
Qed.

Lemma quiet_liftOutcome {A} (f : World -> (A + Err) * World) :
  quiet (liftOutcome f).
Proof.
  intros m r m' E. unfold liftOutcome in E.
  destruct (f (world m)) as [[a|e] w]; injection E as <- <-;
    exact (quiet_same (Ret tt) m).
Qed.

Lemma quiet_liftEffect (f : World -> option Err * World) :
  quiet (liftEffect f).
Proof.
  intros m r m' E. unfold liftEffect in E.
  destruct (f (world m)) as [[e|] w]; injection E as <- <-;
    exact (quiet_same (Ret tt) m).
Qed.

Lemma quiet_readWorld {A} (f : World -> A) : quiet (readWorld f).
Proof.
  intros m r m' E. injection E as <- <-. exact (quiet_same (Ret tt) m).
Qed.

Lemma quiet_readSettings : quiet readSettings.
Proof.
  intros m r m' E. injection E as <- <-. exact (quiet_same (Ret tt) m).
Qed.

Lemma quiet_readJwt : quiet readJwt.
Proof.
  intros m r m' E. injection E as <- <-. exact (quiet_same (Ret tt) m).
Qed.

Lemma quiet_writeJwt (j : jsstring) : quiet (writeJwt j).
Proof.
  intros m r m' E. injection E as <- <-. exact (quiet_same (Ret tt) m).
Qed.

Lemma quiet_sleep (d : Number) : quiet (sleep d).
Proof.
  intros m r m' E. rewrite sleep_run in E. injection E as <- <-. cbn.
  split; [reflexivity|]. exists [EvDelay d].
  split; [reflexivity|]. constructor; [exact I|constructor].
Qed.

#[local] Hint Resolve quiet_ret quiet_throw quiet_outOfFuel quiet_liftOutcome
  quiet_liftEffect quiet_readWorld quiet_readSettings quiet_readJwt
  quiet_writeJwt quiet_sleep : quiet.

(** One step of a proof that a computation is quiet. *)
Ltac quiet_step :=
  first
    [ solve [auto with quiet nocore]
    | apply quiet_emit; exact I
    | apply quiet_bind; [|intro]
    | apply quiet_tryCatch; [|intro]
    | match goal with
      | |- quiet (match ?x with _ => _ end) => destruct x
      | |- quiet (let _ := _ in _) => cbv zeta
      end ].

Ltac quiet_auto := repeat quiet_step.

Lemma quiet_requestUrl (params : RequestUrlParam) :
  quiet (requestUrl params).
Proof. unfold requestUrl. quiet_auto. Qed.

#[local] Hint Resolve quiet_requestUrl : quiet.

Lemma quiet_signalAborted : quiet signalAborted.
Proof. unfold signalAborted. quiet_auto. Qed.

#[local] Hint Resolve quiet_signalAborted : quiet.

Lemma quiet_retryLoop (cb : M World jsstring) (params : RequestUrlParam) :
  quiet cb ->
  forall n attempt, quiet (retryLoop n attempt params cb).
Proof.
  intros Hcb. induction n as [|n IH]; intros attempt; cbn [retryLoop].
  - quiet_auto.
  - pose proof (IH (S attempt)). quiet_auto.
Qed.

Lemma quiet_requestWithRetry (cb : M World jsstring)
    (params : RequestUrlParam) :
  quiet cb -> quiet (requestWithRetry params cb).
Proof. intros Hcb. apply quiet_retryLoop, Hcb. Qed.

Lemma quiet_responseC (r : option Response) : quiet (responseC r).
Proof. unfold responseC. quiet_auto. Qed.

#[local] Hint Resolve quiet_requestWithRetry quiet_responseC : quiet.

Lemma quiet_refreshJwt (token : jsstring) : quiet (refreshJwt token).
Proof. unfold refreshJwt. quiet_auto. Qed.

#[local] Hint Resolve quiet_refreshJwt : quiet.

Lemma quiet_refreshJwtCallback : quiet refreshJwtCallback.
Proof. unfold refreshJwtCallback. quiet_auto. Qed.

#[local] Hint Resolve quiet_refreshJwtCallback : quiet.

Lemma quiet_fetchPage (jwt0 sinceId : jsstring) :
  quiet (fetchPage jwt0 refreshJwtCallback sinceId).
Proof. unfold fetchPage. quiet_auto. Qed.

#[local] Hint Resolve quiet_fetchPage : quiet.

Lemma quiet_fetchNotes (jwt0 : jsstring) (g : GenState) :
  quiet (fetchNotes jwt0 refreshJwtCallback g).
Proof. unfold fetchNotes. quiet_auto. Qed.

Lemma quiet_fetchLinkDetail (jwt0 noteId : jsstring) :
  quiet (fetchLinkDetail jwt0 noteId refreshJwtCallback).
Proof. unfold fetchLinkDetail. quiet_auto. Qed.

Lemma quiet_notice (silent : bool) (n : NoticeMsg) : quiet (notice silent n).
Proof. unfold notice. quiet_auto. Qed.

Lemma quiet_createFolder (path : jsstring) : quiet (createFolder path).
Proof. unfold createFolder. quiet_auto. Qed.

Lemma quiet_create (path markdown : jsstring) : quiet (create path markdown).
Proof. unfold create. quiet_auto. Qed.

#[local] Hint Resolve quiet_fetchNotes quiet_fetchLinkDetail quiet_notice
  quiet_createFolder quiet_create : quiet.

Lemma quiet_syncNote (folder : jsstring) (note : BijiNote) :
  quiet (syncNote folder note).
Proof.
  unfold syncNote, syncNoteBody, attachLinkContent, finalNameOf. quiet_auto.
Qed.

#[local] Hint Resolve quiet_syncNote : quiet.

Lemma quiet_noteLoop (folder : jsstring) (lastSync : option jsstring)
    (notes : list BijiNote) :
  forall ls, quiet (noteLoop folder lastSync notes ls).
Proof.
  induction notes as [|note rest IH]; intros ls; cbn [noteLoop].
  - quiet_auto.
  - quiet_auto.
Qed.

#[local] Hint Resolve quiet_noteLoop : quiet.

Lemma quiet_pageLoop (silent : bool) (folder : jsstring)
    (lastSync : option jsstring) (jwt0 : jsstring) (fuel : nat) :
  forall g ls, quiet (pageLoop fuel silent folder lastSync jwt0 g ls).
Proof.
  induction fuel as [|fuel IH]; intros g ls; cbn [pageLoop].
  - quiet_auto.
  - quiet_auto.
Qed.

Lemma quiet_prepare (folder : jsstring) : quiet (prepare folder).
Proof. unfold prepare, obtainJwt, ensureFolder. quiet_auto. Qed.

Lemma capture_settled (note : BijiNote) (ls : LoopState) :
  settled ls -> capture note ls = ls.
Proof.
  unfold capture. intros [E|[i E]]; rewrite E; [|reflexivity].
  destruct (newestNoteId ls); reflexivity.
Qed.

Lemma settled_count (v : Verdict) (ls : LoopState) :
  settled ls -> settled (count v ls).
Proof. exact (fun S => S). Qed.

(** The captured identifier is never overwritten by the note loop. *)
Lemma noteLoop_settled (folder : jsstring) (lastSync : option jsstring)
    (notes : list BijiNote) :
  forall ls m ls' m',
    settled ls ->
    noteLoop folder lastSync notes ls m = (Ret ls', m') ->
    newestNoteId ls' = newestNoteId ls /\ isFirstPage ls' = isFirstPage ls.
Proof.
  induction notes as [|note rest IH]; intros ls m ls' m' S E.
  - injection E as <- <-. auto.
  - cbn [noteLoop] in E. unfold bind, signalAborted, readWorld in E.
    destruct (host_aborted (world m)); [injection E as <- <-; auto|].
    rewrite (capture_settled note S) in E.
    destruct (reachedCursor lastSync note); [injection E as <- <-; auto|].
    destruct (syncNote folder note m) as [[v|e|] m1]; try discriminate E.
    exact (IH _ _ _ _ (settled_count v S) E).
Qed.

Lemma firstId_cons (note : BijiNote) (rest : list BijiNote) :
  firstId (note :: rest)
  = if hasId note then Some (toStr (id note)) else firstId rest.
Proof. unfold firstId. cbn [find]. destruct (hasId note); reflexivity. Qed.

(** On the first page, entered before cancellation, the loop captures the
    identifier of the first note that has one. *)
Lemma noteLoop_first_page (folder : jsstring) (lastSync : option jsstring)
    (notes : list BijiNote) :
  forall ls m ls' m',
    isFirstPage ls = true ->
    newestNoteId ls = None ->
    host_aborted (world m) = false ->
    noteLoop folder lastSync notes ls m = (Ret ls', m') ->
    newestNoteId ls' = firstId notes.
Proof.
  induction notes as [|note rest IH]; intros ls m ls' m' Ef En Ea E.
  - injection E as <- <-. exact En.
  - rewrite firstId_cons. cbn [noteLoop] in E.
    unfold bind, signalAborted, readWorld in E. rewrite Ea in E.
    destruct (hasId note) eqn:Eid.
    + assert (Ec : newestNoteId (capture note ls) = Some (toStr (id note))).
      { unfold capture. unfold hasId in Eid. rewrite En, Ef, Eid.
        reflexivity. }
      destruct (reachedCursor lastSync note).
      * injection E as <- <-. exact Ec.
      * destruct (syncNote folder note m) as [[v|e|] m1];
          try discriminate E.
        assert (S : settled (count v (capture note ls))).
        { right. exists (toStr (id note)). exact Ec. }
        destruct (noteLoop_settled _ _ _ _ S E) as [-> _]. exact Ec.
    + rewrite (capture_without_id _ _ Eid),
        (reachedCursor_without_id lastSync _ Eid),
        (syncNote_without_id folder _ _ Eid) in E.
      exact (IH (count Skipped ls) m ls' m' Ef En Ea E).
Qed.

(** After the first page the page loop keeps the captured identifier. *)
Lemma pageLoop_settled (silent : bool) (folder : jsstring)
    (lastSync : option jsstring) (jwt0 : jsstring) (fuel : nat) :
  forall g ls m ls' m',
    settled ls ->
    pageLoop fuel silent folder lastSync jwt0 g ls m = (Ret ls', m') ->
    newestNoteId ls' = newestNoteId ls.
Proof.
  induction fuel as [|fuel IH]; intros g ls m ls' m' S E.
  - discriminate E.
  - cbn [pageLoop] in E. unfold bind at 1 in E.
    destruct (fetchNotes jwt0 refreshJwtCallback g m) as [[[notes|]|e|] m1];
      try discriminate E.
    + unfold bind at 1, signalAborted at 1, readWorld in E.
      destruct (host_aborted (world m1)); [injection E as <- <-; auto|].
      unfold bind at 1 in E.
      destruct (noteLoop folder lastSync notes ls m1) as [[ls1|e|] m2] eqn:En;
        try discriminate E.
      destruct (noteLoop_settled _ _ _ _ S En) as [Hn Hf].
      unfold bind at 1, signalAborted at 1, readWorld in E.
      destruct (shouldStop (clear_isFirstPage ls1)
                || host_aborted (world m2)).
      * injection E as <- <-. exact Hn.
      * unfold bind at 1 in E.
        destruct (notice silent
                    (NoticeProgress (syncCount (clear_isFirstPage ls1))) m2)
          as [[[]|e|] m3]; try discriminate E.
        rewrite <- Hn.
        apply (IH (GenYielded notes) (clear_isFirstPage ls1) m3 ls' m').
        -- left. reflexivity.
        -- exact E.
    + injection E as <- <-. reflexivity.
Qed.

(** What the page loop has captured when it ends. *)
Lemma pageLoop_captures (silent : bool) (folder : jsstring)
    (lastSync : option jsstring) (jwt0 : jsstring) (fuel : nat)
    (m : Machine World) (ls' : LoopState) (m' : Machine World) :
  pageLoop fuel silent folder lastSync jwt0 GenStart initialLoopState m
  = (Ret ls', m') ->
  newestNoteId ls'
  = match firstDelivered jwt0 m with
    | Some notes => firstId notes
    | None => None
    end.
Proof.
  intros E. unfold firstDelivered.
  destruct fuel as [|fuel]; [discriminate E|].
  cbn [pageLoop] in E. unfold bind at 1 in E.
  destruct (fetchNotes jwt0 refreshJwtCallback GenStart m)
    as [[[notes|]|e|] m1]; try discriminate E.
  - unfold bind at 1, signalAborted at 1, readWorld in E.
    destruct (host_aborted (world m1)) eqn:Ea;
      [injection E as <- <-; reflexivity|].
    unfold bind at 1 in E.
    destruct (noteLoop folder lastSync notes initialLoopState m1)
      as [[ls1|e|] m2] eqn:En; try discriminate E.
    assert (Hc : newestNoteId ls1 = firstId notes).
    { eapply noteLoop_first_page; [| |exact Ea|exact En]; reflexivity. }
    unfold bind at 1, signalAborted at 1, readWorld in E.
    destruct (shouldStop (clear_isFirstPage ls1) || host_aborted (world m2)).
    + injection E as <- <-. exact Hc.
    + unfold bind at 1 in E.
      destruct (notice silent
                  (NoticeProgress (syncCount (clear_isFirstPage ls1))) m2)
        as [[[]|e|] m3]; try discriminate E.
      rewrite <- Hc.
      change (newestNoteId ls1) with (newestNoteId (clear_isFirstPage ls1)).
      eapply pageLoop_settled; [|exact E]. left. reflexivity.
  - injection E as <- <-. reflexivity.
Qed.

Lemma firstId_nonempty (notes : list BijiNote) (i : jsstring) :
  firstId notes = Some i -> exists c r, i = c :: r.
Proof.
  unfold firstId. destruct (find hasId notes) as [n|] eqn:Ef; [|discriminate].
  apply find_some in Ef. destruct Ef as [_ Hn].
  unfold hasId, truthy in Hn.
  destruct (id n) as [| |[|c r]]; try discriminate Hn.
  intros E. injection E as <-. cbn. eauto.
Qed.

Lemma finalize_run (silent : bool) (ls : LoopState) (m m' : Machine World) :
  finalize silent ls m = (Ret tt, m') ->
  settings m' = finalSettings ls (settings m) (host_now (world m))
  /\ host_saveData (settings m') (world m) = (None, world m')
  /\ exists notices,
       trace m' = trace m ++ EvSave (settings m') :: notices
       /\ Forall isNotice notices.
Proof.
  unfold finalize, finalSettings, bind, writeSettings, readWorld,
    saveSettings, readSettings, emit, liftEffect, signalAborted, notice, ret.
  intros E.
  destruct (newestNoteId ls) as [[|c i]|]; cbn in E |- *;
    match type of E with
    | context [host_saveData ?s ?w] =>
        destruct (host_saveData s w) as [[e|] w'] eqn:Es; cbn in E;
          [discriminate E|]
    end;
    destruct (host_aborted w'); destruct silent; cbn in E;
    injection E as <-; cbn;
    (split; [reflexivity|]); (split; [exact Es|]);
    eexists; (split; [rewrite <- ?app_assoc; reflexivity|]);
    repeat constructor.
Qed.

(** C1 (as amended): a run that passes validation and completes stores as
    cursor the identifier of the first note with a non-empty identifier on
    the first page handed to its note loop (the first page fetched, unless
    cancellation was signalled by the time it arrived), and keeps the old
    cursor when there is no such page or no such note; it stores the clock
    reading as last-sync time, leaves the other settings alone, and saves
    the settings exactly once, after everything else but the summary
    notice. *)
Theorem syncBiji_cursor (fuel : nat) (silent : bool) (m m' : Machine World) :
  validateRefreshToken (refreshToken (settings m)) = None ->
  syncBiji fuel silent m = (Ret tt, m') ->
  exists j m1 ls m2,
    prepare (targetFolder (settings m)) m = (Ret j, m1)
    /\ pageLoop fuel silent (targetFolder (settings m))
         (lastSyncId (settings m)) j GenStart initialLoopState m1
       = (Ret ls, m2)
    /\ lastSyncId (settings m')
       = cursorAfter (lastSyncId (settings m)) (firstDelivered j m1)
    /\ lastSyncTime (settings m') = Some (host_now (world m2))
    /\ (refreshToken (settings m') = refreshToken (settings m)
        /\ targetFolder (settings m') = targetFolder (settings m)
        /\ autoSyncEnabled (settings m') = autoSyncEnabled (settings m)
        /\ autoSyncInterval (settings m') = autoSyncInterval (settings m))
    /\ host_saveData (settings m') (world m2) = (None, world m')
    /\ exists evs notices,
         trace m' = trace m ++ evs ++ EvSave (settings m') :: notices
         /\ Forall notSave evs
         /\ Forall isNotice notices.
Proof.
  intros Hvalid E. unfold syncBiji in E.
  unfold bind at 1, readSettings in E. rewrite Hvalid in E.
  unfold bind at 1 in E.
  destruct (prepare (targetFolder (settings m)) m) as [[j|e|] m1] eqn:Ep;
    try discriminate E.
  unfold bind at 1 in E.
  destruct (pageLoop fuel silent (targetFolder (settings m))
              (lastSyncId (settings m)) j GenStart initialLoopState m1)
    as [[ls|e|] m2] eqn:El; try discriminate E.
  pose proof (quiet_prepare (targetFolder (settings m))) as Q1.
  destruct (Q1 _ _ _ Ep) as (S1 & evs1 & T1 & F1).
  pose proof (quiet_pageLoop silent (targetFolder (settings m))
                (lastSyncId (settings m)) j fuel GenStart initialLoopState)
    as Q2.
  destruct (Q2 _ _ _ El) as (S2 & evs2 & T2 & F2).
  pose proof El as Hc. apply pageLoop_captures in Hc.
  apply finalize_run in E. destruct E as (Sf & Hsave & notices & Tf & Fn).
  assert (S0 : settings m2 = settings m) by congruence.
  exists j, m1, ls, m2.
  split; [first [exact Ep|reflexivity]|].
  split; [first [exact El|reflexivity]|].
  split; [|split; [|split; [|split]]].
  - rewrite Sf, S0. unfold finalSettings, cursorAfter. rewrite Hc.
    destruct (firstDelivered j m1) as [notes|]; [|reflexivity].
    destruct (firstId notes) as [i|] eqn:Ei; [|reflexivity].
    destruct (firstId_nonempty _ Ei) as (c & r & ->). reflexivity.
  - rewrite Sf. reflexivity.
  - rewrite Sf, S0. unfold finalSettings.
    destruct (newestNoteId ls) as [[|c i]|]; cbn; auto.
  - exact Hsave.
  - exists (evs1 ++ evs2), notices.
    split; [|split; [apply Forall_app; auto|exact Fn]].
    rewrite Tf, T2, T1, <- !app_assoc. reflexivity.
Qed.

End CursorFacts.

Lemma syncBiji_cursor_witness :
  fst blankFirstRun = Ret tt
  /\ lastSyncId (settings (snd blankFirstRun)) = Some (str "note-001")
  /\ lastSyncTime (settings (snd blankFirstRun)) = Some 0%Z
  /\ exists evs notices,
       trace (snd blankFirstRun)
       = evs ++ EvSave (settings (snd blankFirstRun)) :: notices
       /\ Forall notSave evs
       /\ Forall isNotice notices.
Proof.
  assert (Hrun :
    syncBiji 3 false
      (simMachine
         (simWorld [tokenResponse (str "jwt"); pageResponse pageWithBlank] [])
         None)
    = (Ret tt, snd blankFirstRun)) by (vm_compute; reflexivity).
  destruct
    (@syncBiji_cursor Sim simHost simRendering 3 false
       (simMachine
          (simWorld [tokenResponse (str "jwt"); pageResponse pageWithBlank] [])
          None)
       (snd blankFirstRun) eq_refl Hrun)
    as (j & m1 & ls & m2 & _ & _ & Hcursor & Htime & _ & _ & Htrace).
  split; [reflexivity|]. split; [reflexivity|]. split; [reflexivity|].
  exact Htrace.
Defined.

(** C1 (as stated) fails twice.  The first note of the first fetched page
    has an empty identifier and the cursor stored by the completed run is
    the identifier of the second note; and in a run cancelled while its
    first page is fetched, the page has a first note with an identifier and
    the completed run leaves the cursor as it was. *)
Lemma cursor_is_not_first_note :
  (fst blankFirstRun = Ret tt
   /\ hd_error pageWithBlank = Some (mkNote (Val []) (str "No ID"))
   /\ lastSyncId (settings (snd blankFirstRun)) = Some (str "note-001")
   /\ lastSyncId (settings (snd blankFirstRun))
      <> Some (toStr (id (mkNote (Val []) (str "No ID")))))
  /\ (fst cancelledFetchRun = Ret tt
      /\ In (EvRequest
               {| url := NotesUrl []; method := GET;
                  headers := apiHeaders (str "jwt"); body := None |})
            (trace (snd cancelledFetchRun))
      /\ lastSyncId (settings (snd cancelledFetchRun)) = None
      /\ lastSyncId (settings (snd cancelledFetchRun))
         <> Some (str "note-001")).
Proof.
  split.
  - split; [reflexivity|]. split; [reflexivity|]. split; [reflexivity|].
    vm_compute. discriminate.
  - split; [reflexivity|]. split; [vm_compute; auto|].
    split; [reflexivity|]. vm_compute. discriminate.
Qed.

(* ------------------------------------------------------------------ *)
(** ** The runs of the test suite *)

(** An empty page: nothing is written, the cursor stays null and the time
    is stored. *)
Example run_empty :
  let out :=
    syncBiji 3 false
      (simMachine (simWorld [tokenResponse (str "jwt"); pageResponse []] [])
         None) in
  fst out = Ret tt
  /\ createdPaths (trace (snd out)) = []
  /\ lastSyncId (settings (snd out)) = None
  /\ lastSyncTime (settings (snd out)) = Some 0%Z.
Proof. vm_compute. repeat split. Qed.

(** The stored cursor on the second note: one file, and the new cursor is
    the first note. *)
Example run_stops_at_cursor :
  let out :=
    syncBiji 3 false
      (simMachine
         (simWorld [tokenResponse (str "jwt"); pageResponse cursorPage] [])
         (Some (str "note-002"))) in
  fst out = Ret tt
  /\ createdPaths (trace (snd out)) = [str "Notes/New Note.md"]
  /\ lastSyncId (settings (snd out)) = Some (str "note-003").
Proof. vm_compute. repeat split. Qed.

(** Cancellation during the first write: the second note is not written and
    the settings are saved. *)
Example run_cancelled_on_create :
  let out :=
    syncBiji 3 false
      (simMachine
         (simWorldCancelling
            [tokenResponse (str "jwt");
             pageResponse [mkNote (Val (str "note-002")) (str "First");
                           mkNote (Val (str "note-001")) (str "Second")]]
            true None)
         None) in
  fst out = Ret tt
  /\ createdPaths (trace (snd out)) = [str "Notes/First.md"]
  /\ lastSyncId (settings (snd out)) = Some (str "note-002")
  /\ last (trace (snd out)) EvRefresh = EvNotice (NoticeCancelled 1 0).
Proof. vm_compute. repeat split. Qed.

(** A file with the same stored identifier: the note is skipped. *)
Example run_dedup :
  let out :=
    syncBiji 3 false
      (simMachine
         (simWorld
            [tokenResponse (str "jwt");
             pageResponse [mkNote (Val (str "note-001")) (str "Test Note")]]
            [(str "Notes/Test Note.md", Val (str "note-001"))])
         None) in
  fst out = Ret tt /\ createdPaths (trace (snd out)) = [].
Proof. vm_compute. repeat split. Qed.

(* ================================================================== *)
(** * Further properties *)

(* ------------------------------------------------------------------ *)
(** ** The executor, attempt by attempt *)

Section ExecutorMore.

Context {World : Type} `{Host World}.

Lemma retryLoop_returns_response (params : RequestUrlParam)
    (cb : M World jsstring) (n : nat) :
  forall attempt m r m',
    attempt + n = MAX_RETRIES ->
    1 <= n ->
    retryLoop n attempt params cb m = (Ret r, m') ->
    r <> None.
Proof.
  induction n as [|n IH]; intros attempt m r m' Hsum Hpos E; [lia|].
  destruct (host_requestUrl params (world m)) as [[resp|e] w] eqn:Eq.
  - rewrite (retryLoop_success n attempt params cb m Eq) in E.
    injection E as <- _. discriminate.
  - destruct (is401or403 (status_of e)) eqn:Ea.
    + rewrite (retryLoop_unauthorized n attempt params cb m Eq Ea) in E.
      destruct (cb (advance m w [EvRequest params; EvRefresh]))
        as [[newJwt|refreshErr|] m2]; try discriminate E.
      cbv zeta in E.
      destruct (host_requestUrl (withAuthorization params newJwt)
                  (world m2)) as [[resp|retryErr] w3];
        [|discriminate E].
      injection E as <- _. discriminate.
    + destruct (isOther4xx (status_of e)) eqn:Eo.
      * rewrite (retryLoop_other4xx n attempt params cb m Eq Ea Eo) in E.
        discriminate E.
      * cbn [retryLoop] in E. unfold tryCatch at 1, bind at 1 in E.
        rewrite requestUrl_run, Eq, Ea, Eo in E.
        destruct (Nat.eqb attempt (MAX_RETRIES - 1)) eqn:El;
          [discriminate E|].
        apply Nat.eqb_neq in El. unfold MAX_RETRIES in *.
        unfold bind at 1 in E. rewrite sleep_run in E.
        apply (IH (S attempt) _ _ _) in E; [exact E|lia|lia].
Qed.

(** X1: whenever the executor returns, it returns a response: its loop never
    ends without a [return] or a [throw], so the caller never receives
    [undefined]. *)
Theorem requestWithRetry_never_undefined (params : RequestUrlParam)
    (cb : M World jsstring) (m m' : Machine World) (r : option Response) :
  requestWithRetry params cb m = (Ret r, m') -> r <> None.
Proof.
  unfold requestWithRetry. apply retryLoop_returns_response.
  - reflexivity.
  - unfold MAX_RETRIES. lia.
Qed.

(** X2: a failure with any 4xx status other than 401, 403 and 429 is thrown
    as it is after a single request: no refresh, no delay, no retry. *)
Theorem requestWithRetry_client_error (params : RequestUrlParam)
    (cb : M World jsstring) (m : Machine World) (e : Err) (w : World) :
  host_requestUrl params (world m) = (inr e, w) ->
  is401or403 (status_of e) = false ->
  isOther4xx (status_of e) = true ->
  requestWithRetry params cb m = (Throw e, advance m w [EvRequest params]).
Proof. intros Eq Ea Eo. apply retryLoop_other4xx; assumption. Qed.

(** X3: when the first attempt fails with 401 or 403, every error that
    leaves the executor is an [AuthFatalError], and a response that leaves
    it is the answer to the one request retried with the refreshed
    credential. *)
Theorem requestWithRetry_unauthorized (params : RequestUrlParam)
    (cb : M World jsstring) (m m' : Machine World) (e : Err) (w : World)
    (r : Result (option Response)) :
  host_requestUrl params (world m) = (inr e, w) ->
  is401or403 (status_of e) = true ->
  requestWithRetry params cb m = (r, m') ->
  match r with
  | Throw e' => isAuthFatal e' = true
  | Ret x =>
      exists newJwt m2 resp,
        cb (advance m w [EvRequest params; EvRefresh]) = (Ret newJwt, m2)
        /\ host_requestUrl (withAuthorization params newJwt) (world m2)
           = (inl resp, world m')
        /\ x = Some resp
        /\ trace m' = trace m2 ++ [EvRequest (withAuthorization params newJwt)]
  | OutOfFuel => True
  end.
Proof.
  intros Eq Ea E. unfold requestWithRetry in E.
  change MAX_RETRIES with 3 in E.
  rewrite (retryLoop_unauthorized 2 0 params cb m Eq Ea) in E.
  destruct (cb (advance m w [EvRequest params; EvRefresh]))
    as [[newJwt|refreshErr|] m2] eqn:Ecb.
  - cbv zeta in E.
    destruct (host_requestUrl (withAuthorization params newJwt) (world m2))
      as [[resp|retryErr] w3] eqn:Er; injection E as <- <-.
    + exists newJwt, m2, resp. auto.
    + destruct (is401or403 (status_of retryErr)); [reflexivity|].
      destruct (isAuthFatal retryErr) eqn:Ef; [exact Ef|reflexivity].
  - injection E as <- <-.
    destruct (isAuthFatal refreshErr) eqn:Ef; [exact Ef|reflexivity].
  - injection E as <- <-. exact I.
Qed.

(** X4: a transient failure followed by a success costs one delay: the
    executor waits for the backoff of attempt 0 and returns the second
    answer. *)
Theorem requestWithRetry_recovers (params : RequestUrlParam)
    (cb : M World jsstring) (m : Machine World) (e : Err) (resp : Response)
    (w0 w1 : World) :
  isTransient e = true ->
  host_requestUrl params (world m) = (inr e, w0) ->
  host_requestUrl params (host_setTimeout (backoffDelay 0 e) w0)
  = (inl resp, w1) ->
  requestWithRetry params cb m
  = (Ret (Some resp),
     advance m w1
       [EvRequest params; EvDelay (backoffDelay 0 e); EvRequest params]).
Proof.
  intros Ht E0 E1. unfold requestWithRetry. change MAX_RETRIES with 3.
  rewrite (retryLoop_transient 2 0 params cb m E0 Ht).
  cbn [Nat.eqb MAX_RETRIES Nat.sub].
  erewrite retryLoop_success; [|exact E1].
  rewrite advance_advance. reflexivity.
Qed.

Lemma roundToDouble_not_NaN (z : Z) : roundToDouble z <> NaN.
Proof.
  unfold roundToDouble.
  destruct (Z.abs z <? 2 ^ 53)%Z; [discriminate|].
  cbv zeta.
  match goal with
  | |- (if ?c then _ else _) <> _ => destruct c; discriminate
  end.
Qed.

Lemma times1000_NaN (a : Number) : times1000 a = NaN <-> a = NaN.
Proof.
  destruct a as [|z|negative]; cbn; split; intros E;
    try reflexivity; try discriminate E.
  exfalso. exact (roundToDouble_not_NaN _ E).
Qed.

Lemma mathMax_NaN (a b : Number) : b <> NaN -> mathMax a b = NaN <-> a = NaN.
Proof.
  intros Hb.
  destruct a as [|x|[|]], b as [|y|[|]]; cbn; split; intros E;
    try reflexivity; try discriminate E; try contradiction.
Qed.

Lemma mathMax_lower (a : Number) (y d : Z) :
  mathMax a (Num y) = Num d -> (y <= d)%Z.
Proof.
  destruct a as [|x|[|]]; cbn; intros E; try discriminate E;
    injection E as <-; lia.
Qed.

(** X5: a delay that is a finite number is never shorter than the
    exponential backoff of its attempt, so never shorter than one second: a
    Retry-After header can only lengthen it. *)
Theorem backoffDelay_lower_bound (attempt : nat) (e : Err) (d : Z) :
  attempt < MAX_RETRIES ->
  backoffDelay attempt e = Num d ->
  (BACKOFF_BASE * 2 ^ Z.of_nat attempt <= d)%Z /\ (1000 <= d)%Z.
Proof.
  unfold MAX_RETRIES. intros Hlt E.
  assert (Hbase : (1000 <= BACKOFF_BASE * 2 ^ Z.of_nat attempt)%Z).
  { unfold BACKOFF_BASE.
    assert (0 < 2 ^ Z.of_nat attempt)%Z by (apply Z.pow_pos_nonneg; lia).
    lia. }
  assert (Hround :
    roundToDouble (BACKOFF_BASE * 2 ^ Z.of_nat attempt)
    = Num (BACKOFF_BASE * 2 ^ Z.of_nat attempt)%Z).
  { destruct attempt as [|[|[|attempt]]]; try reflexivity. lia. }
  unfold backoffDelay in E. cbv zeta in E. rewrite Hround in E.
  remember (BACKOFF_BASE * 2 ^ Z.of_nat attempt)%Z as backoff.
  clear Heqbackoff Hround.
  destruct (is429 (status_of e)).
  - destruct (truthy (retryAfter_of e)).
    + apply mathMax_lower in E. lia.
    + injection E as <-. lia.
  - injection E as <-. lia.
Qed.

(** X19: the delay is NaN, so that the timer fires at once, exactly for a
    failure with status 429 that carries a Retry-After header in which
    [parseInt] finds no number; in every other case the executor hands the
    timer a number. *)
Theorem backoffDelay_not_a_number (attempt : nat) (e : Err) :
  backoffDelay attempt e = NaN
  <-> is429 (status_of e) = true
      /\ truthy (retryAfter_of e) = true
      /\ parseInt10 (toStr (retryAfter_of e)) = NaN.
Proof.
  unfold backoffDelay. cbv zeta.
  destruct (is429 (status_of e)).
  - destruct (truthy (retryAfter_of e)).
    + rewrite (mathMax_NaN _ (@roundToDouble_not_NaN _)), times1000_NaN.
      split; [auto|]. intros (_ & _ & E). exact E.
    + split; [intros E; exfalso; exact (roundToDouble_not_NaN _ E)|].
      intros (_ & E & _). discriminate E.
  - split; [intros E; exfalso; exact (roundToDouble_not_NaN _ E)|].
    intros (E & _). discriminate E.
Qed.

End ExecutorMore.

Lemma requestWithRetry_never_undefined_witness :
  fst (requestWithRetry notesRequest (ret (str "new"))
         (simMachine (simWorld [pageResponse []] []) None))
  <> Ret None.
Proof.
  intros E.
  apply (@requestWithRetry_never_undefined Sim simHost notesRequest
           (ret (str "new"))
           (simMachine (simWorld [pageResponse []] []) None)
           (snd (requestWithRetry notesRequest (ret (str "new"))
                   (simMachine (simWorld [pageResponse []] []) None)))
           None);
    [|reflexivity].
  discriminate E.
Defined.

Lemma requestWithRetry_client_error_witness :
  fst (requestWithRetry notesRequest (ret (str "new"))
         (simMachine (simWorld [inr (httpFailure 404)] []) None))
  = Throw (httpFailure 404).
Proof.
  rewrite (@requestWithRetry_client_error Sim simHost notesRequest
             (ret (str "new"))
             (simMachine (simWorld [inr (httpFailure 404)] []) None)
             (httpFailure 404) (simWorld [] []) eq_refl eq_refl eq_refl).
  reflexivity.
Defined.

Lemma requestWithRetry_unauthorized_witness :
  let run :=
    requestWithRetry notesRequest (ret (str "new"))
      (simMachine
         (simWorld [inr (httpFailure 401); inr (httpFailure 403)] []) None) in
  match fst run with
  | Throw e' => isAuthFatal e' = true
  | _ => True
  end.
Proof.
  pose proof
    (@requestWithRetry_unauthorized Sim simHost notesRequest
       (ret (str "new"))
       (simMachine
          (simWorld [inr (httpFailure 401); inr (httpFailure 403)] []) None)
       _ (httpFailure 401) (simWorld [inr (httpFailure 403)] []) _
       eq_refl eq_refl eq_refl) as Hrun.
  exact Hrun.
Defined.

Lemma requestWithRetry_recovers_witness :
  fst (requestWithRetry notesRequest (ret (str "new"))
         (simMachine
            (simWorld [inr (httpFailure 503); pageResponse []] []) None))
  = Ret (Some {| json_c :=
                   Val {| c_list := Val []; c_has_content := Undefined;
                          c_content := Undefined; c_success := Undefined;
                          c_token := Undefined |} |}).
Proof.
  rewrite (@requestWithRetry_recovers Sim simHost notesRequest
             (ret (str "new"))
             (simMachine
                (simWorld [inr (httpFailure 503); pageResponse []] []) None)
             (httpFailure 503) _
             (simWorld [pageResponse []] [])
             (sim_wait (Num 1000%Z) (simWorld [] []))
             eq_refl eq_refl eq_refl).
  reflexivity.
Defined.

Lemma backoffDelay_lower_bound_witness :
  (BACKOFF_BASE * 2 ^ Z.of_nat 1 <= 5000)%Z /\ (1000 <= 5000)%Z.
Proof.
  refine (@backoffDelay_lower_bound 1 (tooManyRequests "5") 5000 _ eq_refl).
  unfold MAX_RETRIES. lia.
Defined.

(** A Retry-After header that holds a date. *)
Lemma backoffDelay_not_a_number_witness :
  backoffDelay 0 (tooManyRequests RETRY_AFTER_DATE) = NaN.
Proof.
  apply (proj2 (backoffDelay_not_a_number 0 (tooManyRequests RETRY_AFTER_DATE))).
  repeat split.
Defined.

(* ------------------------------------------------------------------ *)
(** ** Headers *)

Lemma getHeader_setHeader (k k' : string) (v : jsstring)
    (hs : list (string * jsstring)) :
  getHeader k (setHeader k' v hs)
  = if String.eqb k k' then Some v else getHeader k hs.
Proof.
  unfold getHeader.
  induction hs as [|[a b] r IH]; cbn [setHeader find fst snd].
  - destruct (String.eqb k k'); reflexivity.
  - destruct (String.eqb_spec k' a) as [->|Hne]; cbn [find fst snd].
    + destruct (String.eqb k a); reflexivity.
    + destruct (String.eqb_spec k a) as [->|Hka].
      * destruct (String.eqb_spec a k') as [->|_]; [contradiction|].
        reflexivity.
      * exact IH.
Qed.

(** X6: the request rebuilt after a refresh differs from the original in its
    Authorization header only: same url, method and body, every other header
    as before, and the new bearer credential; in particular a request built
    with [apiHeaders] keeps its API-version header. *)
Theorem withAuthorization_changes_credential_only (params : RequestUrlParam)
    (newJwt : jsstring) (k : string) (jwt0 sinceId : jsstring) :
  url (withAuthorization params newJwt) = url params
  /\ method (withAuthorization params newJwt) = method params
  /\ body (withAuthorization params newJwt) = body params
  /\ getHeader k (headers (withAuthorization params newJwt))
     = (if String.eqb k "Authorization" then Some (bearer newJwt)
        else getHeader k (headers params))
  /\ headers (withAuthorization (notesParams jwt0 sinceId) newJwt)
     = apiHeaders newJwt
  /\ getHeader "X-OAuth-Version" (apiHeaders newJwt) = Some (str "1").
Proof.
  repeat split. cbn [withAuthorization headers].
  apply getHeader_setHeader.
Qed.

(* ------------------------------------------------------------------ *)
(** ** The fetchers *)

Section FetcherMore.

Context {World : Type} `{Host World}.

(** X7: the page sequence ends without any request or delay when
    cancellation is signalled before the first page, and after any page of
    fewer than [PAGE_SIZE] notes. *)
Theorem fetchNotes_ends (jwt0 : jsstring) (cb : M World jsstring)
    (m : Machine World) :
  (host_aborted (world m) = true ->
   fetchNotes jwt0 cb GenStart m = (Ret None, m))
  /\ (forall page,
        List.length page < PAGE_SIZE ->
        fetchNotes jwt0 cb (GenYielded page) m = (Ret None, m)).
Proof.
  split.
  - intros Ea. unfold fetchNotes, fetchPage, bind, signalAborted, readWorld.
    rewrite Ea. reflexivity.
  - intros page Hlen. unfold fetchNotes.
    apply Nat.ltb_lt in Hlen. rewrite Hlen. reflexivity.
Qed.


(** X9: the detail fetcher returns either null or a non-empty string, never
    an empty string or [undefined]. *)
Theorem fetchLinkDetail_null_or_content (jwt0 noteId : jsstring)
    (cb : M World jsstring) (m m' : Machine World) (v : Field jsstring) :
  fetchLinkDetail jwt0 noteId cb m = (Ret v, m') ->
  v = Null \/ truthy v = true.
Proof.
  unfold fetchLinkDetail, tryCatch, bind.
  destruct (requestWithRetry _ cb m) as [[[resp|]|e|] m1].
  - cbn. destruct (json_c resp) as [| |c].
    + intros E. injection E as <- _. auto.
    + intros E. injection E as <- _. auto.
    + destruct (truthyBool (c_has_content c)); cbn [andb].
      * destruct (truthy (c_content c)) eqn:Et; intros E;
          injection E as <- _; auto.
      * intros E. injection E as <- _. auto.
  - cbn. intros E. injection E as <- _. auto.
  - destruct (isAuthFatal e); intros E; [discriminate E|].
    injection E as <- _. auto.
  - intros E. discriminate E.
Qed.

(** X10: a credential exchange is one POST to the refresh endpoint that
    carries the refresh token, whatever its outcome; it changes neither the
    settings nor the credential variable, and it returns a credential only
    from a response that reports success and holds a token. *)
Theorem refreshJwt_one_request (token : jsstring) (m m' : Machine World)
    (r : Result jsstring) :
  refreshJwt token m = (r, m') ->
  trace m' = trace m ++ [EvRequest (refreshParams token)]
  /\ settings m' = settings m
  /\ jwt m' = jwt m
  /\ match r with
     | Ret j =>
         exists resp c t,
           host_requestUrl (refreshParams token) (world m)
           = (inl resp, world m')
           /\ json_c resp = Val c
           /\ truthyBool (c_success c) = true
           /\ c_token c = Val t
           /\ tk_token t = j
     | Throw _ => True
     | OutOfFuel => False
     end.
Proof.
  unfold refreshJwt, bind. fold (refreshParams token).
  rewrite requestUrl_run.
  destruct (host_requestUrl (refreshParams token) (world m))
    as [[resp|e] w] eqn:Eq.
  - destruct (json_c resp) as [| |c] eqn:Ec.
    + intros E. injection E as <- <-. cbn. auto.
    + intros E. injection E as <- <-. cbn. auto.
    + destruct (truthyBool (c_success c)) eqn:Es.
      * destruct (c_token c) as [| |t] eqn:Et;
          intros E; injection E as <- <-; cbn; auto.
        repeat split. exists resp, c, t. auto.
      * intros E. injection E as <- <-. cbn. auto.
  - intros E. injection E as <- <-. cbn. auto.
Qed.

End FetcherMore.

Lemma fetchNotes_ends_witness :
  fetchNotes (str "jwt") (ret (str "new")) GenStart
    (simMachine (simWorldAborted [pageResponse []]) None)
  = (Ret None, simMachine (simWorldAborted [pageResponse []]) None)
  /\ fetchNotes (str "jwt") (ret (str "new")) (GenYielded cursorPage)
       (simMachine (simWorld [pageResponse []] []) None)
     = (Ret None, simMachine (simWorld [pageResponse []] []) None).
Proof.
  split.
  - exact (proj1 (@fetchNotes_ends Sim simHost (str "jwt") (ret (str "new"))
                    (simMachine (simWorldAborted [pageResponse []]) None))
             eq_refl).
  - apply (proj2 (@fetchNotes_ends Sim simHost (str "jwt") (ret (str "new"))
                    (simMachine (simWorld [pageResponse []] []) None))).
    unfold PAGE_SIZE. cbn. lia.
Defined.


Lemma fetchLinkDetail_null_or_content_witness :
  Val (str "<p>text</p>") = Null \/ truthy (Val (str "<p>text</p>")) = true.
Proof.
  exact (@fetchLinkDetail_null_or_content Sim simHost (str "jwt") (str "n1")
           (ret (str "new"))
           (simMachine
              (simWorld [detailResponse (Val true) (Val (str "<p>text</p>"))]
                 []) None)
           _ _ eq_refl).
Defined.

Lemma refreshJwt_one_request_witness :
  let out :=
    refreshJwt (str "refresh-token")
      (simMachine (simWorld [tokenResponse (str "jwt")] []) None) in
  fst out = Ret (str "jwt")
  /\ trace (snd out) = [EvRequest (refreshParams (str "refresh-token"))].
Proof.
  split; [reflexivity|].
  exact (proj1 (@refreshJwt_one_request Sim simHost (str "refresh-token")
                  (simMachine (simWorld [tokenResponse (str "jwt")] []) None)
                  _ _ eq_refl)).
Defined.

(* ------------------------------------------------------------------ *)
(** ** The orchestrator, step by step *)

Section SyncMore.

Context {World : Type} `{Host World} `{Rendering}.

Lemma syncNote_throws_auth_fatal (folder : jsstring) (note : BijiNote)
    (m m' : Machine World) (e : Err) :
  syncNote folder note m = (Throw e, m') -> isAuthFatal e = true.
Proof.
  unfold syncNote, tryCatch.
  destruct (syncNoteBody folder note m) as [[v|e0|] m1].
  - discriminate.
  - destruct (isAuthFatal e0) eqn:Ef.
    + intros E. injection E as <- _. exact Ef.
    + discriminate.
  - discriminate.
Qed.

(** X11: the note loop isolates the failures of single notes: the only
    error that can leave it is an [AuthFatalError]. *)
Theorem noteLoop_throws_auth_fatal_only (folder : jsstring)
    (lastSync : option jsstring) (notes : list BijiNote) (ls : LoopState)
    (m m' : Machine World) (e : Err) :
  noteLoop folder lastSync notes ls m = (Throw e, m') ->
  isAuthFatal e = true.
Proof.
  revert ls m. induction notes as [|note rest IH]; intros ls m E.
  - discriminate E.
  - cbn [noteLoop] in E. unfold bind, signalAborted, readWorld in E.
    destruct (host_aborted (world m)); [discriminate E|].
    destruct (reachedCursor lastSync note); [discriminate E|].
    destruct (syncNote folder note m) as [[v|e0|] m1] eqn:En.
    + exact (IH _ _ E).
    + injection E as <- _. exact (syncNote_throws_auth_fatal _ _ _ En).
    + discriminate E.
Qed.

(** X12: a note whose candidate path holds a file that stores the note's own
    identifier is skipped before anything else happens: no detail request,
    no delay, no write. *)
Theorem syncNote_skips_synced_note (folder : jsstring) (note : BijiNote)
    (raw : RawNote) (m : Machine World) :
  bijiNoteToRawNote note = Some raw ->
  host_getAbstractFileByPath
    (normalizePath
       (notePath folder (resolveFilename (rn_title raw) (rn_id raw) Undefined)))
    (world m) = TFile ->
  host_biji_id
    (normalizePath
       (notePath folder (resolveFilename (rn_title raw) (rn_id raw) Undefined)))
    (world m) = id note ->
  syncNote folder note m = (Ret Skipped, m).
Proof.
  intros Eraw Efile Eid.
  unfold syncNote, syncNoteBody, tryCatch, bind, readWorld.
  rewrite Eraw. cbv zeta. rewrite Efile, Eid, strict_eq_refl. reflexivity.
Qed.

(** X13: a run without a refresh token does nothing but show the notice, and
    not even that when silent: no request, no folder, no write, and the
    settings are neither changed nor saved. *)
Theorem syncBiji_without_token (fuel : nat) (silent : bool)
    (m : Machine World) :
  refreshToken (settings m) = [] ->
  syncBiji fuel silent m
  = (Ret tt,
     if silent then m
     else advance m (world m)
            [EvNotice
               (NoticeTokenError "Please configure refresh token in settings")]).
Proof.
  intros Et. unfold syncBiji, bind, readSettings. rewrite Et.
  cbn [validateRefreshToken]. destruct silent; reflexivity.
Qed.

(** X14: when the first credential exchange fails, the run throws an
    [AuthFatalError] that wraps the failure and stops in the machine the
    exchange left: no folder is created, no page requested, nothing
    saved. *)
Theorem syncBiji_credential_failure (fuel : nat) (silent : bool)
    (m m1 : Machine World) (e : Err) :
  refreshToken (settings m) <> [] ->
  refreshJwt (refreshToken (settings m)) m = (Throw e, m1) ->
  syncBiji fuel silent m
  = (Throw (AuthFatalError "Failed to obtain JWT" (Some e)), m1).
Proof.
  intros Ht E. unfold syncBiji. unfold bind at 1, readSettings.
  destruct (refreshToken (settings m)) as [|c t] eqn:Et; [contradiction|].
  cbn [validateRefreshToken].
  unfold bind at 1, prepare, bind at 1, obtainJwt, tryCatch, bind at 1,
    readSettings.
  rewrite Et, E. reflexivity.
Qed.

(** X15: a first page of fewer than [PAGE_SIZE] notes is the only page: the
    page loop ends after it with two units of fuel, in the machine the notes
    left plus the progress notice, without another request. *)
Theorem pageLoop_single_short_page (fuel : nat) (silent : bool)
    (folder : jsstring) (lastSync : option jsstring) (jwt0 : jsstring)
    (notes : list BijiNote) (ls ls1 : LoopState) (m m1 m2 : Machine World) :
  fetchNotes jwt0 refreshJwtCallback GenStart m = (Ret (Some notes), m1) ->
  List.length notes < PAGE_SIZE ->
  host_aborted (world m1) = false ->
  noteLoop folder lastSync notes ls m1 = (Ret ls1, m2) ->
  pageLoop (S (S fuel)) silent folder lastSync jwt0 GenStart ls m
  = (Ret (clear_isFirstPage ls1),
     if shouldStop ls1 || host_aborted (world m2) then m2
     else snd (notice silent (NoticeProgress (syncCount ls1)) m2)).
Proof.
  intros Ef Hlen Ea En.
  cbn [pageLoop]. unfold bind at 1. rewrite Ef.
  unfold bind at 1, signalAborted at 1, readWorld. rewrite Ea.
  unfold bind at 1. rewrite En.
  unfold bind at 1, signalAborted at 1, readWorld.
  change (shouldStop (clear_isFirstPage ls1)) with (shouldStop ls1).
  destruct (shouldStop ls1 || host_aborted (world m2)); [reflexivity|].
  unfold bind at 1.
  change (syncCount (clear_isFirstPage ls1)) with (syncCount ls1).
  destruct (notice silent (NoticeProgress (syncCount ls1)) m2)
    as [[[]|e|] m3] eqn:Enot.
  - unfold bind at 1. unfold fetchNotes at 1.
    apply Nat.ltb_lt in Hlen. rewrite Hlen. reflexivity.
  - unfold notice in Enot. destruct silent; discriminate Enot.
  - unfold notice in Enot. destruct silent; discriminate Enot.
Qed.

End SyncMore.

(* ------------------------------------------------------------------ *)
(** ** What a run adds to the trace *)

Create HintDb emits.

Section EmitsFacts.

Context {World : Type} `{Host World} `{Rendering}.

Local Abbreviation emitsOnly := (@emitsOnly World _) (only parsing).

Variable P : Event -> Prop.

Lemma emits_same (m : Machine World) :
  exists evs, trace m = trace m ++ evs /\ Forall P evs.
Proof. exists []. rewrite app_nil_r. auto. Qed.

Lemma emits_ret {A} (a : A) : emitsOnly P (ret a).
Proof. intros m r m' E. injection E as <- <-. exact (emits_same m). Qed.

Lemma emits_throw {A} (e : Err) : emitsOnly P (@throw World A e).
Proof. intros m r m' E. injection E as <- <-. exact (emits_same m). Qed.

Lemma emits_outOfFuel {A} : emitsOnly P (@outOfFuel World A).
Proof. intros m r m' E. injection E as <- <-. exact (emits_same m). Qed.

Lemma emits_then (m m1 m2 : Machine World) :
  (exists evs, trace m1 = trace m ++ evs /\ Forall P evs) ->
  (exists evs, trace m2 = trace m1 ++ evs /\ Forall P evs) ->
  exists evs, trace m2 = trace m ++ evs /\ Forall P evs.
Proof.
  intros (evs1 & T1 & F1) (evs2 & T2 & F2).
  exists (evs1 ++ evs2). rewrite T2, T1, app_assoc.
  split; [reflexivity|]. apply Forall_app. auto.
Qed.

Lemma emits_bind {A B} (c : M World A) (k : A -> M World B) :
  emitsOnly P c -> (forall a, emitsOnly P (k a)) -> emitsOnly P (bind c k).
Proof.
  intros Hc Hk m r m' E. unfold bind in E.
  destruct (c m) as [[a|e|] m1] eqn:Ec.
  - eapply emits_then; [exact (Hc _ _ _ Ec)|exact (Hk a _ _ _ E)].
  - injection E as <- <-. exact (Hc _ _ _ Ec).
  - injection E as <- <-. exact (Hc _ _ _ Ec).
Qed.

Lemma emits_tryCatch {A} (c : M World A) (h : Err -> M World A) :
  emitsOnly P c -> (forall e, emitsOnly P (h e)) ->
  emitsOnly P (tryCatch c h).
Proof.
  intros Hc Hh m r m' E. unfold tryCatch in E.
  destruct (c m) as [[a|e|] m1] eqn:Ec.
  - injection E as <- <-. exact (Hc _ _ _ Ec).
  - eapply emits_then; [exact (Hc _ _ _ Ec)|exact (Hh e _ _ _ E)].
  - injection E as <- <-. exact (Hc _ _ _ Ec).
Qed.

Lemma emits_emit (ev : Event) : P ev -> emitsOnly P (emit ev).
Proof.
  intros Hev m r m' E. injection E as <- <-. cbn. exists [ev]. auto.
Qed.

Lemma emits_liftOutcome {A} (f : World -> (A + Err) * World) :
  emitsOnly P (liftOutcome f).
Proof.
  intros m r m' E. unfold liftOutcome in E.
  destruct (f (world m)) as [[a|e] w]; injection E as <- <-;
    exact (emits_same m).
Qed.

Lemma emits_liftEffect (f : World -> option Err * World) :
  emitsOnly P (liftEffect f).
Proof.
  intros m r m' E. unfold liftEffect in E.
  destruct (f (world m)) as [[e|] w]; injection E as <- <-;
    exact (emits_same m).
Qed.

Lemma emits_readWorld {A} (f : World -> A) : emitsOnly P (readWorld f).
Proof. intros m r m' E. injection E as <- <-. exact (emits_same m). Qed.

Lemma emits_readSettings : emitsOnly P readSettings.
Proof. intros m r m' E. injection E as <- <-. exact (emits_same m). Qed.

Lemma emits_writeSettings (f : BijiSyncSettings -> BijiSyncSettings) :
  emitsOnly P (writeSettings f).
Proof. intros m r m' E. injection E as <- <-. exact (emits_same m). Qed.

Lemma emits_readJwt : emitsOnly P readJwt.
Proof. intros m r m' E. injection E as <- <-. exact (emits_same m). Qed.

Lemma emits_writeJwt (j : jsstring) : emitsOnly P (writeJwt j).
Proof. intros m r m' E. injection E as <- <-. exact (emits_same m). Qed.

#[local] Hint Resolve emits_ret emits_throw emits_outOfFuel emits_liftOutcome
  emits_liftEffect emits_readWorld emits_readSettings emits_writeSettings
  emits_readJwt emits_writeJwt : emits.

(** One step of a proof about the events of a computation. *)
Ltac emits_step :=
  first
    [ solve [auto with emits nocore]
    | apply emits_emit; solve [auto]
    | apply emits_bind; [|intro]
    | apply emits_tryCatch; [|intro]
    | match goal with
      | |- emitsOnly _ (match ?x with _ => _ end) => destruct x
      | |- emitsOnly _ (let _ := _ in _) => cbv zeta
      end ].

Ltac emits_auto := repeat emits_step.

(** The events of the network side. *)
Hypothesis P_request : forall params, P (EvRequest params).
Hypothesis P_refresh : P EvRefresh.
Hypothesis P_delay : forall ms, P (EvDelay ms).

Lemma emits_sleep (d : Number) : emitsOnly P (sleep d).
Proof.
  intros m r m' E. rewrite sleep_run in E. injection E as <- <-. cbn.
  exists [EvDelay d]. auto.
Qed.

Lemma emits_requestUrl (params : RequestUrlParam) :
  emitsOnly P (requestUrl params).
Proof. unfold requestUrl. emits_auto. Qed.

Lemma emits_signalAborted : emitsOnly P signalAborted.
Proof. unfold signalAborted. emits_auto. Qed.

#[local] Hint Resolve emits_sleep emits_requestUrl emits_signalAborted : emits.

Lemma emits_retryLoop (cb : M World jsstring) (params : RequestUrlParam) :
  emitsOnly P cb ->
  forall n attempt, emitsOnly P (retryLoop n attempt params cb).
Proof.
  intros Hcb. induction n as [|n IH]; intros attempt; cbn [retryLoop].
  - emits_auto.
  - pose proof (IH (S attempt)). emits_auto.
Qed.

Lemma emits_requestWithRetry (cb : M World jsstring)
    (params : RequestUrlParam) :
  emitsOnly P cb -> emitsOnly P (requestWithRetry params cb).
Proof. intros Hcb. apply emits_retryLoop, Hcb. Qed.

Lemma emits_responseC (r : option Response) : emitsOnly P (responseC r).
Proof. unfold responseC. emits_auto. Qed.

#[local] Hint Resolve emits_requestWithRetry emits_responseC : emits.

Lemma emits_refreshJwt (token : jsstring) : emitsOnly P (refreshJwt token).
Proof. unfold refreshJwt. emits_auto. Qed.

#[local] Hint Resolve emits_refreshJwt : emits.

Lemma emits_refreshJwtCallback : emitsOnly P refreshJwtCallback.
Proof. unfold refreshJwtCallback. emits_auto. Qed.

#[local] Hint Resolve emits_refreshJwtCallback : emits.

Lemma emits_fetchNotes (jwt0 : jsstring) (g : GenState) :
  emitsOnly P (fetchNotes jwt0 refreshJwtCallback g).
Proof. unfold fetchNotes, fetchPage. emits_auto. Qed.

Lemma emits_fetchLinkDetail (jwt0 noteId : jsstring) :
  emitsOnly P (fetchLinkDetail jwt0 noteId refreshJwtCallback).
Proof. unfold fetchLinkDetail. emits_auto. Qed.

#[local] Hint Resolve emits_fetchNotes emits_fetchLinkDetail : emits.

Lemma emits_attachLinkContent (note : BijiNote) (raw : RawNote) :
  emitsOnly P (attachLinkContent note raw).
Proof. unfold attachLinkContent. emits_auto. Qed.

#[local] Hint Resolve emits_attachLinkContent : emits.

(** The events of the vault and of the plugin data. *)
Hypothesis P_createFolder : forall path, P (EvCreateFolder path).
Hypothesis P_create : forall path markdown, P (EvCreate path markdown).
Hypothesis P_save : forall s, P (EvSave s).

Lemma emits_syncNote (folder : jsstring) (note : BijiNote) :
  emitsOnly P (syncNote folder note).
Proof.
  unfold syncNote, syncNoteBody, finalNameOf, create. emits_auto.
Qed.

#[local] Hint Resolve emits_syncNote : emits.

Lemma emits_noteLoop (folder : jsstring) (lastSync : option jsstring)
    (notes : list BijiNote) :
  forall ls, emitsOnly P (noteLoop folder lastSync notes ls).
Proof.
  induction notes as [|note rest IH]; intros ls; cbn [noteLoop]; emits_auto.
Qed.

#[local] Hint Resolve emits_noteLoop : emits.

Lemma emits_silent_notice (n : NoticeMsg) : emitsOnly P (notice true n).
Proof. unfold notice. cbn [negb]. emits_auto. Qed.

#[local] Hint Resolve emits_silent_notice : emits.

Lemma emits_silent_pageLoop (folder : jsstring) (lastSync : option jsstring)
    (jwt0 : jsstring) (fuel : nat) :
  forall g ls, emitsOnly P (pageLoop fuel true folder lastSync jwt0 g ls).
Proof.
  induction fuel as [|fuel IH]; intros g ls; cbn [pageLoop]; emits_auto.
Qed.

Lemma emits_prepare (folder : jsstring) : emitsOnly P (prepare folder).
Proof.
  unfold prepare, obtainJwt, ensureFolder, createFolder. emits_auto.
Qed.

Lemma emits_silent_finalize (ls : LoopState) :
  emitsOnly P (finalize true ls).
Proof. unfold finalize, saveSettings. emits_auto. Qed.

#[local] Hint Resolve emits_silent_pageLoop emits_prepare
  emits_silent_finalize : emits.

Lemma emits_silent_syncBiji (fuel : nat) : emitsOnly P (syncBiji fuel true).
Proof. unfold syncBiji. emits_auto. Qed.

End EmitsFacts.

Section SilentRun.

Context {World : Type} `{Host World} `{Rendering}.

(** X16: a silent run shows no notice, however it ends: returning, throwing
    or running out of fuel, everything it adds to the trace is a request, a
    refresh, a delay, a vault operation or a save. *)
Theorem syncBiji_silent_shows_nothing (fuel : nat) (m m' : Machine World)
    (r : Result unit) :
  syncBiji fuel true m = (r, m') ->
  exists evs, trace m' = trace m ++ evs /\ Forall notNotice evs.
Proof.
  apply (emits_silent_syncBiji notNotice); intros; exact I.
Qed.

End SilentRun.

Lemma syncBiji_silent_shows_nothing_witness :
  exists evs,
    trace (snd (syncBiji 3 true
                  (simMachine
                     (simWorld
                        [tokenResponse (str "jwt"); pageResponse cursorPage]
                        []) None)))
    = [] ++ evs
    /\ Forall notNotice evs.
Proof.
  exact (@syncBiji_silent_shows_nothing Sim simHost simRendering 3
           (simMachine
              (simWorld [tokenResponse (str "jwt"); pageResponse cursorPage]
                 []) None)
           _ _ (surjective_pairing _)).
Defined.

(* ------------------------------------------------------------------ *)
(** ** Counters and file creations *)

Lemma creations_app (a b : list Event) :
  creations (a ++ b) = creations a + creations b.
Proof.
  unfold creations. rewrite createdPaths_app. apply length_app.
Qed.

Lemma creations_notCreate (evs : list Event) :
  Forall notCreate evs -> creations evs = 0.
Proof.
  induction 1 as [|ev evs Hev _ IH]; [reflexivity|].
  change (ev :: evs) with ([ev] ++ evs). rewrite creations_app, IH.
  destruct ev; try reflexivity. contradiction.
Qed.

Section Accounting.

Context {World : Type} `{Host World} `{Rendering}.

(** What the body of the [try] statement adds to the trace. *)
Lemma syncNoteBody_creations (folder : jsstring) (note : BijiNote)
    (m mb : Machine World) (r : Result Verdict) :
  syncNoteBody folder note m = (r, mb) ->
  exists evs,
    trace mb = trace m ++ evs
    /\ match r with
       | Ret Synced => creations evs = 1
       | Ret _ => creations evs = 0
       | Throw _ => creations evs <= 1
       | OutOfFuel => True
       end.
Proof.
  unfold syncNoteBody. intros E.
  destruct (bijiNoteToRawNote note) as [raw|].
  2:{ injection E as <- <-. exists []. rewrite app_nil_r. auto. }
  cbv zeta in E. unfold bind at 1, readWorld at 1 in E.
  unfold bind at 1 in E.
  match type of E with
  | context [match ?c m with _ => _ end] =>
      assert (Hpure : exists b, c m = (Ret b, m))
  end.
  { destruct (host_getAbstractFileByPath _ (world m));
      unfold bind, readWorld, ret; eauto. }
  destruct Hpure as [already Hpure]. rewrite Hpure in E.
  destruct already.
  { injection E as <- <-. exists []. rewrite app_nil_r. auto. }
  unfold bind at 1 in E.
  destruct (attachLinkContent note raw m) as [[raw'|e|] m1] eqn:Ea.
  - destruct (emits_attachLinkContent notCreate
                (fun _ => I) I (fun _ => I) note raw m Ea)
      as (evs1 & T1 & F1).
    unfold bind at 1 in E.
    match type of E with
    | context [match ?c m1 with _ => _ end] =>
        assert (Hname : exists name, c m1 = (Ret name, m1))
    end.
    { unfold finalNameOf.
      destruct (host_getAbstractFileByPath _ (world m));
        unfold bind, readWorld, ret; eauto. }
    destruct Hname as [name Hname]. rewrite Hname in E.
    cbv zeta in E. unfold bind at 1, create, bind at 1, emit, liftEffect in E.
    cbn [world trace settings jwt] in E.
    match type of E with
    | context [host_create ?p ?md ?w] =>
        destruct (host_create p md w) as [[e|] w'];
          injection E as <- <-; cbn [trace with_world];
          exists (evs1 ++ [EvCreate p md]);
          rewrite T1, <- app_assoc, creations_app,
            (creations_notCreate F1);
          (split; [reflexivity|]); cbn; auto
    end.
  - destruct (emits_attachLinkContent notCreate
                (fun _ => I) I (fun _ => I) note raw m Ea)
      as (evs1 & T1 & F1).
    injection E as <- <-. exists evs1.
    rewrite (creations_notCreate F1). auto.
  - destruct (emits_attachLinkContent notCreate
                (fun _ => I) I (fun _ => I) note raw m Ea)
      as (evs1 & T1 & F1).
    injection E as <- <-. exists evs1. auto.
Qed.

Lemma syncNote_creations (folder : jsstring) (note : BijiNote)
    (m m' : Machine World) (v : Verdict) :
  syncNote folder note m = (Ret v, m') ->
  exists evs,
    trace m' = trace m ++ evs
    /\ match v with
       | Synced => creations evs = 1
       | Skipped => creations evs = 0
       | Errored => creations evs <= 1
       end.
Proof.
  unfold syncNote, tryCatch. intros E.
  destruct (syncNoteBody folder note m) as [[v0|e0|] mb] eqn:Eb.
  - injection E as <- <-.
    destruct (syncNoteBody_creations _ _ _ Eb) as (evs & T & C).
    exists evs. split; [exact T|]. destruct v0; lia.
  - destruct (isAuthFatal e0); [discriminate E|].
    injection E as <- <-.
    destruct (syncNoteBody_creations _ _ _ Eb) as (evs & T & C).
    exists evs. auto.
  - discriminate E.
Qed.

Lemma counts_capture (note : BijiNote) (ls : LoopState) :
  syncCount (capture note ls) = syncCount ls
  /\ skipCount (capture note ls) = skipCount ls
  /\ errorCount (capture note ls) = errorCount ls.
Proof.
  unfold capture. destruct (newestNoteId ls); [auto|].
  destruct (isFirstPage ls && truthy (id note)); auto.
Qed.

(** X17: over a page, the three counters only grow, by at most one note each
    time and by no more than the page holds; the files the loop tried to
    create are at least the notes it counted as synced and at most those
    plus the ones it counted as errors. *)
Theorem noteLoop_accounting (folder : jsstring) (lastSync : option jsstring)
    (notes : list BijiNote) (ls ls' : LoopState) (m m' : Machine World) :
  noteLoop folder lastSync notes ls m = (Ret ls', m') ->
  exists evs,
    trace m' = trace m ++ evs
    /\ syncCount ls <= syncCount ls'
    /\ skipCount ls <= skipCount ls'
    /\ errorCount ls <= errorCount ls'
    /\ syncCount ls' - syncCount ls <= creations evs
    /\ creations evs
       <= (syncCount ls' - syncCount ls) + (errorCount ls' - errorCount ls)
    /\ (syncCount ls' - syncCount ls) + (skipCount ls' - skipCount ls)
       + (errorCount ls' - errorCount ls) <= List.length notes.
Proof.
  revert ls m. induction notes as [|note rest IH]; intros ls m E.
  - injection E as <- <-. exists []. rewrite app_nil_r.
    split; [reflexivity|]. cbn. lia.
  - cbn [noteLoop] in E. unfold bind, signalAborted, readWorld in E.
    destruct (host_aborted (world m)).
    { injection E as <- <-. exists []. rewrite app_nil_r.
      split; [reflexivity|]. cbn. lia. }
    destruct (counts_capture note ls) as (C1 & C2 & C3).
    destruct (reachedCursor lastSync note).
    { injection E as <- <-. exists []. rewrite app_nil_r.
      split; [reflexivity|].
      cbn [set_shouldStop syncCount skipCount errorCount creations
           createdPaths flat_map List.length].
      rewrite C1, C2, C3. lia. }
    destruct (syncNote folder note m) as [[v|e|] m1] eqn:En;
      try discriminate E.
    destruct (syncNote_creations _ _ _ En) as (evs1 & T1 & V1).
    destruct (IH _ _ E) as (evs2 & T2 & I1 & I2 & I3 & I4 & I5 & I6).
    exists (evs1 ++ evs2). rewrite T2, T1, app_assoc, creations_app.
    split; [reflexivity|].
    cbn [List.length].
    destruct v; cbn [count syncCount skipCount errorCount] in *; lia.
Qed.

End Accounting.

(** A link note whose detail request is rejected and whose credential
    cannot be refreshed. *)
Lemma noteLoop_throws_auth_fatal_only_witness :
  let run :=
    noteLoop (str "Notes") None [linkNote] initialLoopState
      (simMachine
         (simWorld [inr (httpFailure 401); inr (httpFailure 500)] []) None) in
  fst run
  = Throw (AuthFatalError "JWT refresh failed" (Some (httpFailure 500)))
  /\ isAuthFatal
       (AuthFatalError "JWT refresh failed" (Some (httpFailure 500))) = true.
Proof.
  assert (Hrun :
    noteLoop (str "Notes") None [linkNote] initialLoopState
      (simMachine
         (simWorld [inr (httpFailure 401); inr (httpFailure 500)] []) None)
    = (Throw (AuthFatalError "JWT refresh failed" (Some (httpFailure 500))),
       snd (noteLoop (str "Notes") None [linkNote] initialLoopState
              (simMachine
                 (simWorld [inr (httpFailure 401); inr (httpFailure 500)] [])
                 None))))
    by (vm_compute; reflexivity).
  split.
  - cbv zeta. rewrite Hrun. reflexivity.
  - exact (@noteLoop_throws_auth_fatal_only Sim simHost simRendering
             (str "Notes") None [linkNote] initialLoopState _ _ _ Hrun).
Defined.

Lemma syncNote_skips_synced_note_witness :
  let m :=
    simMachine
      (simWorld [] [(str "Notes/Test Note.md", Val (str "note-001"))]) None in
  syncNote (str "Notes") (mkNote (Val (str "note-001")) (str "Test Note")) m
  = (Ret Skipped, m).
Proof.
  pose (raw :=
    {| rn_id := str "note-001"; rn_title := str "Test Note";
       rn_content := str "Hello world"; rn_tags := [];
       rn_createdAt := Val (str "2024-01-01T00:00:00Z");
       rn_updatedAt := Val (str "2024-01-01T00:00:00Z");
       rn_sourceUrl := Undefined; rn_noteType := Val (str "plain_text");
       rn_entryType := Val (str "manual"); rn_origin := Val (str "app");
       rn_originalContent := Undefined |}).
  assert (Hraw :
    bijiNoteToRawNote (mkNote (Val (str "note-001")) (str "Test Note"))
    = Some raw) by (vm_compute; reflexivity).
  refine (@syncNote_skips_synced_note Sim simHost simRendering (str "Notes")
            (mkNote (Val (str "note-001")) (str "Test Note")) raw
            (simMachine
               (simWorld [] [(str "Notes/Test Note.md", Val (str "note-001"))])
               None)
            Hraw _ _);
    vm_compute; reflexivity.
Defined.

Lemma syncBiji_without_token_witness :
  let m :=
    {| world := simWorld [] []; settings := blankSettings; jwt := [];
       trace := [] |} in
  syncBiji 3 true m = (Ret tt, m).
Proof.
  exact (@syncBiji_without_token Sim simHost simRendering 3 true
           {| world := simWorld [] []; settings := blankSettings; jwt := [];
              trace := [] |} eq_refl).
Defined.

Lemma syncBiji_credential_failure_witness :
  fst (syncBiji 3 false
         (simMachine (simWorld [inr (httpFailure 500)] []) None))
  = Throw (AuthFatalError "Failed to obtain JWT" (Some (httpFailure 500))).
Proof.
  erewrite (@syncBiji_credential_failure Sim simHost simRendering 3 false
              (simMachine (simWorld [inr (httpFailure 500)] []) None)).
  - reflexivity.
  - discriminate.
  - vm_compute. reflexivity.
Defined.

Lemma pageLoop_single_short_page_witness :
  fst (pageLoop 2 true (str "Notes") None (str "jwt") GenStart
         initialLoopState
         (simMachine (simWorld [pageResponse cursorPage] []) None))
  = Ret {| syncCount := 3; skipCount := 0; errorCount := 0;
           newestNoteId := Some (str "note-003"); shouldStop := false;
           isFirstPage := false |}.
Proof.
  pose (m1 :=
    advance (simMachine (simWorld [] []) None) (simWorld [] [])
      [EvRequest (notesParams (str "jwt") [])]).
  assert (Hfetch :
    fetchNotes (str "jwt") refreshJwtCallback GenStart
      (simMachine (simWorld [pageResponse cursorPage] []) None)
    = (Ret (Some cursorPage), m1)) by (vm_compute; reflexivity).
  assert (Hnotes :
    noteLoop (str "Notes") None cursorPage initialLoopState m1
    = (Ret {| syncCount := 3; skipCount := 0; errorCount := 0;
              newestNoteId := Some (str "note-003"); shouldStop := false;
              isFirstPage := true |},
       snd (noteLoop (str "Notes") None cursorPage initialLoopState m1)))
    by (vm_compute; reflexivity).
  assert (Hlen : List.length cursorPage < PAGE_SIZE)
    by (unfold PAGE_SIZE; cbn; lia).
  rewrite (@pageLoop_single_short_page Sim simHost simRendering 0 true
             (str "Notes") None (str "jwt") cursorPage initialLoopState
             {| syncCount := 3; skipCount := 0; errorCount := 0;
                newestNoteId := Some (str "note-003"); shouldStop := false;
                isFirstPage := true |}
             (simMachine (simWorld [pageResponse cursorPage] []) None) m1
             (snd (noteLoop (str "Notes") None cursorPage initialLoopState m1))
             Hfetch Hlen eq_refl Hnotes).
  reflexivity.
Defined.

(** A page of three fresh notes on an empty vault: three files are created. *)
Lemma noteLoop_accounting_witness :
  let m := simMachine (simWorld [] []) None in
  exists evs,
    trace (snd (noteLoop (str "Notes") None cursorPage initialLoopState m))
    = trace m ++ evs
    /\ creations evs = 3.
Proof.
  cbv zeta.
  assert (Hrun :
    noteLoop (str "Notes") None cursorPage initialLoopState
      (simMachine (simWorld [] []) None)
    = (Ret {| syncCount := 3; skipCount := 0; errorCount := 0;
              newestNoteId := Some (str "note-003"); shouldStop := false;
              isFirstPage := true |},
       snd (noteLoop (str "Notes") None cursorPage initialLoopState
              (simMachine (simWorld [] []) None))))
    by (vm_compute; reflexivity).
  destruct (@noteLoop_accounting Sim simHost simRendering
              (str "Notes") None cursorPage initialLoopState _ _ _ Hrun)
    as (evs & T & _ & _ & _ & Lo & Hi & _).
  exists evs. split; [exact T|].
  unfold initialLoopState in Lo, Hi.
  cbn [syncCount skipCount errorCount] in Lo, Hi. lia.
Defined.

(* ------------------------------------------------------------------ *)
(** ** File names, further *)

Lemma Forall_dropWhile {A} (P : A -> Prop) (p : A -> bool) (l : list A) :
  Forall P l -> Forall P (dropWhile p l).
Proof.
  induction 1 as [|x l Hx Hl IH]; cbn; [constructor|].
  destruct (p x); [exact IH|constructor; assumption].
Qed.

Lemma Forall_firstn' {A} (P : A -> Prop) (n : nat) (l : list A) :
  Forall P l -> Forall P (firstn n l).
Proof.
  intros Hl. revert n.
  induction Hl as [|x l Hx Hl IH]; intros [|n]; cbn; constructor; auto.
Qed.

Lemma Forall_trim (P : char -> Prop) (s : jsstring) :
  Forall P s -> Forall P (trim s).
Proof.
  intros Hs. unfold trim.
  apply Forall_rev, Forall_dropWhile, Forall_rev, Forall_dropWhile, Hs.
Qed.

Lemma Forall_collapseWhitespace (P : char -> Prop) (s : jsstring) :
  P 32%N ->
  Forall (fun c => isWhiteSpace c = false -> P c) s ->
  forall inRun, Forall P (collapseWhitespace inRun s).
Proof.
  intros Hsp. induction 1 as [|c s Hc Hs IH]; intros inRun; cbn;
    [constructor|].
  destruct (isWhiteSpace c) eqn:Ews.
  - destruct inRun; [apply IH|constructor; [exact Hsp|apply IH]].
  - constructor; [exact (Hc eq_refl)|apply IH].
Qed.

Lemma dropWhile_head {A} (p : A -> bool) (l : list A) (x : A) (r : list A) :
  dropWhile p l = x :: r -> p x = false.
Proof.
  induction l as [|y l IH]; cbn; [discriminate|].
  destruct (p y) eqn:Ey; [exact IH|].
  intros E. injection E as <- <-. exact Ey.
Qed.

Lemma dropWhile_suffix {A} (p : A -> bool) (l : list A) :
  exists pre, l = pre ++ dropWhile p l.
Proof.
  induction l as [|y l [pre IH]]; cbn; [exists []; reflexivity|].
  destruct (p y).
  - exists (y :: pre). cbn. rewrite <- IH. reflexivity.
  - exists []. reflexivity.
Qed.

Lemma trim_head (s : jsstring) (c : char) (r : jsstring) :
  trim s = c :: r -> isWhiteSpace c = false.
Proof.
  unfold trim. intros E.
  destruct (dropWhile_suffix isWhiteSpace (rev (dropWhile isWhiteSpace s)))
    as [pre Hpre].
  apply (f_equal (@rev char)) in Hpre.
  rewrite rev_involutive, rev_app_distr, E in Hpre.
  cbn in Hpre. exact (dropWhile_head _ _ Hpre).
Qed.

(** X20: whatever the title, the file name is not empty, has at most 200 code
    units, holds none of the unsafe characters and no white space other than
    the plain space, and does not begin with white space. *)
Theorem sanitizeFilename_safe (name : jsstring) :
  sanitizeFilename name <> []
  /\ List.length (sanitizeFilename name) <= 200
  /\ Forall fileNameUnit (sanitizeFilename name)
  /\ (forall c r, sanitizeFilename name = c :: r -> isWhiteSpace c = false).
Proof.
  unfold sanitizeFilename. cbv zeta.
  set (cleaned :=
         trim
           (dropWhile (N.eqb 46)
              (collapseWhitespace false
                 (filter (fun c => negb (isUnsafeChar c)) name)))).
  assert (Hunits : Forall fileNameUnit cleaned).
  { apply Forall_trim, Forall_dropWhile, Forall_collapseWhitespace.
    - split; [reflexivity|auto].
    - apply Forall_forall. intros c Hc Hws.
      apply filter_In in Hc. destruct Hc as [_ Hc].
      split; [destruct (isUnsafeChar c); [discriminate Hc|reflexivity]|].
      intros Hws'. congruence. }
  assert (Hhead : forall c r, cleaned = c :: r -> isWhiteSpace c = false).
  { intros c r. apply trim_head. }
  pose proof (firstn_le_length 200 cleaned) as Hlen.
  destruct (firstn 200 cleaned) as [|c r] eqn:Efirst.
  - repeat split.
    + discriminate.
    + cbn. lia.
    + repeat constructor; intros Hws; discriminate Hws.
    + intros c r E. injection E as <- _. reflexivity.
  - repeat split.
    + discriminate.
    + exact Hlen.
    + rewrite <- Efirst. apply Forall_firstn', Hunits.
    + intros c' r' E. injection E as <- <-.
      destruct cleaned as [|c0 r0]; [discriminate Efirst|].
      cbn in Efirst. injection Efirst as <- _.
      exact (Hhead _ _ eq_refl).
Qed.

(* ------------------------------------------------------------------ *)
(** ** A file in the way *)


Section Conflict.

Context {World : Type} `{Host World} `{Rendering}.


End Conflict.


(* ------------------------------------------------------------------ *)
(** ** Escaping for the frontmatter *)

Lemma replaceEach_flat_map (p : char -> bool) (repl : jsstring)
    (f : char -> jsstring) (s : jsstring) :
  replaceEach p repl (flat_map f s)
  = flat_map (fun c => replaceEach p repl (f c)) s.
Proof.
  unfold replaceEach. induction s as [|c s IH]; cbn; [reflexivity|].
  rewrite flat_map_app, IH. reflexivity.
Qed.

Lemma replaceEach_one (p : char -> bool) (repl : jsstring) (c : char) :
  replaceEach p repl [c] = if p c then repl else [c].
Proof. unfold replaceEach. cbn. apply app_nil_r. Qed.

(** The seven replacements amount to one pass that rewrites each code unit
    on its own: what an earlier replacement has put in is never touched by a
    later one. *)
Lemma escapeYamlString_per_unit (value : jsstring) :
  escapeYamlString value = flat_map escapeUnit value.
Proof.
  unfold escapeYamlString. cbv zeta.
  change (replaceEach (fun c => (c =? 92)%N) [92; 92]%N value)
    with (flat_map (fun c => if (c =? 92)%N then [92; 92]%N else [c]) value).
  rewrite !replaceEach_flat_map.
  apply flat_map_ext. intros c.
  unfold escapeUnit, droppedByEscape.
  destruct (N.eqb_spec c 92) as [->|H92]; [reflexivity|].
  rewrite replaceEach_one. cbv beta.
  destruct (N.eqb_spec c 34) as [->|H34]; [reflexivity|].
  rewrite replaceEach_one. cbv beta.
  destruct (N.eqb_spec c 10) as [->|H10]; [reflexivity|].
  rewrite replaceEach_one. cbv beta.
  destruct (N.eqb_spec c 13) as [->|H13]; [reflexivity|].
  rewrite replaceEach_one. cbv beta.
  destruct (N.eqb_spec c 9) as [->|H9]; [reflexivity|].
  rewrite replaceEach_one. cbv beta.
  destruct (N.eqb_spec c 0) as [->|H0]; [reflexivity|].
  rewrite replaceEach_one. cbv beta. cbn [orb].
  destruct ((c =? 8232) || (c =? 8233))%N; reflexivity.
Qed.

Lemma escapeUnit_no_control (c : char) :
  Forall (fun u => rawControl u = false) (escapeUnit c).
Proof.
  unfold escapeUnit, droppedByEscape.
  destruct (N.eqb_spec c 92) as [->|H92]; [repeat constructor|].
  destruct (N.eqb_spec c 34) as [->|H34]; [repeat constructor|].
  destruct (N.eqb_spec c 10) as [->|H10]; [repeat constructor|].
  destruct (N.eqb_spec c 13) as [->|H13]; [repeat constructor|].
  destruct (N.eqb_spec c 9) as [->|H9]; [repeat constructor|].
  destruct (N.eqb_spec c 0) as [->|H0]; [constructor|].
  destruct (N.eqb_spec c 8232) as [->|H1]; [constructor|].
  destruct (N.eqb_spec c 8233) as [->|H2]; [constructor|].
  cbn [orb]. constructor; [|constructor].
  unfold rawControl, droppedByEscape.
  repeat match goal with
         | Hk : c <> ?k |- _ =>
             apply N.eqb_neq in Hk; rewrite Hk; clear Hk
         end.
  reflexivity.
Qed.

(** X22: an escaped value holds no line feed, carriage return, tab, NUL, line
    separator or paragraph separator as it is: between its quotes it stays
    on one line. *)
Theorem escapeYamlString_one_line (value : jsstring) :
  Forall (fun u => rawControl u = false) (escapeYamlString value).
Proof.
  rewrite escapeYamlString_per_unit.
  induction value as [|c s IH]; cbn; [constructor|].
  apply Forall_app. split; [apply escapeUnit_no_control|exact IH].
Qed.

Lemma escapeUnit_dropped (c : char) :
  droppedByEscape c = true -> escapeUnit c = [].
Proof.
  unfold escapeUnit, droppedByEscape.
  destruct (N.eqb_spec c 0) as [->|H0]; [reflexivity|].
  destruct (N.eqb_spec c 8232) as [->|H1]; [reflexivity|].
  destruct (N.eqb_spec c 8233) as [->|H2]; [reflexivity|].
  intros Hd. discriminate Hd.
Qed.

Lemma escape_withoutDropped (s : jsstring) :
  flat_map escapeUnit s = flat_map escapeUnit (withoutDropped s).
Proof.
  unfold withoutDropped. induction s as [|c s IH]; cbn; [reflexivity|].
  destruct (droppedByEscape c) eqn:Ed; cbn.
  - rewrite (escapeUnit_dropped _ Ed). exact IH.
  - rewrite IH. reflexivity.
Qed.

(** The texts of the code units that are kept form a prefix code. *)
Lemma escapeUnit_prefix_free (x y : char) (u v : jsstring) :
  droppedByEscape x = false ->
  droppedByEscape y = false ->
  escapeUnit x ++ u = escapeUnit y ++ v ->
  x = y /\ u = v.
Proof.
  unfold escapeUnit. intros Hx Hy. rewrite Hx, Hy.
  destruct (N.eqb_spec x 92) as [->|X92];
    [|destruct (N.eqb_spec x 34) as [->|X34];
      [|destruct (N.eqb_spec x 10) as [->|X10];
        [|destruct (N.eqb_spec x 13) as [->|X13];
          [|destruct (N.eqb_spec x 9) as [->|X9]]]]];
  (destruct (N.eqb_spec y 92) as [->|Y92];
    [|destruct (N.eqb_spec y 34) as [->|Y34];
      [|destruct (N.eqb_spec y 10) as [->|Y10];
        [|destruct (N.eqb_spec y 13) as [->|Y13];
          [|destruct (N.eqb_spec y 9) as [->|Y9]]]]]);
  cbn [app]; intros E; injection E; intros; subst;
    try discriminate; try contradiction; auto.
Qed.

Lemma filter_head_kept {A} (p : A -> bool) (l : list A) (x : A)
    (r : list A) :
  filter p l = x :: r -> p x = true.
Proof.
  intros E.
  assert (Hin : In x (filter p l)) by (rewrite E; left; reflexivity).
  apply filter_In in Hin. apply Hin.
Qed.

Lemma escapeUnit_kept_nonempty (c : char) :
  droppedByEscape c = false -> escapeUnit c <> [].
Proof.
  unfold escapeUnit. intros ->.
  repeat match goal with
         | |- (if ?b then _ else _) <> _ => destruct b; [discriminate|]
         end.
  discriminate.
Qed.

Lemma escape_injective_kept (a : jsstring) :
  forall b,
    Forall (fun c => droppedByEscape c = false) a ->
    Forall (fun c => droppedByEscape c = false) b ->
    flat_map escapeUnit a = flat_map escapeUnit b ->
    a = b.
Proof.
  induction a as [|x a IH]; intros [|y b] Ha Hb E.
  - reflexivity.
  - exfalso. cbn in E. inversion Hb as [|? ? Hy _]; subst.
    symmetry in E. apply app_eq_nil in E.
    exact (@escapeUnit_kept_nonempty y Hy (proj1 E)).
  - exfalso. cbn in E. inversion Ha as [|? ? Hx _]; subst.
    apply app_eq_nil in E.
    exact (@escapeUnit_kept_nonempty x Hx (proj1 E)).
  - inversion Ha as [|? ? Hx Ha']; inversion Hb as [|? ? Hy Hb']; subst.
    cbn in E.
    destruct (@escapeUnit_prefix_free x y _ _ Hx Hy E) as [-> E'].
    f_equal. exact (IH _ Ha' Hb' E').
Qed.

Lemma withoutDropped_kept (s : jsstring) :
  Forall (fun c => droppedByEscape c = false) (withoutDropped s).
Proof.
  apply Forall_forall. intros c Hc. apply filter_In in Hc.
  destruct Hc as [_ Hc]. destruct (droppedByEscape c); [discriminate|auto].
Qed.

(** X23: escaping loses nothing but the code units it removes: two values
    have the same escaped text exactly when they are equal once NUL and the
    line and paragraph separators are left out. *)
Theorem escapeYamlString_injective (a b : jsstring) :
  escapeYamlString a = escapeYamlString b
  <-> withoutDropped a = withoutDropped b.
Proof.
  rewrite !escapeYamlString_per_unit.
  rewrite (escape_withoutDropped a), (escape_withoutDropped b).
  split.
  - apply escape_injective_kept; apply withoutDropped_kept.
  - intros ->. reflexivity.
Qed.

(** A value with a NUL in it and the same value without. *)
Lemma escapeYamlString_injective_witness :
  escapeYamlString (str "a" ++ [0%N] ++ str "b")
  = escapeYamlString (str "ab").
Proof.
  apply (proj2 (escapeYamlString_injective
                  (str "a" ++ [0%N] ++ str "b") (str "ab"))).
  reflexivity.
Defined.

(* ------------------------------------------------------------------ *)
(** ** The middle segment of a token *)

Lemma padded_length (n : nat) : (n + (4 - n mod 4) mod 4) mod 4 = 0.
Proof.
  pose proof (Nat.div_mod_eq n 4) as Hn.
  pose proof (Nat.mod_upper_bound n 4 ltac:(lia)) as Hr.
  remember (n mod 4) as r eqn:Er. remember (n / 4) as q eqn:Eq.
  clear Er Eq. subst n.
  destruct r as [|[|[|[|r]]]]; try lia.
  - change ((4 - 0) mod 4) with 0.
    replace (4 * q + 0 + 0) with (q * 4) by lia. apply Nat.Div0.mod_mul.
  - change ((4 - 1) mod 4) with 3.
    replace (4 * q + 1 + 3) with ((q + 1) * 4) by lia.
    apply Nat.Div0.mod_mul.
  - change ((4 - 2) mod 4) with 2.
    replace (4 * q + 2 + 2) with ((q + 1) * 4) by lia.
    apply Nat.Div0.mod_mul.
  - change ((4 - 3) mod 4) with 1.
    replace (4 * q + 3 + 1) with ((q + 1) * 4) by lia.
    apply Nat.Div0.mod_mul.
Qed.

(** X24: the text handed to [atob] has a length that is a multiple of four,
    at most three code units more than the segment, and holds neither of
    the two characters that only the URL alphabet has. *)
Theorem toBase64_shape (segment : jsstring) :
  List.length (toBase64 segment) mod 4 = 0
  /\ List.length segment <= List.length (toBase64 segment)
     <= List.length segment + 3
  /\ Forall (fun c => c <> 45%N /\ c <> 95%N) (toBase64 segment).
Proof.
  unfold toBase64. cbv zeta.
  rewrite length_app, repeat_length, !length_map.
  split; [apply padded_length|]. split.
  - pose proof (Nat.mod_upper_bound (4 - List.length segment mod 4) 4
                  ltac:(lia)) as Hpad.
    unfold char in *.
    remember ((4 - List.length segment mod 4) mod 4) as pad. lia.
  - apply Forall_app. split.
    + apply Forall_forall. intros c Hc.
      apply in_map_iff in Hc. destruct Hc as (c1 & <- & Hc1).
      apply in_map_iff in Hc1. destruct Hc1 as (c0 & <- & _).
      destruct (N.eqb_spec c0 45) as [->|H45]; cbn; [split; discriminate|].
      destruct (N.eqb_spec c0 95) as [->|H95]; [split; discriminate|].
      split; assumption.
    + apply Forall_forall. intros c Hc. apply repeat_spec in Hc. subst c.
      split; discriminate.
Qed.

(* ------------------------------------------------------------------ *)
(** ** The plugin between runs *)

Lemma step_keeps_controller (sys sys' : System) :
  syncAbortController (plugin sys) = syncing (plugin sys) ->
  step sys sys' ->
  syncAbortController (plugin sys') = syncing (plugin sys').
Proof.
  intros Inv St. destruct St as [silent sys|silent o sys before after E| |];
    cbn; try exact Inv; try reflexivity.
  unfold triggerSync_enter.
  destruct (syncing (plugin sys)) eqn:Es, silent; cbn; congruence.
Qed.

(** X25: in every reachable state the plugin holds an abort controller
    exactly while its flag is up, so that the cancel command finds one
    exactly while a run is awaited. *)
Theorem controller_while_syncing (sys : System) :
  reachable sys ->
  syncAbortController (plugin sys) = syncing (plugin sys)
  /\ (syncAbortController (plugin sys) = true <-> running sys <> []).
Proof.
  intros R.
  assert (Hc : syncAbortController (plugin sys) = syncing (plugin sys)).
  { induction R as [|sys sys' _ IH St]; [reflexivity|].
    exact (step_keeps_controller IH St). }
  split; [exact Hc|]. rewrite Hc.
  destruct (reachable_flagMatchesRuns R) as [[Er Es]|[s [Er Es]]];
    rewrite Er, Es; split; congruence.
Qed.

Lemma step_keeps_auto_sync_off (sys sys' : System) :
  (MAX_AUTH_FAILURES <= consecutiveAuthFailures (plugin sys) ->
   autoSyncIntervalId (plugin sys) = None) ->
  step sys sys' ->
  MAX_AUTH_FAILURES <= consecutiveAuthFailures (plugin sys') ->
  autoSyncIntervalId (plugin sys') = None.
Proof.
  unfold MAX_AUTH_FAILURES.
  intros Inv St. destruct St as [silent sys|silent o sys before after E| |];
    cbn.
  - unfold triggerSync_enter.
    destruct (syncing (plugin sys)), silent; cbn; exact Inv.
  - unfold triggerSync_settle, MAX_AUTH_FAILURES.
    destruct o, silent; cbn; try exact Inv; try lia.
    destruct (consecutiveAuthFailures (plugin sys)) as [|[|n]]; cbn;
      try lia; reflexivity.
  - lia.
  - reflexivity.
Qed.

(** X26: in every reachable state in which three or more consecutive silent
    authentication failures are counted, the auto-sync timer is off: the
    third failure stops it, and starting it again resets the count. *)
Theorem auto_sync_off_after_failures (sys : System) :
  reachable sys ->
  MAX_AUTH_FAILURES <= consecutiveAuthFailures (plugin sys) ->
  autoSyncIntervalId (plugin sys) = None.
Proof.
  induction 1 as [|sys sys' _ IH St].
  - unfold MAX_AUTH_FAILURES. cbn. lia.
  - exact (step_keeps_auto_sync_off IH St).
Qed.

Lemma reachable_silentAuthFailure (sys : System) :
  running sys = [] ->
  syncing (plugin sys) = false ->
  reachable sys -> reachable (silentAuthFailure sys).
Proof.
  intros Er Es R.
  pose proof (reachable_step R (step_trigger true sys)) as R1.
  unfold triggerSync_enter in R1. rewrite Es, Er in R1. cbn in R1.
  match type of R1 with
  | reachable ?sys1 =>
      pose proof (reachable_step R1
                    (@step_settle true SyncAuthFatal sys1 [] [] eq_refl))
        as R2
  end.
  unfold silentAuthFailure, triggerSync_enter. rewrite Es. exact R2.
Qed.

Lemma reachable_threeSilentFailures : reachable threeSilentFailures.
Proof.
  unfold threeSilentFailures.
  repeat (apply reachable_silentAuthFailure; [reflexivity|reflexivity|]).
  exact (reachable_step reachable_initial
           (step_startAutoSync 7 initialSystem)).
Qed.

(** After one manual trigger. *)
Lemma controller_while_syncing_witness :
  let sys :=
    {| plugin := fst (triggerSync_enter false initialPlugin);
       running := [false] |} in
  syncAbortController (plugin sys) = true.
Proof.
  cbv zeta.
  refine (proj2 (proj2 (@controller_while_syncing
                          {| plugin := fst (triggerSync_enter false initialPlugin);
                             running := [false] |} _)) _).
  - exact (reachable_step reachable_initial (step_trigger false initialSystem)).
  - discriminate.
Defined.

(** Auto-sync started, then three timer ticks that end in an authentication
    failure. *)
Lemma auto_sync_off_after_failures_witness :
  consecutiveAuthFailures (plugin threeSilentFailures) = 3
  /\ autoSyncIntervalId (plugin threeSilentFailures) = None
  /\ notices (plugin threeSilentFailures) = [NoticeAutoSyncStopped].
Proof.
  split; [reflexivity|]. split; [|reflexivity].
  apply (auto_sync_off_after_failures reachable_threeSilentFailures).
  unfold MAX_AUTH_FAILURES. cbn. lia.
Defined.

(* ------------------------------------------------------------------ *)
(** ** The record of a note *)

Section RecordFacts.

Context `{Rendering}.




End RecordFacts.

